(** * ESSL agent backend: device registry, command router, stream engine

    A shallow embedding of the orchestration core of the agent
    (app/core/v1/essl.py, device_pool.py, stream_manager.py, stream.py)
    together with the properties its specification states about it.

    Python values that cross the JSON boundary are kept dynamically typed
    ([value]); dictionaries with a fixed key set are records; the registry
    and the coordinator, which are keyed by device id, are finite maps.
    Functions that can raise return an [outcome]. *)

From Stdlib Require Import ZArith List Lia Bool Sorted Permutation.
From stdpp Require Import base option list strings gmap fin_maps pretty.

Local Open Scope Z_scope.
Set Warnings "-register-all".

(** ** Python values *)

Inductive value : Type :=
| VNone
| VBool (b : bool)
| VInt (z : Z)
| VStr (s : string)
| VDatetime (epoch : Z)      (* a timezone-aware datetime dt, kept as int(dt.timestamp()) *)
| VList (l : list value)
| VDict (d : list (string * value)).

(** A JSON object / keyword-argument mapping, in insertion order. *)
Definition dict : Type := list (string * value).

Fixpoint dict_get {A : Type} (k : string) (d : list (string * A)) : option A :=
  match d with
  | [] => None
  | (k', v) :: d' => if String.eqb k k' then Some v else dict_get k d'
  end.

(** [d.get(k)] and [d.get(k, default)]. *)
Definition get (k : string) (d : dict) : value :=
  match dict_get k d with Some v => v | None => VNone end.

Definition get_default (k : string) (dflt : value) (d : dict) : value :=
  match dict_get k d with Some v => v | None => dflt end.

(** [d[k] = v]: overwrite in place, or append a new key. *)
Fixpoint dict_set (k : string) (v : value) (d : dict) : dict :=
  match d with
  | [] => [(k, v)]
  | (k', v') :: d' =>
      if String.eqb k k' then (k, v) :: d' else (k', v') :: dict_set k v d'
  end.

(** Python truthiness ([if x:], [not x], [x or y]). Datetimes are always true. *)
Definition truthy (v : value) : bool :=
  match v with
  | VNone => false
  | VBool b => b
  | VInt z => negb (z =? 0)
  | VStr s => negb (String.eqb s "")
  | VDatetime _ => true
  | VList l => match l with [] => false | _ => true end
  | VDict d => match d with [] => false | _ => true end
  end.

Definition is_none (v : value) : bool :=
  match v with VNone => true | _ => false end.

Definition is_dict (v : value) : bool :=
  match v with VDict _ => true | _ => false end.

Definition is_list (v : value) : bool :=
  match v with VList _ => true | _ => false end.

(** Python [==] on values: structural, with [True == 1] and [False == 0];
    dictionaries compare without regard to order. *)
Fixpoint py_eqb (a b : value) {struct a} : bool :=
  match a, b with
  | VNone, VNone => true
  | VBool x, VBool y => Bool.eqb x y
  | VBool x, VInt y => Z.b2z x =? y
  | VInt x, VBool y => x =? Z.b2z y
  | VInt x, VInt y => x =? y
  | VStr x, VStr y => String.eqb x y
  | VDatetime x, VDatetime y => x =? y
  | VList x, VList y =>
      (fix go (x y : list value) {struct x} : bool :=
         match x, y with
         | [], [] => true
         | a' :: x', b' :: y' => py_eqb a' b' && go x' y'
         | _, _ => false
         end) x y
  | VDict x, VDict y =>
      (length x =? length y)%nat &&
      (fix go (x : list (string * value)) {struct x} : bool :=
         match x with
         | [] => true
         | (k, a') :: x' =>
             match dict_get k y with
             | Some b' => py_eqb a' b' && go x'
             | None => false
             end
         end) x
  | _, _ => false
  end.

(** ** Exceptions and results *)

Inductive exn : Type :=
| DeviceError (msg : string)
| TypeError (msg : string)
| AttributeError (msg : string)
| QueueFull
| OtherError (msg : string).

Definition exn_msg (e : exn) : string :=
  match e with
  | DeviceError m | TypeError m | AttributeError m | OtherError m => m
  | QueueFull => ""
  end.

Inductive outcome (A : Type) : Type :=
| Ret (a : A)
| Raise (e : exn).
Arguments Ret {A} a.
Arguments Raise {A} e.

#[export] Instance outcome_ret : MRet outcome := fun A a => Ret a.

#[export] Instance outcome_bind : MBind outcome := fun A B f m =>
  match m with
  | Ret a => f a
  | Raise e => Raise e
  end.

#[export] Instance outcome_fmap : FMap outcome := fun A B f m =>
  match m with
  | Ret a => Ret (f a)
  | Raise e => Raise e
  end.

(** [try: body except Exception as e: raise DeviceError(f"{prefix}{e}")] *)
Definition rewrap {A : Type} (prefix : string) (m : outcome A) : outcome A :=
  match m with
  | Ret a => Ret a
  | Raise e => Raise (DeviceError (prefix +:+ exn_msg e))
  end.

Definition returns {A : Type} (m : outcome A) : bool :=
  match m with Ret _ => true | Raise _ => false end.

(** ** app/core/v1/essl.py *)

Module Essl.

(** A user record as the driver returns it. *)
Record User : Type := mkUser {
  uid : Z;
  user_id : value;
  name : value;
  privilege : value;
  password : value;
  card : value
}.

(** A raw attendance object of the driver.  [timestamp] is the naive
    wall-clock reading in seconds when the attribute is a datetime, and
    [None] otherwise. *)
Record Attendance : Type := mkAttendance {
  att_user_id : value;
  att_timestamp : option Z;
  att_status : value;
  att_punch : value;
  att_uid : value
}.

(** The open session [self.conn]: the users stored on the terminal, the
    attendance log, and whether the next driver call of each kind fails. *)
Record ZKConn : Type := mkConn {
  zk_users : list User;
  zk_attendance : list Attendance;
  zk_get_users_ok : bool;
  zk_get_attendance_ok : bool;
  zk_set_user_ok : bool;
  zk_writes : list User       (* every set_user call so far, oldest first *)
}.

Record ESSLDeviceCore : Type := mkCore {
  device_ip : value;
  port : value;
  core_password : value;
  conn : option ZKConn
}.

Definition IST_OFFSET : Z := 5 * 3600 + 30 * 60.

(** [_format_datetime]: the wall-clock reading is taken as IST and
    converted to the UTC epoch. *)
Definition _format_datetime (dt : option Z) : option Z :=
  match dt with
  | Some wall => Some (wall - IST_OFFSET)
  | None => None
  end.

Definition _ensure_connected (core : ESSLDeviceCore) : outcome ZKConn :=
  match conn core with
  | Some c => Ret c
  | None => Raise (DeviceError "Not connected to device. Call connect() first.")
  end.

(** The dictionary built for each attendance record. *)
Record LogDict : Type := mkLog {
  l_user_id : value;
  l_timestamp : option Z;
  l_status : value;
  l_punch : value;
  l_uid : value
}.

Definition to_log (log : Attendance) : LogDict :=
  {| l_user_id := att_user_id log;
     l_timestamp := _format_datetime (att_timestamp log);
     l_status := att_status log;
     l_punch := att_punch log;
     l_uid := att_uid log |}.

(** [l["timestamp"] and l["timestamp"] >= start_epoch] *)
Definition ts_ge (start_epoch : Z) (l : LogDict) : bool :=
  match l_timestamp l with
  | None => false
  | Some t => negb (t =? 0) && (start_epoch <=? t)
  end.

(** [l["timestamp"] and l["timestamp"] <= end_epoch] *)
Definition ts_le (end_epoch : Z) (l : LogDict) : bool :=
  match l_timestamp l with
  | None => false
  | Some t => negb (t =? 0) && (t <=? end_epoch)
  end.

(** [x["timestamp"] or 0] *)
Definition sort_key (l : LogDict) : Z :=
  match l_timestamp l with
  | None => 0
  | Some t => t
  end.

(** [logs.sort(key=..., reverse=True)]: descending, and stable (records with
    equal keys keep their order). *)
Fixpoint insert_desc (x : LogDict) (l : list LogDict) : list LogDict :=
  match l with
  | [] => [x]
  | y :: l' =>
      if sort_key y <=? sort_key x then x :: y :: l'
      else y :: insert_desc x l'
  end.

Definition sort_desc (l : list LogDict) : list LogDict :=
  fold_right insert_desc [] l.

Definition newest_first (l : list LogDict) : Prop :=
  Sorted (fun a b => sort_key b <= sort_key a) l.

(** [logs[:n]] *)
Definition slice_to (n : Z) (l : list LogDict) : list LogDict :=
  if 0 <=? n then firstn (Z.to_nat n) l
  else firstn (Z.to_nat (Z.of_nat (length l) + n)) l.

(** [int(start_time.astimezone(timezone.utc).timestamp())] of a truthy
    argument: the whole seconds of the datetime, its microseconds cut off. *)
Definition epoch_of (v : value) : outcome Z :=
  match v with
  | VDatetime e => Ret e
  | _ => Raise (AttributeError "object has no attribute 'astimezone'")
  end.

(** The datetime that lies [micros] microseconds after the epoch, as the
    program reads it: [int(dt.astimezone(timezone.utc).timestamp())] cuts
    the microseconds off, towards zero.  (The float of [timestamp()] is
    within half a microsecond of the moment for every datetime within
    five centuries of 1970, so that the cut is exact there.) *)
Definition datetime_at (micros : Z) : value :=
  VDatetime (Z.quot micros 1000000).

Definition filter_start (start_time : value) (logs : list LogDict)
  : outcome (list LogDict) :=
  if truthy start_time then
    start_epoch ← epoch_of start_time;
    Ret (List.filter (ts_ge start_epoch) logs)
  else Ret logs.

Definition filter_end (end_time : value) (logs : list LogDict)
  : outcome (list LogDict) :=
  if truthy end_time then
    end_epoch ← epoch_of end_time;
    Ret (List.filter (ts_le end_epoch) logs)
  else Ret logs.

Definition filter_user (uid_filter : value) (logs : list LogDict) : list LogDict :=
  if truthy uid_filter then
    List.filter (fun l => py_eqb (l_user_id l) uid_filter) logs
  else logs.

Definition apply_limit (limit : value) (logs : list LogDict)
  : outcome (list LogDict) :=
  if truthy limit then
    match limit with
    | VInt n => Ret (slice_to n logs)
    | VBool b => Ret (slice_to (Z.b2z b) logs)
    | _ => Raise (TypeError "slice indices must be integers or None")
    end
  else Ret logs.

Definition get_attendance (core : ESSLDeviceCore)
    (start_time end_time uid_filter limit : value) : outcome (list LogDict) :=
  c ← _ensure_connected core;
  rewrap "Failed to get attendance: "
    (raw_logs ← (if zk_get_attendance_ok c then Ret (zk_attendance c)
                  else Raise (OtherError "driver failure"));
     let logs := List.map to_log raw_logs in
     logs ← filter_start start_time logs;
     logs ← filter_end end_time logs;
     let logs := filter_user uid_filter logs in
     let logs := sort_desc logs in
     apply_limit limit logs).

(** [conn.set_user(...)]: the terminal keeps one record per uid slot, so a
    write replaces the record in that slot or adds a new one. *)
Fixpoint store_user (u : User) (us : list User) : list User :=
  match us with
  | [] => [u]
  | v :: us' => if uid v =? uid u then u :: us' else v :: store_user u us'
  end.

Definition set_user (u : User) (c : ZKConn) : outcome ZKConn :=
  if zk_set_user_ok c then
    Ret {| zk_users := store_user u (zk_users c);
           zk_attendance := zk_attendance c;
           zk_get_users_ok := zk_get_users_ok c;
           zk_get_attendance_ok := zk_get_attendance_ok c;
           zk_set_user_ok := zk_set_user_ok c;
           zk_writes := zk_writes c ++ [u] |}
  else Raise (OtherError "driver failure").

Definition with_conn (core : ESSLDeviceCore) (c : ZKConn) : ESSLDeviceCore :=
  {| device_ip := device_ip core; port := port core;
     core_password := core_password core; conn := Some c |}.

(** [x if x is not None else existing] *)
Definition keep_or (x existing : value) : value :=
  match x with
  | VNone => existing
  | _ => x
  end.

(** [next((u for u in users if u.uid == uid), None)] *)
Definition find_user (uid' : Z) (us : list User) : option User :=
  List.find (fun u => uid u =? uid') us.

Definition merged_user (existing : User) (name' privilege' password' card' : value)
  : User :=
  {| uid := uid existing;
     user_id := user_id existing;
     name := keep_or name' (name existing);
     privilege := keep_or privilege' (privilege existing);
     password := keep_or password' (password existing);
     card := keep_or card' (card existing) |}.

Definition update_user (core : ESSLDeviceCore) (uid' : Z)
    (name' privilege' password' card' : value)
  : outcome dict * ESSLDeviceCore :=
  match _ensure_connected core with
  | Raise e => (Raise e, core)
  | Ret c =>
      let (r, core') :=
        match (if zk_get_users_ok c then Ret (zk_users c)
               else Raise (OtherError "driver failure")) with
        | Raise e => (Raise e, core)
        | Ret users =>
            match find_user uid' users with
            | None =>
                (Raise (DeviceError
                          ("User with UID " +:+ pretty uid' +:+ " not found on device")),
                 core)
            | Some existing_user =>
                match set_user
                        (merged_user existing_user name' privilege' password' card') c with
                | Raise e => (Raise e, core)
                | Ret c' =>
                    (Ret [("success", VBool true);
                          ("message",
                           VStr ("User " +:+ pretty uid' +:+ " updated successfully"))],
                     with_conn core c')
                end
            end
        end in
      (rewrap "Failed to update user: " r, core')
  end.

Section Users.

(** [str(x)], the builtin. *)
Variable py_str : value -> string.

(** [_decode_bytes] on a value that is not a bytes object. *)
Definition _decode_bytes (v : value) : value :=
  match v with
  | VNone => VNone
  | _ => VStr (py_str v)
  end.

(** [_format_card]: [card in (None, 0, "0", "")] compares with [==]. *)
Definition _format_card (card' : value) : value :=
  if py_eqb card' VNone || py_eqb card' (VInt 0) || py_eqb card' (VStr "0")
     || py_eqb card' (VStr "")
  then VNone
  else VStr (py_str card').

(** The dictionary built for each user. *)
Record UserDict : Type := mkUserDict {
  d_uid : Z;
  d_user_id : value;
  d_name : value;
  d_privilege : value;
  d_card : value;
  d_password : value
}.

Definition to_user_dict (u : User) : UserDict :=
  {| d_uid := uid u;
     d_user_id := _decode_bytes (user_id u);
     d_name := _decode_bytes (name u);
     d_privilege := privilege u;
     d_card := _format_card (card u);
     d_password := password u |}.

Definition user_value (u : UserDict) : value :=
  VDict [("uid", VInt (d_uid u)); ("user_id", d_user_id u); ("name", d_name u);
         ("privilege", d_privilege u); ("card", d_card u);
         ("password", d_password u)].

Definition get_users (core : ESSLDeviceCore) : outcome (list UserDict) :=
  c ← _ensure_connected core;
  rewrap "Failed to get users: "
    (raw_users ← (if zk_get_users_ok c then Ret (zk_users c)
                   else Raise (OtherError "driver failure"));
     Ret (List.map to_user_dict raw_users)).

Definition get_user_by_uid (core : ESSLDeviceCore) (uid' : value)
  : outcome (option UserDict) :=
  users ← get_users core;
  Ret (List.find (λ user, py_eqb (VInt (d_uid user)) uid') users).

(** [max(u["uid"] for u in existing_users if u["uid"]) + 1], or 1 when
    there is no user; [max] of nothing is a ValueError. *)
Definition next_uid (existing_users : list UserDict) : outcome Z :=
  match existing_users with
  | [] => Ret 1
  | _ =>
      match List.filter (λ z, negb (z =? 0)) (List.map d_uid existing_users) with
      | [] => Raise (OtherError "max() arg is an empty sequence")
      | z :: zs => Ret (fold_left Z.max zs z + 1)
      end
  end.

(** [except DeviceError: raise] followed by
    [except Exception as e: raise DeviceError(f"{prefix}{e}")] *)
Definition rewrap_others {A : Type} (prefix : string) (m : outcome A) : outcome A :=
  match m with
  | Raise (DeviceError msg) => Raise (DeviceError msg)
  | other => rewrap prefix other
  end.

Definition create_user (core : ESSLDeviceCore)
    (user_id' name' privilege' password' card' : value)
  : outcome dict * ESSLDeviceCore :=
  match _ensure_connected core with
  | Raise e => (Raise e, core)
  | Ret c =>
      let (r, core') :=
        match get_users core with
        | Raise e => (Raise e, core)
        | Ret existing_users =>
            if existsb (λ u, py_eqb (d_user_id u) user_id') existing_users then
              (Raise (DeviceError ("User ID '" +:+ py_str user_id' +:+ "' already exists")),
               core)
            else
              match next_uid existing_users with
              | Raise e => (Raise e, core)
              | Ret next_uid' =>
                  match set_user
                          {| uid := next_uid'; user_id := user_id'; name := name';
                             privilege := privilege';
                             password := if truthy password' then password' else VStr "";
                             card := card' |} c with
                  | Raise e => (Raise e, core)
                  | Ret c' =>
                      (Ret [("success", VBool true);
                            ("message",
                             VStr ("User " +:+ py_str user_id' +:+ " created successfully"));
                            ("uid", VInt next_uid');
                            ("user_id", user_id')],
                       with_conn core c')
                  end
              end
        end in
      (rewrap_others "Failed to create user: " r, core')
  end.

End Users.

(** What [int(x)] gives: a number, a ValueError or a TypeError. *)
Inductive IntResult : Type :=
| IntOk (z : Z)
| IntValueError (msg : string)
| IntTypeError (msg : string).

Section Connection.

(** The builtins [str] and [int], and the driver: [zk_connect ip port
    password] is what [ZK(ip, port=port, password=password, ...).connect()]
    does. *)
Variable py_str : value -> string.
Variable py_int : value -> IntResult.
Variable zk_connect : value -> Z -> Z -> outcome ZKConn.

(** [connect].  Every core of the program is built with the default
    timeout, 10, which passes the checks made on it. *)
Definition connect (core : ESSLDeviceCore) : outcome unit * ESSLDeviceCore :=
  match conn core with
  | Some _ => (Ret tt, core)
  | None =>
      let target := py_str (device_ip core) +:+ ":" +:+ py_str (port core) in
      let failed (msg : string) : outcome unit * ESSLDeviceCore :=
        (Raise (DeviceError ("Failed to connect to " +:+ target +:+ " - " +:+ msg)),
         core) in
      let invalid (msg : string) : outcome unit * ESSLDeviceCore :=
        (Raise (DeviceError ("Invalid parameter value for " +:+ target +:+ " - " +:+ msg)),
         core) in
      if is_none (port core) then
        failed ("Port is None for device " +:+ py_str (device_ip core))
      else if is_none (core_password core) then
        failed ("Password is None for device " +:+ py_str (device_ip core))
      else
        match py_int (port core) with
        | IntValueError msg => invalid msg
        | IntTypeError msg => failed msg
        | IntOk port_int =>
            match py_int (core_password core) with
            | IntValueError msg => invalid msg
            | IntTypeError msg => failed msg
            | IntOk password_int =>
                match zk_connect (device_ip core) port_int password_int with
                | Ret c => (Ret tt, with_conn core c)
                | Raise e => failed (exn_msg e)
                end
            end
        end
  end.

(** [disconnect]: a failure of the driver is swallowed. *)
Definition disconnect (core : ESSLDeviceCore) : ESSLDeviceCore :=
  {| device_ip := device_ip core; port := port core;
     core_password := core_password core; conn := None |}.

(** [with self.connection(): body] *)
Definition connection {A : Type}
    (body : ESSLDeviceCore -> outcome A * ESSLDeviceCore) (core : ESSLDeviceCore)
  : outcome A * ESSLDeviceCore :=
  let (connected, core) := connect core in
  match connected with
  | Raise e => (Raise e, disconnect core)
  | Ret _ => let (r, core) := body core in (r, disconnect core)
  end.

End Connection.

(** What the terminal says about itself: firmware version, platform,
    serial number, and its clock as a naive wall-clock reading ([None] when
    the driver returns no datetime). *)
Record DeviceFacts : Type := mkFacts {
  firmware : value;
  platform : value;
  serial_number : value;
  device_time : option Z
}.

Section DeviceInfo.

(** The driver calls of [get_device_info], on an open session. *)
Variable zk_facts : ZKConn -> outcome DeviceFacts.

Definition get_device_info (core : ESSLDeviceCore) : outcome dict :=
  c ← _ensure_connected core;
  rewrap "Failed to get device info: "
    (facts ← zk_facts c;
     Ret [("ip", device_ip core);
          ("port", port core);
          ("firmware", firmware facts);
          ("platform", platform facts);
          ("serial_number", serial_number facts);
          ("device_time",
           match _format_datetime (device_time facts) with
           | Some t => VInt t
           | None => VNone
           end)]).

End DeviceInfo.

(** [1 <= seconds <= 60]; comparing a number with anything else is a
    TypeError. *)
Definition unlock_seconds (seconds : value) : outcome Z :=
  match seconds with
  | VInt z => Ret z
  | VBool b => Ret (Z.b2z b)
  | _ => Raise (TypeError "'<=' not supported between instances of 'int' and this type")
  end.

Section Unlock.

Variable py_str : value -> string.

(** [self.conn.unlock(n)] *)
Variable zk_unlock : ZKConn -> Z -> outcome unit.

Definition unlock_door (core : ESSLDeviceCore) (seconds : value) : outcome dict :=
  c ← _ensure_connected core;
  n ← unlock_seconds seconds;
  if negb ((1 <=? n) && (n <=? 60)) then
    Raise (DeviceError "Unlock duration must be between 1-60 seconds")
  else
    rewrap "Failed to unlock door: "
      (_ ← zk_unlock c n;
       Ret [("success", VBool true);
            ("seconds", seconds);
            ("message", VStr ("Door unlocked for " +:+ py_str seconds +:+ " seconds"))]).

End Unlock.

End Essl.

(** ** app/core/v1/device_pool.py: the registry *)

Module DevicePool.

Definition DEFAULT_PORT : Z := 4370.
Definition DEFAULT_PASSWORD : Z := 0.
Definition DEFAULT_TIMEOUT : Z := 10.

Record DeviceInfo : Type := mkDeviceInfo {
  device_id : string;
  device_ip : value;
  port : value;
  password : value;
  timeout : value;
  name : value;
  location : value;
  is_active : bool;
  last_seen : value
}.

Definition to_dict (d : DeviceInfo) : dict :=
  [("device_id", VStr (device_id d));
   ("device_ip", device_ip d);
   ("port", port d);
   ("name", name d);
   ("location", location d);
   ("is_active", VBool (is_active d));
   ("last_seen", last_seen d)].

(** The manager: the two maps keyed by device id, and the contents of
    data.json ([None] while the file does not exist).  [fs_writable] says
    whether opening the file for writing succeeds. *)
Record DevicePoolManager : Type := mkPool {
  devices : gmap string DeviceInfo;
  device_cores : gmap string Essl.ESSLDeviceCore;
  data_file : option (gmap string dict);
  fs_writable : bool
}.

Definition empty_pool : DevicePoolManager :=
  {| devices := ∅; device_cores := ∅; data_file := None; fs_writable := true |}.

(** [_save_devices]: rewrites the file from [self.devices]; a failure is
    printed and swallowed. *)
Definition _save_devices (p : DevicePoolManager) : DevicePoolManager :=
  if fs_writable p then
    {| devices := devices p; device_cores := device_cores p;
       data_file := Some (to_dict <$> devices p);
       fs_writable := fs_writable p |}
  else p.

(** [x if x is not None else default], for an argument that may also have
    been left out of the call ([None] here). *)
Definition or_default (arg : option value) (dflt : Z) : value :=
  match arg with
  | None => VInt dflt
  | Some VNone => VInt dflt
  | Some v => v
  end.

Definition register_device (device_id' : string) (device_ip' : value)
    (port' password' : option value) (name' location' : value)
    (p : DevicePoolManager) : dict * DevicePoolManager :=
  match devices p !! device_id' with
  | Some _ =>
      ([("success", VBool false);
        ("message", VStr ("Device " +:+ device_id' +:+ " already registered"));
        ("device_id", VStr device_id')], p)
  | None =>
      let actual_port := or_default port' DEFAULT_PORT in
      let actual_password := or_default password' DEFAULT_PASSWORD in
      let device_info :=
        {| device_id := device_id'; device_ip := device_ip';
           port := actual_port; password := actual_password;
           timeout := VInt DEFAULT_TIMEOUT;
           name := name'; location := location';
           is_active := true; last_seen := VNone |} in
      let device_core :=
        {| Essl.device_ip := device_ip'; Essl.port := actual_port;
           Essl.core_password := actual_password; Essl.conn := None |} in
      let p' :=
        {| devices := <[device_id' := device_info]> (devices p);
           device_cores := <[device_id' := device_core]> (device_cores p);
           data_file := data_file p; fs_writable := fs_writable p |} in
      ([("success", VBool true);
        ("message", VStr ("Device " +:+ device_id' +:+ " registered successfully"));
        ("device", VDict (to_dict device_info))], _save_devices p')
  end.

Definition unregister_device (device_id' : string) (p : DevicePoolManager)
  : dict * DevicePoolManager :=
  match devices p !! device_id' with
  | None =>
      ([("success", VBool false);
        ("message", VStr ("Device " +:+ device_id' +:+ " not found"))], p)
  | Some _ =>
      let p' :=
        {| devices := delete device_id' (devices p);
           device_cores := delete device_id' (device_cores p);
           data_file := data_file p; fs_writable := fs_writable p |} in
      ([("success", VBool true);
        ("message", VStr ("Device " +:+ device_id' +:+ " unregistered successfully"))],
       _save_devices p')
  end.

Definition get_device_core (device_id' : string) (p : DevicePoolManager)
  : option Essl.ESSLDeviceCore :=
  device_cores p !! device_id'.

Definition get_device_info (device_id' : string) (p : DevicePoolManager)
  : option DeviceInfo :=
  devices p !! device_id'.

(** [list_devices] and [get_active_devices]; the order of the listing is
    not modelled. *)
Definition list_devices (p : DevicePoolManager) : list value :=
  (λ kv, VDict (to_dict kv.2)) <$> map_to_list (devices p).

Definition get_active_devices (p : DevicePoolManager) : list value :=
  (λ kv, VDict (to_dict kv.2)) <$>
    List.filter (λ kv, is_active kv.2) (map_to_list (devices p)).

(** The records the registry holds for one device id. *)
Definition records_for (device_id' : string) (p : DevicePoolManager)
  : list (string * DeviceInfo) :=
  filter (λ kv, kv.1 = device_id') (map_to_list (devices p)).

(** [register_devices_bulk].  Each entry of the batch is given as its
    "device_id" (a string, as every key of the registry) and the mapping the
    other members are read from. *)
Definition register_entry (entry : string * dict) (p : DevicePoolManager)
  : dict * DevicePoolManager :=
  let device_config := entry.2 in
  register_device entry.1 (get "device_ip" device_config)
    (Some (get_default "port" (VInt DEFAULT_PORT) device_config))
    (Some (get_default "password" (VInt DEFAULT_PASSWORD) device_config))
    (get "name" device_config) (get "location" device_config) p.

Record BulkResult : Type := mkBulk {
  bulk_succeeded : Z;
  bulk_failed : Z;
  bulk_details : list dict
}.

Definition register_each (batch : list (string * dict)) (p : DevicePoolManager)
  : BulkResult * DevicePoolManager :=
  fold_left
    (λ acc entry,
       let (result, p) := register_entry entry acc.2 in
       let r := acc.1 in
       if truthy (get "success" result) then
         (mkBulk (bulk_succeeded r + 1) (bulk_failed r) (bulk_details r ++ [result]), p)
       else
         (mkBulk (bulk_succeeded r) (bulk_failed r + 1) (bulk_details r ++ [result]), p))
    batch (mkBulk 0 0 [], p).

Definition register_devices_bulk (batch : list (string * dict)) (p : DevicePoolManager)
  : dict * DevicePoolManager :=
  let (r, p) := register_each batch p in
  ([("total", VInt (Z.of_nat (length batch)));
    ("succeeded", VInt (bulk_succeeded r));
    ("failed", VInt (bulk_failed r));
    ("details", VList (VDict <$> bulk_details r))], p).

(** [self.lock] is a [threading.Lock], which is not re-entrant: a thread
    that acquires it while it holds it waits for ever. *)
Inductive Locked (A : Type) : Type :=
| Done (a : A)
| Deadlock.
Arguments Done {A} a.
Arguments Deadlock {A}.

(** [with self.lock: body], entered while the lock is [held] or free. *)
Definition with_lock {A : Type} (held : bool) (body : Locked A) : Locked A :=
  if held then Deadlock else body.

(** [unregister_device], which takes the lock for its whole body. *)
Definition unregister_device_locked (held : bool) (device_id' : string)
    (p : DevicePoolManager) : Locked (dict * DevicePoolManager) :=
  with_lock held (Done (unregister_device device_id' p)).

(** [last_seen and isinstance(last_seen, int) and last_seen < cutoff_epoch] *)
Definition stale (cutoff_epoch : Z) (last_seen' : value) : bool :=
  match last_seen' with
  | VInt z => negb (z =? 0) && (z <? cutoff_epoch)
  | VBool b => b && (1 <? cutoff_epoch)
  | _ => false
  end.

(** [cleanup_inactive_devices], with the clock in milliseconds; the
    removals are made while the lock taken for the scan is still held. *)
Definition cleanup_inactive_devices (now_ms inactive_hours : Z) (held : bool)
    (p : DevicePoolManager) : Locked DevicePoolManager :=
  let cutoff_epoch := Z.quot (now_ms - inactive_hours * 3600 * 1000) 1000 in
  with_lock held
    (let to_remove :=
       (List.filter (λ kv, stale cutoff_epoch (last_seen kv.2))
          (map_to_list (devices p))).*1 in
     fold_left
       (λ acc device_id,
          match acc with
          | Done p =>
              match unregister_device_locked true device_id p with
              | Done rp => Done rp.2
              | Deadlock => Deadlock
              end
          | Deadlock => Deadlock
          end)
       to_remove (Done p)).

(** [_update_last_seen] *)
Definition _update_last_seen (now : Z) (device_id' : string) (p : DevicePoolManager)
  : DevicePoolManager :=
  match devices p !! device_id' with
  | Some d =>
      {| devices :=
           <[device_id' :=
               {| device_id := device_id d; device_ip := device_ip d; port := port d;
                  password := password d; timeout := timeout d; name := name d;
                  location := location d; is_active := is_active d;
                  last_seen := VInt now |}]> (devices p);
         device_cores := device_cores p;
         data_file := data_file p; fs_writable := fs_writable p |}
  | None => p
  end.

(** A method of the device core: what calling it with keyword arguments
    does to the core and returns. *)
Definition Method : Type :=
  dict -> Essl.ESSLDeviceCore -> outcome value * Essl.ESSLDeviceCore.

Definition routing_params : list string := ["device_id"; "device_ip"; "agent_id"].

Definition method_kwargs (kwargs : dict) : dict :=
  List.filter (λ kv, negb (existsb (String.eqb kv.1) routing_params)) kwargs.

(** The core an identifier stands for, with the id it is kept under in the
    registry: the core of the device with that id; else the core of a
    registered device with that address (which one, when several have it,
    is not modelled); else a new core for the identifier taken as an
    address, with the default port and password, kept nowhere. *)
Definition resolve (device_identifier : string) (p : DevicePoolManager)
  : option (option string * Essl.ESSLDeviceCore) :=
  if bool_decide (is_Some (devices p !! device_identifier)) then
    (λ core, (Some device_identifier, core)) <$> device_cores p !! device_identifier
  else
    match List.find (λ kv, py_eqb (device_ip kv.2) (VStr device_identifier))
            (map_to_list (devices p)) with
    | Some kv => (λ core, (Some kv.1, core)) <$> device_cores p !! kv.1
    | None =>
        Some (None,
              {| Essl.device_ip := VStr device_identifier;
                 Essl.port := VInt 4370; Essl.core_password := VInt 0;
                 Essl.conn := None |})
    end.

(** The core is an object shared with the registry: what the call does to
    it is seen by the registry. *)
Definition keep_core (home : option string) (core : Essl.ESSLDeviceCore)
    (p : DevicePoolManager) : DevicePoolManager :=
  match home with
  | Some k =>
      {| devices := devices p;
         device_cores := <[k := core]> (device_cores p);
         data_file := data_file p; fs_writable := fs_writable p |}
  | None => p
  end.

Section Execute.

Variable py_str : value -> string.
Variable py_int : value -> Essl.IntResult.
Variable zk_connect : value -> Z -> Z -> outcome Essl.ZKConn.

(** [getattr(device_core, operation, None)] when it is there and true. *)
Variable attribute : string -> Essl.ESSLDeviceCore -> option Method.

Definition execute_on_device (now : Z) (device_identifier operation : string)
    (kwargs : dict) (p : DevicePoolManager) : dict * DevicePoolManager :=
  let device_id' := device_identifier in
  match resolve device_identifier p with
  | None =>
      ([("success", VBool false);
        ("error", VStr ("Device " +:+ device_identifier +:+ " not found"));
        ("device_id", VStr device_id')], p)
  | Some (home, device_core) =>
      let (r, device_core) :=
        Essl.connection py_str py_int zk_connect
          (λ core,
             match attribute operation core with
             | None => (Ret None, core)
             | Some method =>
                 let (result, core) := method (method_kwargs kwargs) core in
                 (Some <$> result, core)
             end) device_core in
      let p := keep_core home device_core p in
      match r with
      | Ret None =>
          ([("success", VBool false);
            ("error", VStr ("Unknown operation: " +:+ operation));
            ("device_id", VStr device_id')], p)
      | Ret (Some result) =>
          ([("success", VBool true);
            ("device_id", VStr device_id');
            ("operation", VStr operation);
            ("result", result)], _update_last_seen now device_id' p)
      | Raise (TypeError msg) =>
          ([("success", VBool false);
            ("error", VStr ("Parameter error: " +:+ msg));
            ("device_id", VStr device_id');
            ("operation", VStr operation);
            ("hint", VStr "Check if method signature matches provided parameters")], p)
      | Raise (DeviceError msg) =>
          ([("success", VBool false);
            ("error", VStr msg);
            ("device_id", VStr device_id');
            ("operation", VStr operation)], p)
      | Raise e =>
          ([("success", VBool false);
            ("error", VStr ("Unexpected error: " +:+ exn_msg e));
            ("device_id", VStr device_id');
            ("operation", VStr operation)], p)
      end
  end.

End Execute.

(** The two maps of the registry have the same ids. *)
Definition maps_agree (p : DevicePoolManager) : Prop :=
  forall i, is_Some (devices p !! i) <-> is_Some (device_cores p !! i).

(** [b] is [a], but for the time it was last seen. *)
Definition same_but_last_seen (a b : DeviceInfo) : Prop :=
  device_id b = device_id a /\ device_ip b = device_ip a /\ port b = port a /\
  password b = password a /\ timeout b = timeout a /\ name b = name a /\
  location b = location a /\ is_active b = is_active a.

Section Health.

Variable py_str : value -> string.
Variable py_int : value -> Essl.IntResult.
Variable zk_connect : value -> Z -> Z -> outcome Essl.ZKConn.
Variable zk_facts : Essl.ZKConn -> outcome Essl.DeviceFacts.

(** [device_core.is_online()]: whether a TCP connection to the address and
    port of the core can be opened within three seconds. *)
Variable is_online : Essl.ESSLDeviceCore -> bool.

Definition check_device_health (now : Z) (device_id' : string) (p : DevicePoolManager)
  : dict * DevicePoolManager :=
  match get_device_core device_id' p, get_device_info device_id' p with
  | Some device_core, Some device_info =>
      let online := is_online device_core in
      let health :=
        [("device_id", VStr device_id');
         ("device_ip", device_ip device_info);
         ("online", VBool online);
         ("last_seen", last_seen device_info)] in
      if online then
        let (r, device_core) :=
          Essl.connection py_str py_int zk_connect
            (λ core, (Essl.get_device_info zk_facts core, core)) device_core in
        let p := keep_core (Some device_id') device_core p in
        match r with
        | Ret info =>
            (dict_set "device_time" (get "device_time" info)
               (dict_set "serial_number" (get "serial_number" info)
                  (dict_set "platform" (get "platform" info)
                     (dict_set "firmware" (get "firmware" info) health))),
             _update_last_seen now device_id' p)
        | Raise (DeviceError msg) =>
            (dict_set "can_connect" (VBool false)
               (dict_set "connection_error" (VStr msg) health), p)
        | Raise e =>
            (dict_set "unexpected_error" (VStr (exn_msg e)) health, p)
        end
      else (health, p)
  | _, _ =>
      ([("device_id", VStr device_id');
        ("online", VBool false);
        ("error", VStr "Device not found")], p)
  end.

End Health.

End DevicePool.

(** ** Process configuration (app/core/v1/config.py) *)

Record Config : Type := mkConfig {
  server_url : string;
  agent_id : string;
  mac_address : value
}.

(** ** app/core/v1/stream_manager.py: one streaming engine per device *)

Module StreamManager.

Inductive StreamMode : Type :=
| INITIALIZING | SYNCING | LIVE | RECONNECTING | STOPPED | ERROR.

Inductive EventType : Type := HISTORICAL | REALTIME.

Definition mode_value (m : StreamMode) : string :=
  match m with
  | INITIALIZING => "initializing"
  | SYNCING => "syncing"
  | LIVE => "live"
  | RECONNECTING => "reconnecting"
  | STOPPED => "stopped"
  | ERROR => "error"
  end.

Definition event_type_value (t : EventType) : string :=
  match t with HISTORICAL => "historical" | REALTIME => "realtime" end.

Definition MAX_RETRY_ATTEMPTS : Z := 3.
Definition RETRY_DELAY_SECONDS : Z := 5.
Definition EVENT_QUEUE_MAX_SIZE : Z := 1000.

(** The body posted for one event. *)
Record Payload : Type := mkPayload {
  p_device_id : string;
  p_event_type : EventType;
  p_event_data : value;
  p_timestamp : Z
}.

Record ErrorRecord : Type := mkError {
  err_message : string;
  err_timestamp : Z
}.

Record Stats : Type := mkStats {
  total_events_sent : Z;
  historical_events_sent : Z;
  realtime_events_sent : Z;
  failed_events : Z;
  last_event_time : option Z;
  started_at : option Z;
  errors : list ErrorRecord
}.

Definition initial_stats : Stats :=
  {| total_events_sent := 0; historical_events_sent := 0;
     realtime_events_sent := 0; failed_events := 0;
     last_event_time := None; started_at := None; errors := [] |}.

(** What the outside world answers.  [http_post n] is the outcome of the
    n-th POST (a response, or httpx.RequestError); [zk_connect n] the
    session opened by the n-th connection attempt, if it succeeds;
    [live_capture n] the events the n-th capture yields and how it ends;
    [clock n] the n-th reading of the clock, in seconds. *)
Inductive HttpResult : Type :=
| Response (status_code : Z)
| RequestError (msg : string).

Inductive CaptureEnd : Type :=
| CaptureEnds
| CaptureFails (msg : string).

Record World : Type := mkWorld {
  http_post : nat -> HttpResult;
  zk_connect : nat -> option Essl.ZKConn;
  live_capture : nat -> list (option Essl.Attendance) * CaptureEnd;
  clock : nat -> Z
}.

(** The externally visible steps of an engine, in order. Sleeps are in
    milliseconds. *)
Inductive Action : Type :=
| APost (r : HttpResult)
| ASleep (ms : Z)
| AConnect (ok : bool)
| ADisconnect
| ASetMode (m : StreamMode)
| ACapture (ev : option Essl.Attendance).

Record StreamManager : Type := mkEngine {
  device_id : string;
  device_ip : value;
  initial_sync_hours : Z;
  device : Essl.ESSLDeviceCore;
  mode : StreamMode;
  is_running : bool;
  event_queue : list Payload;
  stats : Stats;
  (* bookkeeping of the model: the steps taken and the answers consumed *)
  trace : list Action;
  n_posts : nat;
  n_connects : nat;
  n_captures : nat;
  n_clock : nat
}.

Definition new_engine (device_ip' : value) (device_id' : string) (hours : Z)
  : StreamManager :=
  {| device_id := device_id'; device_ip := device_ip';
     initial_sync_hours := hours;
     device := {| Essl.device_ip := device_ip'; Essl.port := VInt 4370;
                  Essl.core_password := VInt 0; Essl.conn := None |};
     mode := INITIALIZING; is_running := false;
     event_queue := []; stats := initial_stats;
     trace := []; n_posts := 0; n_connects := 0; n_captures := 0; n_clock := 0 |}.

(** Field updates. *)
Definition set_mode (m : StreamMode) (st : StreamManager) : StreamManager :=
  mkEngine (device_id st) (device_ip st) (initial_sync_hours st) (device st)
    m (is_running st) (event_queue st) (stats st)
    (trace st ++ [ASetMode m]) (n_posts st) (n_connects st) (n_captures st) (n_clock st).

Definition set_running (b : bool) (st : StreamManager) : StreamManager :=
  mkEngine (device_id st) (device_ip st) (initial_sync_hours st) (device st)
    (mode st) b (event_queue st) (stats st)
    (trace st) (n_posts st) (n_connects st) (n_captures st) (n_clock st).

Definition set_conn (c : option Essl.ZKConn) (st : StreamManager) : StreamManager :=
  mkEngine (device_id st) (device_ip st) (initial_sync_hours st)
    (Essl.mkCore (Essl.device_ip (device st)) (Essl.port (device st))
       (Essl.core_password (device st)) c)
    (mode st) (is_running st) (event_queue st) (stats st)
    (trace st) (n_posts st) (n_connects st) (n_captures st) (n_clock st).

Definition set_queue (q : list Payload) (st : StreamManager) : StreamManager :=
  mkEngine (device_id st) (device_ip st) (initial_sync_hours st) (device st)
    (mode st) (is_running st) q (stats st)
    (trace st) (n_posts st) (n_connects st) (n_captures st) (n_clock st).

Definition set_stats (s : Stats) (st : StreamManager) : StreamManager :=
  mkEngine (device_id st) (device_ip st) (initial_sync_hours st) (device st)
    (mode st) (is_running st) (event_queue st) s
    (trace st) (n_posts st) (n_connects st) (n_captures st) (n_clock st).

Definition record (a : Action) (st : StreamManager) : StreamManager :=
  mkEngine (device_id st) (device_ip st) (initial_sync_hours st) (device st)
    (mode st) (is_running st) (event_queue st) (stats st)
    (trace st ++ [a]) (n_posts st) (n_connects st) (n_captures st) (n_clock st).

Definition sleep (ms : Z) (st : StreamManager) : StreamManager :=
  record (ASleep ms) st.

(** A failed delivery attempt: a response whose status is not 200, 201 or
    204, or a transport error. *)
Definition is_success (status_code : Z) : bool :=
  (status_code =? 200) || (status_code =? 201) || (status_code =? 204).

Definition failed (r : HttpResult) : bool :=
  match r with
  | Response status_code => negb (is_success status_code)
  | RequestError _ => true
  end.

(** [xs] with [sep] between consecutive elements. *)
Fixpoint separated_by (sep : Action) (xs : list Action) : list Action :=
  match xs with
  | [] => []
  | x :: rest =>
      match rest with
      | [] => [x]
      | _ => x :: sep :: separated_by sep rest
      end
  end.

(** The counters never go down from [a] to [b]. *)
Definition counters_le (a b : Stats) : Prop :=
  total_events_sent a <= total_events_sent b /\
  historical_events_sent a <= historical_events_sent b /\
  realtime_events_sent a <= realtime_events_sent b /\
  failed_events a <= failed_events b.

Definition option_value (o : option Z) : value :=
  match o with Some z => VInt z | None => VNone end.

(** An attendance dictionary of [get_attendance] as a value. *)
Definition log_value (l : Essl.LogDict) : value :=
  VDict [("user_id", Essl.l_user_id l);
         ("timestamp", option_value (Essl.l_timestamp l));
         ("status", Essl.l_status l);
         ("punch", Essl.l_punch l);
         ("uid", Essl.l_uid l)].

Definition error_value (e : ErrorRecord) : value :=
  VDict [("message", VStr (err_message e)); ("timestamp", VInt (err_timestamp e))].

Definition stats_value (s : Stats) : value :=
  VDict [("total_events_sent", VInt (total_events_sent s));
         ("historical_events_sent", VInt (historical_events_sent s));
         ("realtime_events_sent", VInt (realtime_events_sent s));
         ("failed_events", VInt (failed_events s));
         ("last_event_time", option_value (last_event_time s));
         ("started_at", option_value (started_at s));
         ("errors", VList (List.map error_value (errors s)))].

Section Engine.

Variable cfg : Config.
Variable w : World.

(** [int(time.time())] *)
Definition time_now (st : StreamManager) : Z * StreamManager :=
  (clock w (n_clock st),
   mkEngine (device_id st) (device_ip st) (initial_sync_hours st) (device st)
     (mode st) (is_running st) (event_queue st) (stats st)
     (trace st) (n_posts st) (n_connects st) (n_captures st) (S (n_clock st))).

(** [self.http_client.post(url, json=payload)] *)
Definition post (st : StreamManager) : HttpResult * StreamManager :=
  let r := http_post w (n_posts st) in
  (r,
   mkEngine (device_id st) (device_ip st) (initial_sync_hours st) (device st)
     (mode st) (is_running st) (event_queue st) (stats st)
     (trace st ++ [APost r]) (S (n_posts st)) (n_connects st) (n_captures st)
     (n_clock st)).

(** [self.device.connect()]: nothing to do on an open session; otherwise
    one connection attempt, which raises DeviceError when it fails. *)
Definition connect (st : StreamManager) : outcome unit * StreamManager :=
  match Essl.conn (device st) with
  | Some _ => (Ret tt, st)
  | None =>
      let r := zk_connect w (n_connects st) in
      let st1 :=
        mkEngine (device_id st) (device_ip st) (initial_sync_hours st) (device st)
          (mode st) (is_running st) (event_queue st) (stats st)
          (trace st ++ [AConnect (bool_decide (is_Some r))])
          (n_posts st) (S (n_connects st)) (n_captures st) (n_clock st) in
      match r with
      | Some c => (Ret tt, set_conn (Some c) st1)
      | None => (Raise (DeviceError "Failed to connect"), st1)
      end
  end.

(** [self.device.disconnect()] *)
Definition disconnect (st : StreamManager) : StreamManager :=
  match Essl.conn (device st) with
  | Some _ => record ADisconnect (set_conn None st)
  | None => st
  end.

(** [_log_error]: append, then keep the last 50. *)
Definition _log_error (error_message : string) (st : StreamManager) : StreamManager :=
  let (now, st) := time_now st in
  let s := stats st in
  let errs := errors s ++ [mkError error_message now] in
  let errs := if 50 <? Z.of_nat (length errs) then skipn (length errs - 50) errs else errs in
  set_stats (mkStats (total_events_sent s) (historical_events_sent s)
               (realtime_events_sent s) (failed_events s)
               (last_event_time s) (started_at s) errs) st.

(** [queue.Queue(maxsize=1000).put_nowait] *)
Definition put_nowait (x : Payload) (q : list Payload) : outcome (list Payload) :=
  if Z.of_nat (length q) <? EVENT_QUEUE_MAX_SIZE then Ret (q ++ [x]) else Raise QueueFull.

Definition _queue_failed_event (payload : Payload) (st : StreamManager) : StreamManager :=
  match put_nowait payload (event_queue st) with
  | Ret q => set_queue q st
  | Raise _ => _log_error "Event queue full - event discarded" st
  end.

Definition count_sent (now : Z) (st : StreamManager) : StreamManager :=
  let s := stats st in
  set_stats (mkStats (total_events_sent s + 1) (historical_events_sent s)
               (realtime_events_sent s) (failed_events s)
               (Some now) (started_at s) (errors s)) st.

Definition count_failed (st : StreamManager) : StreamManager :=
  let s := stats st in
  set_stats (mkStats (total_events_sent s) (historical_events_sent s)
               (realtime_events_sent s) (failed_events s + 1)
               (last_event_time s) (started_at s) (errors s)) st.

Definition count_historical (st : StreamManager) : StreamManager :=
  let s := stats st in
  set_stats (mkStats (total_events_sent s) (historical_events_sent s + 1)
               (realtime_events_sent s) (failed_events s)
               (last_event_time s) (started_at s) (errors s)) st.

Definition count_realtime (st : StreamManager) : StreamManager :=
  let s := stats st in
  set_stats (mkStats (total_events_sent s) (historical_events_sent s)
               (realtime_events_sent s + 1) (failed_events s)
               (last_event_time s) (started_at s) (errors s)) st.

(** The retry loop of [_send_event_to_server],
    [for attempt in range(1, MAX_RETRY_ATTEMPTS + 1)], followed by the code
    after the loop. *)
Fixpoint send_attempts (attempts : list Z) (payload : Payload) (st : StreamManager)
  : bool * StreamManager :=
  match attempts with
  | [] =>
      (* all retries failed *)
      (false, _queue_failed_event payload (count_failed st))
  | attempt :: rest =>
      let (r, st) := post st in
      match r with
      | Response status_code =>
          if is_success status_code then
            let (now, st) := time_now st in
            (true, count_sent now st)
          else
            let st := if attempt <? MAX_RETRY_ATTEMPTS
                      then sleep (RETRY_DELAY_SECONDS * 1000) st else st in
            send_attempts rest payload st
      | RequestError _ =>
          let st := if attempt <? MAX_RETRY_ATTEMPTS
                    then sleep (RETRY_DELAY_SECONDS * 1000) st else st in
          send_attempts rest payload st
      end
  end.

(** [range(1, n + 1)] *)
Definition range1 (n : Z) : list Z :=
  List.map Z.of_nat (seq 1 (Z.to_nat n)).

Definition _send_event_to_server (event_data : value) (event_type : EventType)
    (st : StreamManager) : bool * StreamManager :=
  let (now, st) := time_now st in
  let payload := mkPayload (device_id st) event_type event_data now in
  send_attempts (range1 MAX_RETRY_ATTEMPTS) payload st.


(** [_format_attendance_event]; a timestamp attribute that is not a
    datetime is passed through unchanged by the code and is [None] here. *)
Definition _format_attendance_event (attendance : Essl.Attendance)
    (st : StreamManager) : value * StreamManager :=
  let (now, st) := time_now st in
  (VDict [("user_id", Essl.att_user_id attendance);
          ("timestamp",
           option_value (Essl._format_datetime (Essl.att_timestamp attendance)));
          ("status", Essl.att_status attendance);
          ("punch", Essl.att_punch attendance);
          ("uid", Essl.att_uid attendance);
          ("captured_at", VInt now)], st).

(** The attempts of [_reconnect], [for attempt in range(1, max_attempts + 1)],
    followed by the code after the loop. *)
Fixpoint reconnect_attempts (attempts : list Z) (max_attempts : Z)
    (st : StreamManager) : StreamManager :=
  match attempts with
  | [] =>
      (* all reconnect attempts failed *)
      set_mode ERROR st
  | attempt :: rest =>
      if negb (is_running st) then st
      else
        match connect st with
        | (Ret _, st) => st
        | (Raise _, st) =>
            let st := if attempt <? max_attempts then sleep (10 * 1000) st else st in
            reconnect_attempts rest max_attempts st
        end
  end.

Definition _reconnect (st : StreamManager) : StreamManager :=
  let st := set_mode RECONNECTING st in
  let st := disconnect st in
  let st := sleep (5 * 1000) st in
  let max_attempts := 3 in
  reconnect_attempts (range1 max_attempts) max_attempts st.

(** The body of [for attendance in self.device.conn.live_capture()].  The
    boolean says whether the loop was left by [break]. *)
Fixpoint capture_events (events : list (option Essl.Attendance))
    (st : StreamManager) : bool * StreamManager :=
  match events with
  | [] => (false, st)
  | attendance :: rest =>
      let st := record (ACapture attendance) st in
      if negb (is_running st) then (true, st)
      else
        match attendance with
        | None => capture_events rest st
        | Some a =>
            let (event_data, st) := _format_attendance_event a st in
            let (success, st) := _send_event_to_server event_data REALTIME st in
            let st := if success then count_realtime st else st in
            capture_events rest st
        end
  end.

(** One iteration of [while self.is_running] in [_live_stream_loop]. *)
Definition live_iteration (st : StreamManager) : StreamManager :=
  match connect st with
  | (Raise e, st) =>
      _reconnect (_log_error ("Device error in live mode: " +:+ exn_msg e) st)
  | (Ret _, st) =>
      let '(events, fin) := live_capture w (n_captures st) in
      let st :=
        mkEngine (device_id st) (device_ip st) (initial_sync_hours st) (device st)
          (mode st) (is_running st) (event_queue st) (stats st)
          (trace st) (n_posts st) (n_connects st) (S (n_captures st)) (n_clock st) in
      let (broke, st) := capture_events events st in
      match fin with
      | CaptureEnds => st
      | CaptureFails msg =>
          if broke then st
          else _reconnect (_log_error ("Unexpected error in live mode: " +:+ msg) st)
      end
  end.

(** [while self.is_running: ...], for at most [fuel] iterations. *)
Fixpoint live_loop (fuel : nat) (st : StreamManager) : StreamManager :=
  match fuel with
  | O => st
  | S fuel' => if is_running st then live_loop fuel' (live_iteration st) else st
  end.

Definition _live_stream_loop (fuel : nat) (st : StreamManager) : StreamManager :=
  if negb (is_running st) then st
  else live_loop fuel (set_mode LIVE st).

(** The body of [for log in logs] in [_sync_historical_logs]. *)
Fixpoint sync_logs (logs : list Essl.LogDict) (st : StreamManager) : StreamManager :=
  match logs with
  | [] => st
  | log :: rest =>
      if negb (is_running st) then st
      else
        let (success, st) := _send_event_to_server (log_value log) HISTORICAL st in
        let st := if success then count_historical st else st in
        let st := sleep 100 st in
        sync_logs rest st
  end.

Definition _sync_historical_logs (st : StreamManager) : StreamManager :=
  if negb (is_running st) then st
  else
    let st := set_mode SYNCING st in
    match connect st with
    | (Raise e, st) => _log_error ("Device error during sync: " +:+ exn_msg e) st
    | (Ret _, st) =>
        let (now, st) := time_now st in
        let cutoff_time := VDatetime (now - initial_sync_hours st * 3600) in
        match Essl.get_attendance (device st) cutoff_time VNone VNone VNone with
        | Raise e => _log_error ("Device error during sync: " +:+ exn_msg e) st
        | Ret logs => sync_logs logs st
        end
    end.

(** [_run_loop]: the background thread. *)
Definition _run_loop (fuel : nat) (st : StreamManager) : StreamManager :=
  _live_stream_loop fuel (_sync_historical_logs st).

Definition envelope (command : string) (result : dict) (st : StreamManager)
    (now : Z) : dict :=
  [("id", VStr ""); ("agent_id", VStr (agent_id cfg)); ("command", VStr command);
   ("mac_address", mac_address cfg); ("result", VDict result);
   ("device_ip", device_ip st); ("device_id", VStr (device_id st));
   ("success", VBool true); ("timestamp", VInt now)].

Definition start (st : StreamManager) : dict * StreamManager :=
  if is_running st then
    ([("success", VBool false); ("message", VStr "Stream manager already running");
      ("mode", VStr (mode_value (mode st)))], st)
  else
    let st := set_running true st in
    let (now, st) := time_now st in
    let s := stats st in
    let st := set_stats (mkStats (total_events_sent s) (historical_events_sent s)
                           (realtime_events_sent s) (failed_events s)
                           (last_event_time s) (Some now) (errors s)) st in
    let (now, st) := time_now st in
    (envelope "start_stream"
       [("message", VStr "Stream manager started successfully");
        ("mode", VStr (mode_value (mode st)))] st now, st).

(** [stop], by what it writes itself.  Between clearing the flag and
    disconnecting it waits for the thread, [thread.join(timeout=10)], and
    closes the HTTP client; what the thread does in the meantime and
    afterwards is [thread_step] below. *)
Definition stop (st : StreamManager) : dict * StreamManager :=
  if negb (is_running st) then
    ([("success", VBool false); ("message", VStr "Stream manager not running")], st)
  else
    let st := set_running false st in
    let st := set_mode STOPPED st in
    let st := disconnect st in
    let (now, st) := time_now st in
    (envelope "stop_stream"
       [("message", VStr "Stream manager stopped");
        ("statistics", stats_value (stats st))] st now, st).

(** Anything an engine does during its lifetime: a call of one of its
    methods, by the owner or by the background thread. *)
Inductive engine_step : StreamManager -> StreamManager -> Prop :=
| step_start st : engine_step st (start st).2
| step_stop st : engine_step st (stop st).2
| step_run_loop fuel st : engine_step st (_run_loop fuel st)
| step_sync st : engine_step st (_sync_historical_logs st)
| step_live fuel st : engine_step st (_live_stream_loop fuel st)
| step_send data ty st : engine_step st (_send_event_to_server data ty st).2
| step_queue payload st : engine_step st (_queue_failed_event payload st)
| step_reconnect st : engine_step st (_reconnect st)
| step_log_error msg st : engine_step st (_log_error msg st).

(** What the background thread does, from any point of its code: a call of
    one of the methods it runs, what is left of one of their loops, or one
    of their elementary steps.  [start] and [stop] belong to the owner of
    the engine and are no steps of the thread; [stop] waits at most ten
    seconds for the thread ([thread.join(timeout=10)]), which goes on from
    wherever it is, during the wait and after it. *)
Inductive thread_step : StreamManager -> StreamManager -> Prop :=
| thread_run_loop fuel st : thread_step st (_run_loop fuel st)
| thread_sync st : thread_step st (_sync_historical_logs st)
| thread_sync_logs logs st : thread_step st (sync_logs logs st)
| thread_live fuel st : thread_step st (_live_stream_loop fuel st)
| thread_live_loop fuel st : thread_step st (live_loop fuel st)
| thread_live_iteration st : thread_step st (live_iteration st)
| thread_capture events st : thread_step st (capture_events events st).2
| thread_send data ty st : thread_step st (_send_event_to_server data ty st).2
| thread_send_attempts attempts payload st :
    thread_step st (send_attempts attempts payload st).2
| thread_queue payload st : thread_step st (_queue_failed_event payload st)
| thread_reconnect st : thread_step st (_reconnect st)
| thread_reconnect_attempts attempts max_attempts st :
    thread_step st (reconnect_attempts attempts max_attempts st)
| thread_log_error msg st : thread_step st (_log_error msg st)
| thread_connect st : thread_step st (connect st).2
| thread_disconnect st : thread_step st (disconnect st)
| thread_sleep ms st : thread_step st (sleep ms st)
| thread_set_mode m st : thread_step st (set_mode m st)
| thread_post st : thread_step st (post st).2
| thread_clock st : thread_step st (time_now st).2
| thread_capture_event ev st : thread_step st (record (ACapture ev) st)
| thread_count_sent now st : thread_step st (count_sent now st)
| thread_count_failed st : thread_step st (count_failed st)
| thread_count_historical st : thread_step st (count_historical st)
| thread_count_realtime st : thread_step st (count_realtime st).

(** [get_status]: the envelope of the other replies, with the running
    flag, the mode, the statistics and the queue size under "result". *)
Definition get_status (st : StreamManager) : dict * StreamManager :=
  let (now, st') := time_now st in
  (envelope "get_status"
     [("is_running", VBool (is_running st));
      ("mode", VStr (mode_value (mode st)));
      ("statistics", stats_value (stats st));
      ("queue_size", VInt (Z.of_nat (length (event_queue st))))] st now, st').

End Engine.

(** The modes entered along a trace, in order. *)
Definition mode_of (a : Action) : option StreamMode :=
  match a with ASetMode m => Some m | _ => None end.

Definition modes_of (tr : list Action) : list StreamMode := omap mode_of tr.

(** The size of the error ring and of the overflow queue. *)
Definition bounded (st : StreamManager) : Prop :=
  (length (errors (stats st)) <= 50)%nat /\
  Z.of_nat (length (event_queue st)) <= EVENT_QUEUE_MAX_SIZE.

(** Events counted in the total but in neither of the two kinds. *)
Definition unclassified (s : Stats) : Z :=
  total_events_sent s - historical_events_sent s - realtime_events_sent s.

(** A step that changes neither the running flag nor the mode. *)
Definition quiet (st st' : StreamManager) : Prop :=
  is_running st' = is_running st /\
  mode st' = mode st /\
  modes_of (trace st') = modes_of (trace st).

(** A step of the live phase: the running flag is kept and the only modes
    entered are RECONNECTING and ERROR. *)
Definition recovering (st st' : StreamManager) : Prop :=
  is_running st' = is_running st /\
  exists ms, modes_of (trace st') = modes_of (trace st) ++ ms /\
             Forall (fun m => m = RECONNECTING \/ m = ERROR) ms.

End StreamManager.

(** ** app/core/v1/stream_manager.py: delivery, whatever the client raises

    [_send_event_to_server] handles [httpx.RequestError] and no other
    exception (line 409).  The engine above runs over a client that
    answers or raises that error.  Here the call of
    [self.http_client.post] may also raise something else (RuntimeError
    once [stop] or the end of [_run_loop] has closed the client,
    httpx.InvalidURL for a malformed address), and the function is
    followed into that case.  Where the client raises nothing else, the
    functions below are those of the engine. *)

Module Posting.

Import StreamManager.

Section Client.

Variable w : World.

(** [escapes n]: the exception raised by the n-th POST when it raises one
    that is not an [httpx.RequestError]. *)
Variable escapes : nat -> option exn.

(** [self.http_client.post(url, json=payload)] *)
Definition post (st : StreamManager) : outcome HttpResult * StreamManager :=
  match escapes (n_posts st) with
  | Some e =>
      (Raise e,
       mkEngine (device_id st) (device_ip st) (initial_sync_hours st) (device st)
         (mode st) (is_running st) (event_queue st) (stats st)
         (trace st) (S (n_posts st)) (n_connects st) (n_captures st) (n_clock st))
  | None => let (r, st) := StreamManager.post w st in (Ret r, st)
  end.

(** The retry loop of [_send_event_to_server] and the code after it. *)
Fixpoint send_attempts (attempts : list Z) (payload : Payload) (st : StreamManager)
  : outcome bool * StreamManager :=
  match attempts with
  | [] =>
      (* all retries failed *)
      (Ret false, _queue_failed_event w payload (count_failed st))
  | attempt :: rest =>
      let (r, st) := post st in
      match r with
      | Ret (Response status_code) =>
          if is_success status_code then
            let (now, st) := time_now w st in
            (Ret true, count_sent now st)
          else
            let st := if attempt <? MAX_RETRY_ATTEMPTS
                      then sleep (RETRY_DELAY_SECONDS * 1000) st else st in
            send_attempts rest payload st
      | Ret (RequestError _) =>
          let st := if attempt <? MAX_RETRY_ATTEMPTS
                    then sleep (RETRY_DELAY_SECONDS * 1000) st else st in
          send_attempts rest payload st
      | Raise e =>
          (* no handler for it: the exception leaves the function *)
          (Raise e, st)
      end
  end.

Definition _send_event_to_server (event_data : value) (event_type : EventType)
    (st : StreamManager) : outcome bool * StreamManager :=
  let (now, st) := time_now w st in
  let payload := mkPayload (device_id st) event_type event_data now in
  send_attempts (range1 MAX_RETRY_ATTEMPTS) payload st.

End Client.

End Posting.

(** ** app/core/v1/stream.py: the coordinator *)

Module Coordinator.

(** The coordinator and the registry it refers to.  The registry is shared
    with the command handler, which can change it without the coordinator. *)
Record System : Type := mkSystem {
  device_pool : DevicePool.DevicePoolManager;
  stream_managers : gmap string StreamManager.StreamManager
}.

Definition initial_system : System :=
  {| device_pool := DevicePool.empty_pool; stream_managers := ∅ |}.

Definition success_of (result : dict) : bool := truthy (get "success" result).

Section Coordinator.

Variable cfg : Config.
Variable w : StreamManager.World.
Variable initial_sync_hours : Z.

Definition start_streaming_device (device_id : string) (sys : System)
  : dict * System :=
  match stream_managers sys !! device_id with
  | Some _ =>
      ([("success", VBool false);
        ("message", VStr ("Device " +:+ device_id +:+ " already streaming"));
        ("device_id", VStr device_id)], sys)
  | None =>
      match DevicePool.get_device_info device_id (device_pool sys) with
      | None =>
          ([("success", VBool false);
            ("error", VStr ("Device " +:+ device_id +:+ " not found in pool"));
            ("device_id", VStr device_id)], sys)
      | Some device_info =>
          let stream_manager :=
            StreamManager.new_engine (DevicePool.device_ip device_info) device_id
              initial_sync_hours in
          let (result, stream_manager) := StreamManager.start cfg w stream_manager in
          if success_of result then
            (result,
             {| device_pool := device_pool sys;
                stream_managers := <[device_id := stream_manager]> (stream_managers sys) |})
          else (result, sys)
      end
  end.

Definition stop_streaming_device (device_id : string) (sys : System)
  : dict * System :=
  match stream_managers sys !! device_id with
  | None =>
      ([("success", VBool false);
        ("message", VStr ("Device " +:+ device_id +:+ " not streaming"));
        ("device_id", VStr device_id)], sys)
  | Some stream_manager =>
      let (result, stream_manager) := StreamManager.stop cfg w stream_manager in
      if success_of result then
        (result,
         {| device_pool := device_pool sys;
            stream_managers := delete device_id (stream_managers sys) |})
      else
        (result,
         {| device_pool := device_pool sys;
            stream_managers := <[device_id := stream_manager]> (stream_managers sys) |})
  end.

Definition add_device_and_stream (device_id : string) (device_ip port name location : value)
    (auto_start_stream : bool) (sys : System) : dict * System :=
  let (register_result, pool) :=
    DevicePool.register_device device_id device_ip (Some port) None name location
      (device_pool sys) in
  let sys := {| device_pool := pool; stream_managers := stream_managers sys |} in
  if negb (success_of register_result) then (register_result, sys)
  else if auto_start_stream then
    let (stream_result, sys) := start_streaming_device device_id sys in
    ([("success", VBool true);
      ("message", VStr "Device added and streaming started");
      ("device_id", VStr device_id);
      ("registration", VDict register_result);
      ("streaming", VDict stream_result)], sys)
  else
    ([("success", VBool true);
      ("message", VStr "Device added (streaming not started)");
      ("device_id", VStr device_id);
      ("registration", VDict register_result)], sys).

Definition remove_device_and_stop_stream (device_id : string) (sys : System)
  : dict * System :=
  let (stream_result, sys) :=
    match stream_managers sys !! device_id with
    | Some _ =>
        let (r, sys) := stop_streaming_device device_id sys in (VDict r, sys)
    | None => (VNone, sys)
    end in
  let (unregister_result, pool) :=
    DevicePool.unregister_device device_id (device_pool sys) in
  ([("success", VBool true);
    ("message", VStr "Device removed and streaming stopped");
    ("device_id", VStr device_id);
    ("streaming", stream_result);
    ("unregistration", VDict unregister_result)],
   {| device_pool := pool; stream_managers := stream_managers sys |}).

(** The operations that change the registry or the set of engines. *)
Inductive Op : Type :=
| Register (device_id : string) (device_ip : value) (port password : option value)
    (name location : value)
| Unregister (device_id : string)
| StartStreaming (device_id : string)
| StopStreaming (device_id : string)
| AddAndStream (device_id : string) (device_ip port name location : value)
    (auto_start_stream : bool)
| RemoveAndStop (device_id : string).

Definition apply_op (o : Op) (sys : System) : System :=
  match o with
  | Register i ip po pw n l =>
      {| device_pool := (DevicePool.register_device i ip po pw n l (device_pool sys)).2;
         stream_managers := stream_managers sys |}
  | Unregister i =>
      {| device_pool := (DevicePool.unregister_device i (device_pool sys)).2;
         stream_managers := stream_managers sys |}
  | StartStreaming i => (start_streaming_device i sys).2
  | StopStreaming i => (stop_streaming_device i sys).2
  | AddAndStream i ip po n l a => (add_device_and_stream i ip po n l a sys).2
  | RemoveAndStop i => (remove_device_and_stop_stream i sys).2
  end.

Definition run_ops (ops : list Op) (sys : System) : System :=
  fold_left (fun s o => apply_op o s) ops sys.

(** The tally of [start_streaming_all] and [stop_streaming_all]: the calls
    that succeeded, those that failed, and every result in call order. *)
Record Tally : Type := mkTally {
  n_succeeded : Z;
  n_failed : Z;
  results : list dict
}.

Definition tally (t : Tally) (result : dict) : Tally :=
  if success_of result then
    {| n_succeeded := n_succeeded t + 1; n_failed := n_failed t;
       results := results t ++ [result] |}
  else
    {| n_succeeded := n_succeeded t; n_failed := n_failed t + 1;
       results := results t ++ [result] |}.

Definition tally_value (done : string) (total : nat) (t : Tally) : dict :=
  [("total", VInt (Z.of_nat total)); (done, VInt (n_succeeded t));
   ("failed", VInt (n_failed t)); ("details", VList (VDict <$> results t))].

(** The ["device_id"] members of [get_active_devices()]; the order of the
    registry is not modelled. *)
Definition active_device_ids (p : DevicePool.DevicePoolManager) : list string :=
  (λ kv, DevicePool.device_id kv.2) <$>
    List.filter (λ kv, DevicePool.is_active kv.2) (map_to_list (DevicePool.devices p)).

Definition start_each (device_ids : list string) (sys : System) : Tally * System :=
  fold_left
    (λ acc device_id,
       let (result, sys) := start_streaming_device device_id acc.2 in
       (tally acc.1 result, sys))
    device_ids (mkTally 0 0 [], sys).

Definition start_streaming_all (sys : System) : dict * System :=
  let devices := active_device_ids (device_pool sys) in
  let (t, sys) := start_each devices sys in
  (tally_value "started" (length devices) t, sys).

Definition stop_each (device_ids : list string) (sys : System) : Tally * System :=
  fold_left
    (λ acc device_id,
       let (result, sys) := stop_streaming_device device_id acc.2 in
       (tally acc.1 result, sys))
    device_ids (mkTally 0 0 [], sys).

Definition stop_streaming_all (sys : System) : dict * System :=
  let device_ids := (map_to_list (stream_managers sys)).*1 in
  let (t, sys) := stop_each device_ids sys in
  (tally_value "stopped" (length device_ids) t, sys).

Definition get_streaming_status (device_id : string) (sys : System)
  : option dict * System :=
  match stream_managers sys !! device_id with
  | Some stream_manager =>
      let (status, stream_manager) := StreamManager.get_status cfg w stream_manager in
      (Some status,
       {| device_pool := device_pool sys;
          stream_managers := <[device_id := stream_manager]> (stream_managers sys) |})
  | None => (None, sys)
  end.

(** [v[k]]: KeyError (kept as [OtherError] with the message of the
    KeyError) when the key is absent. *)
Definition subscript (k : string) (v : value) : outcome value :=
  match v with
  | VDict d =>
      match dict_get k d with
      | Some x => Ret x
      | None => Raise (OtherError ("'" +:+ k +:+ "'"))
      end
  | VStr _ | VList _ => Raise (TypeError "indices must be integers")
  | _ => Raise (TypeError "object is not subscriptable")
  end.

(** [sum(...)] over a generator: the items are evaluated one by one. *)
Fixpoint py_sum (acc : Z) (items : list (outcome value)) : outcome Z :=
  match items with
  | [] => Ret acc
  | item :: items =>
      match item with
      | Raise e => Raise e
      | Ret (VInt z) => py_sum (acc + z) items
      | Ret (VBool b) => py_sum (acc + Z.b2z b) items
      | Ret _ => Raise (TypeError "unsupported operand type(s) for +")
      end
  end.

(** [mode_counts[mode] = mode_counts.get(mode, 0) + 1] *)
Fixpoint count_mode (mode : value) (mode_counts : list (value * Z))
  : list (value * Z) :=
  match mode_counts with
  | [] => [(mode, 1)]
  | (m, n) :: rest =>
      if py_eqb m mode then (m, n + 1) :: rest else (m, n) :: count_mode mode rest
  end.

Fixpoint count_modes (statuses : list dict) (mode_counts : list (value * Z))
  : outcome (list (value * Z)) :=
  match statuses with
  | [] => Ret mode_counts
  | status :: statuses =>
      mode ← subscript "mode" (VDict status);
      if is_list mode || is_dict mode then Raise (TypeError "unhashable type")
      else count_modes statuses (count_mode mode mode_counts)
  end.

Record StreamingStatus : Type := mkStreamingStatus {
  ss_total_devices_streaming : Z;
  ss_total_events_sent : Z;
  ss_mode_breakdown : list (value * Z);
  ss_devices : list (string * dict)
}.

(** [get_all_streaming_status]: every engine is asked for its status, then
    the statuses are aggregated. *)
Definition get_all_streaming_status (sys : System)
  : outcome StreamingStatus * System :=
  let statuses :=
    (λ kv, (kv.1, (StreamManager.get_status cfg w kv.2).1)) <$>
      map_to_list (stream_managers sys) in
  let sys :=
    {| device_pool := device_pool sys;
       stream_managers :=
         (λ sm, (StreamManager.get_status cfg w sm).2) <$> stream_managers sys |} in
  (total_events ←
     py_sum 0
       ((λ kv, statistics ← subscript "statistics" (VDict kv.2);
               subscript "total_events_sent" statistics) <$> statuses);
   mode_counts ← count_modes statuses.*2 [];
   Ret {| ss_total_devices_streaming := Z.of_nat (length statuses);
          ss_total_events_sent := total_events;
          ss_mode_breakdown := mode_counts;
          ss_devices := statuses |},
   sys).

Record Summary : Type := mkSummary {
  cs_total_devices_registered : Z;
  cs_total_devices_streaming : Z;
  cs_total_events_sent : Z;
  cs_mode_breakdown : list (value * Z);
  cs_server_url : string;
  cs_server_endpoint : string
}.

(** [self.server_endpoint] *)
Variable server_endpoint : string.

Definition get_coordinator_summary (sys : System) : outcome Summary * System :=
  let all_devices := DevicePool.list_devices (device_pool sys) in
  let (streaming_status, sys) := get_all_streaming_status sys in
  (streaming_status ← streaming_status;
   Ret {| cs_total_devices_registered := Z.of_nat (length all_devices);
          cs_total_devices_streaming := ss_total_devices_streaming streaming_status;
          cs_total_events_sent := ss_total_events_sent streaming_status;
          cs_mode_breakdown := ss_mode_breakdown streaming_status;
          cs_server_url := server_url cfg;
          cs_server_endpoint := server_endpoint |},
   sys).

End Coordinator.

(** Every streaming device has an enabled record in the registry. *)
Definition engines_registered (sys : System) : Prop :=
  forall device_id : string,
    is_Some (stream_managers sys !! device_id) ->
    exists info,
      DevicePool.devices (device_pool sys) !! device_id = Some info /\
      DevicePool.is_active info = true.

(** Every engine the coordinator holds has been started and not stopped. *)
Definition engines_running (sys : System) : Prop :=
  forall device_id sm,
    stream_managers sys !! device_id = Some sm ->
    StreamManager.is_running sm = true.

(** Every record of the registry is enabled. *)
Definition all_active (sys : System) : Prop :=
  forall device_id info,
    DevicePool.devices (device_pool sys) !! device_id = Some info ->
    DevicePool.is_active info = true.

Definition consistent (sys : System) : Prop :=
  engines_registered sys /\ engines_running sys /\ all_active sys.

Definition is_unregister (o : Op) : bool :=
  match o with Unregister _ => true | _ => false end.

(** The registry keeps each record under its own device id. *)
Definition keyed_by_id (p : DevicePool.DevicePoolManager) : Prop :=
  forall k info, DevicePool.devices p !! k = Some info -> DevicePool.device_id info = k.

(** A device for which [start_streaming_device] builds an engine: it is
    registered and not streaming yet. *)
Definition startable (sys : System) (device_id : string) : bool :=
  bool_decide (stream_managers sys !! device_id = None) &&
  bool_decide (is_Some (DevicePool.devices (device_pool sys) !! device_id)).

End Coordinator.

(** ** app/core/v1/device_pool.py: the command handler *)

Module CommandHandler.

(** An inbound command: [command_data.get(k)] for the five keys the
    handler reads; an absent or null key is [None], absent [params] is the
    empty mapping. *)
Record CommandEnvelope : Type := mkCommand {
  id : value;
  command : option string;
  params : dict;
  device_id : option string;
  device_ip : option string
}.

Record ResultEnvelope : Type := mkResult {
  r_id : value;
  r_agent_id : string;
  r_command : value;
  r_mac_address : value;
  r_result : value;
  r_device_ip : value;
  r_device_id : value;
  r_success : value;
  r_timestamp : Z
}.

(** What the handler uses of the device pool.  The management operations
    receive the raw parameter values and may raise; [execute_on_device]
    turns every failure into a result dictionary. *)
Class PoolOps (Pool : Type) : Type := {
  pool_register_device :
    value -> value -> value -> value -> value -> value -> Pool -> outcome dict * Pool;
  pool_unregister_device : value -> Pool -> outcome dict * Pool;
  pool_list_devices : Pool -> list value;
  pool_check_device_health : value -> Pool -> outcome dict * Pool;
  pool_execute_on_device : string -> string -> dict -> Pool -> dict * Pool;
  pool_device_ip : string -> Pool -> option value
}.

Definition str_or_none (o : option string) : value :=
  match o with Some s => VStr s | None => VNone end.

(** [x or y] on optional strings. *)
Definition or_else (x y : option string) : option string :=
  match x with
  | Some s => if String.eqb s "" then y else Some s
  | None => y
  end.

(** [not x] on an optional string. *)
Definition missing (x : option string) : bool :=
  match x with
  | Some s => String.eqb s ""
  | None => true
  end.

Definition management_commands : list string :=
  ["register_device"; "unregister_device"; "list_devices"; "device_health"].

Definition is_management (command : option string) : bool :=
  match command with
  | Some c => existsb (String.eqb c) management_commands
  | None => false
  end.

Definition command_map : list (string * string) :=
  [("get_users", "get_users");
   ("create_user", "create_user");
   ("update_user", "update_user");
   ("delete_user", "delete_user");
   ("get_attendance", "get_attendance");
   ("get_device_info", "get_device_info")].

(** [result.get(k, default)] on a value that need not be a dictionary. *)
Definition value_get (k : string) (dflt : value) (v : value) : outcome value :=
  match v with
  | VDict d => Ret (get_default k dflt d)
  | VList _ => Raise (AttributeError "'list' object has no attribute 'get'")
  | _ => Raise (AttributeError "object has no attribute 'get'")
  end.

(** [datetime.fromtimestamp(t, tz=timezone.utc)]; the representable range
    is the years 1 to 9999. *)
Definition MIN_TIMESTAMP : Z := -62135596800.
Definition MAX_TIMESTAMP : Z := 253402300799.

Definition fromtimestamp (t : value) : outcome value :=
  let of_int z :=
    if (MIN_TIMESTAMP <=? z) && (z <=? MAX_TIMESTAMP) then Ret (VDatetime z)
    else Raise (OtherError "year is out of range") in
  match t with
  | VInt z => of_int z
  | VBool b => of_int (Z.b2z b)
  | _ => Raise (TypeError "an integer is required")
  end.

(** The pre-processing of the parameters of get_attendance. *)
Definition attendance_params (params : dict) : outcome dict :=
  let start_time := get "start_time" params in
  let end_time := get "end_time" params in
  let limit := get_default "limit" (VInt 1000) params in
  params ←
    (if truthy start_time then
       t ← fromtimestamp start_time; Ret (dict_set "start_time" t params)
     else Ret params);
  params ←
    (if truthy end_time then
       t ← fromtimestamp end_time; Ret (dict_set "end_time" t params)
     else Ret params);
  Ret (dict_set "limit" limit params).

(** The wrapping of the operation result. *)
Definition format_result (command : string) (operation_result : value) : value :=
  match operation_result with
  | VList l =>
      if String.eqb command "get_users" then
        VDict [("users", VList l); ("count", VInt (Z.of_nat (length l)))]
      else if String.eqb command "get_attendance" then
        VDict [("logs", VList l); ("count", VInt (Z.of_nat (length l)))]
      else
        VDict [("items", VList l); ("count", VInt (Z.of_nat (length l)))]
  | VDict d => VDict d
  | other => VDict [("value", other)]
  end.

Section Handler.

Context {Pool : Type} `{PoolOps Pool}.
Variable cfg : Config.
Variable now : Z.     (* int(time.time()) *)

Definition failure (env : CommandEnvelope) (message : string) (device_id' : value)
  : ResultEnvelope :=
  {| r_id := id env;
     r_agent_id := agent_id cfg;
     r_command := str_or_none (command env);
     r_mac_address := mac_address cfg;
     r_result := VDict [("error", VStr message)];
     r_device_ip := VStr "";
     r_device_id := device_id';
     r_success := VBool false;
     r_timestamp := now |}.

Definition management_result (command : string) (params : dict) (pool : Pool)
  : outcome value * Pool :=
  if String.eqb command "register_device" then
    let (r, pool) :=
      pool_register_device (get "device_id" params) (get "device_ip" params)
        (get_default "port" (VInt DevicePool.DEFAULT_PORT) params)
        (get_default "password" (VInt DevicePool.DEFAULT_PASSWORD) params)
        (get "name" params) (get "location" params) pool in
    (VDict <$> r, pool)
  else if String.eqb command "unregister_device" then
    let (r, pool) := pool_unregister_device (get "device_id" params) pool in
    (VDict <$> r, pool)
  else if String.eqb command "list_devices" then
    (Ret (VList (pool_list_devices pool)), pool)
  else if String.eqb command "device_health" then
    let (r, pool) := pool_check_device_health (get "device_id" params) pool in
    (VDict <$> r, pool)
  else (Ret (VDict []), pool).

Definition _execute_management_command (command : string) (params : dict)
    (command_id : value) (pool : Pool) : outcome ResultEnvelope * Pool :=
  let (r, pool) := management_result command params pool in
  (rewrap "Failed to execute management command: "
     (result ← r;
      success ← value_get "success" (VBool true) result;
      Ret {| r_id := command_id;
             r_agent_id := agent_id cfg;
             r_command := VStr command;
             r_mac_address := mac_address cfg;
             r_result := result;
             r_device_ip := get_default "device_ip" (VStr "") params;
             r_device_id := get_default "device_id" (VStr "") params;
             r_success := success;
             r_timestamp := now |}),
   pool).

Definition execute_command (env : CommandEnvelope) (pool : Pool)
  : outcome ResultEnvelope * Pool :=
  if is_management (command env) then
    _execute_management_command (default "" (command env)) (params env) (id env) pool
  else
    let device_identifier := or_else (device_id env) (device_ip env) in
    if missing device_identifier then
      (Ret (failure env "Missing device_id or device_ip in command" (VStr "")), pool)
    else
      let device_identifier := default "" device_identifier in
      if missing (command env) then
        (Ret (failure env "Missing command in request" (VStr device_identifier)), pool)
      else
        let command := default "" (command env) in
        match dict_get command command_map with
        | None =>
            (Ret (failure env ("Unknown command: " +:+ command) (VStr device_identifier)),
             pool)
        | Some operation =>
            match (if String.eqb command "get_attendance"
                   then attendance_params (params env) else Ret (params env)) with
            | Raise e => (Raise e, pool)
            | Ret params =>
                if bool_decide (is_Some (dict_get "device_identifier" params))
                   || bool_decide (is_Some (dict_get "operation" params))
                then (Raise (TypeError "got multiple values for keyword argument"), pool)
                else
                  let device_ip' :=
                    default (VStr device_identifier)
                      (pool_device_ip device_identifier pool) in
                  let (result, pool) :=
                    pool_execute_on_device device_identifier operation params pool in
                  let operation_result := get_default "result" (VDict result) result in
                  (Ret {| r_id := id env;
                          r_agent_id := agent_id cfg;
                          r_command := VStr command;
                          r_mac_address := mac_address cfg;
                          r_result := format_result command operation_result;
                          r_device_ip := device_ip';
                          r_device_id := VStr device_identifier;
                          r_success := get_default "success" (VBool true) result;
                          r_timestamp := now |}, pool)
            end
        end.

End Handler.

(** A pool that answers every device operation with a fixed dictionary,
    for running the handler on its own. *)
Definition scripted_pool (answer : dict) : PoolOps unit :=
  {| pool_register_device := fun _ _ _ _ _ _ p => (Ret answer, p);
     pool_unregister_device := fun _ p => (Ret answer, p);
     pool_list_devices := fun _ => [];
     pool_check_device_health := fun _ p => (Ret answer, p);
     pool_execute_on_device := fun _ _ _ p => (answer, p);
     pool_device_ip := fun _ _ => None |}.

End CommandHandler.

(** ** app/service/polling.py: the command poller *)

Module Polling.

Record Stats : Type := mkStats {
  total_polls : Z;
  commands_received : Z;
  commands_executed : Z;
  commands_failed : Z;
  last_poll_time : option Z;
  last_command_time : option Z;
  errors : list StreamManager.ErrorRecord
}.

Definition initial_stats : Stats :=
  {| total_polls := 0; commands_received := 0; commands_executed := 0;
     commands_failed := 0; last_poll_time := None; last_command_time := None;
     errors := [] |}.

(** What [client.post] does: a response with its status code and what
    [response.json()] gives (or raises), or one of the exceptions the
    service tells apart. *)
Inductive Reply : Type :=
| Response (status_code : Z) (json : outcome value)
| ConnectError (msg : string)
| TimeoutException (msg : string)
| OtherException (msg : string).

(** [get_command n] is the outcome of the n-th POST to /api/v1/get_command,
    [send_result n] of the n-th POST to /api/v1/send_result, [clock n] the
    n-th reading of the clock. *)
Record World : Type := mkWorld {
  get_command : nat -> Reply;
  send_result : nat -> Reply;
  clock : nat -> Z
}.

(** The service together with its command handler ([Handler] is the state
    the handler works on, the device pool). *)
Record PollingService (Handler : Type) : Type := mkService {
  is_running : bool;
  stats : Stats;
  command_handler : Handler;
  (* bookkeeping of the model: the bodies posted to send_result and the
     answers consumed *)
  posted : list dict;
  n_get : nat;
  n_send : nat;
  n_clock : nat
}.
Arguments mkService {Handler}.
Arguments is_running {Handler}.
Arguments stats {Handler}.
Arguments command_handler {Handler}.
Arguments posted {Handler}.
Arguments n_get {Handler}.
Arguments n_send {Handler}.
Arguments n_clock {Handler}.

Definition new_service {Handler : Type} (device_pool : Handler)
  : PollingService Handler :=
  {| is_running := false; stats := initial_stats; command_handler := device_pool;
     posted := []; n_get := 0; n_send := 0; n_clock := 0 |}.

Section Service.

Context {Handler : Type}.

(** [self.command_handler.execute_command(command_data)] *)
Variable execute_command : dict -> Handler -> outcome dict * Handler.
Variable w : World.

Abbreviation Service := (PollingService Handler).

Definition set_running (b : bool) (s : Service) : Service :=
  mkService b (stats s) (command_handler s) (posted s) (n_get s) (n_send s) (n_clock s).

Definition set_stats (st : Stats) (s : Service) : Service :=
  mkService (is_running s) st (command_handler s) (posted s) (n_get s) (n_send s)
    (n_clock s).

Definition set_handler (h : Handler) (s : Service) : Service :=
  mkService (is_running s) (stats s) h (posted s) (n_get s) (n_send s) (n_clock s).

(** [int(time.time())] *)
Definition time_now (s : Service) : Z * Service :=
  (clock w (n_clock s),
   mkService (is_running s) (stats s) (command_handler s) (posted s) (n_get s)
     (n_send s) (S (n_clock s))).

(** [_log_error]: append, then keep the last 50. *)
Definition _log_error (error_message : string) (s : Service) : Service :=
  let (now, s) := time_now s in
  let st := stats s in
  let errs := errors st ++ [StreamManager.mkError error_message now] in
  let errs := if 50 <? Z.of_nat (length errs) then skipn (length errs - 50) errs else errs in
  set_stats (mkStats (total_polls st) (commands_received st) (commands_executed st)
               (commands_failed st) (last_poll_time st) (last_command_time st) errs) s.

(** Bookkeeping of one request to get_command, and of one to send_result
    with its body. *)
Definition count_request (s : Service) : Service :=
  mkService (is_running s) (stats s) (command_handler s) (posted s)
    (S (n_get s)) (n_send s) (n_clock s).

Definition record_post (body : dict) (s : Service) : Service :=
  mkService (is_running s) (stats s) (command_handler s) (posted s ++ [body])
    (n_get s) (S (n_send s)) (n_clock s).

(** [_fetch_command]: the "data" member of a 200 response whose body is a
    non-empty JSON object, [None] in every other case. *)
Definition _fetch_command (s : Service) : value * Service :=
  let r := get_command w (n_get s) in
  let s := count_request s in
  match r with
  | Response status_code json =>
      if status_code =? 204 then (VNone, s)
      else if status_code =? 404 then (VNone, s)
      else if negb (status_code =? 200) then (VNone, s)
      else
        match json with
        | Raise e => (VNone, _log_error ("Fetch command error: " +:+ exn_msg e) s)
        | Ret command_data =>
            if negb (truthy command_data) || negb (is_dict command_data) then (VNone, s)
            else
              match command_data with
              | VDict d =>
                  if is_none (get "data" d) then (VNone, s) else (get "data" d, s)
              | _ => (VNone, s)
              end
        end
  | ConnectError msg => (VNone, _log_error ("Connection error: " +:+ msg) s)
  | TimeoutException msg => (VNone, _log_error ("Timeout error: " +:+ msg) s)
  | OtherException msg => (VNone, _log_error ("Fetch command error: " +:+ msg) s)
  end.

Definition count_executed (s : Service) : Service :=
  let st := stats s in
  set_stats (mkStats (total_polls st) (commands_received st) (commands_executed st + 1)
               (commands_failed st) (last_poll_time st) (last_command_time st)
               (errors st)) s.

Definition count_failed (s : Service) : Service :=
  let st := stats s in
  set_stats (mkStats (total_polls st) (commands_received st) (commands_executed st)
               (commands_failed st + 1) (last_poll_time st) (last_command_time st)
               (errors st)) s.

Definition _execute_command (command_data : dict) (s : Service) : dict * Service :=
  let (r, h) := execute_command command_data (command_handler s) in
  let s := set_handler h s in
  match r with
  | Ret result =>
      if truthy (get "success" result) then (result, count_executed s)
      else (result, count_failed s)
  | Raise e =>
      let s := count_failed s in
      let s := _log_error ("Command execution error: " +:+ exn_msg e) s in
      let (now, s) := time_now s in
      ([("success", VBool false);
        ("error", VStr ("Execution error: " +:+ exn_msg e));
        ("command", get "command" command_data);
        ("executed_at", VInt now)], s)
  end.

(** [_send_result]: one POST of a copy of the result; the answer is only
    printed, an exception is recorded. *)
Definition _send_result (command_data result : dict) (s : Service) : Service :=
  let r := send_result w (n_send s) in
  let s := record_post result s in
  match r with
  | Response _ _ => s
  | ConnectError msg => _log_error ("Connection error when sending result: " +:+ msg) s
  | TimeoutException msg => _log_error ("Timeout when sending result: " +:+ msg) s
  | OtherException msg => _log_error ("Send result error: " +:+ msg) s
  end.

Definition begin_poll (s : Service) : Service :=
  let st := stats s in
  let s := set_stats (mkStats (total_polls st + 1) (commands_received st)
                        (commands_executed st) (commands_failed st)
                        (last_poll_time st) (last_command_time st) (errors st)) s in
  let (now, s) := time_now s in
  let st := stats s in
  set_stats (mkStats (total_polls st) (commands_received st) (commands_executed st)
               (commands_failed st) (Some now) (last_command_time st) (errors st)) s.

Definition count_received (s : Service) : Service :=
  let st := stats s in
  let s := set_stats (mkStats (total_polls st) (commands_received st + 1)
                        (commands_executed st) (commands_failed st)
                        (last_poll_time st) (last_command_time st) (errors st)) s in
  let (now, s) := time_now s in
  let st := stats s in
  set_stats (mkStats (total_polls st) (commands_received st) (commands_executed st)
               (commands_failed st) (last_poll_time st) (Some now) (errors st)) s.

(** [_poll_cycle].  [command_data.get('command')] is evaluated for the
    print before anything is counted, so a command that is not a mapping
    raises there. *)
Definition _poll_cycle (s : Service) : outcome unit * Service :=
  let s := begin_poll s in
  let (command_data, s) := _fetch_command s in
  if negb (truthy command_data) then (Ret tt, s)
  else
    match command_data with
    | VDict d =>
        let s := count_received s in
        let (result, s) := _execute_command d s in
        (Ret tt, _send_result d result s)
    | VList _ => (Raise (AttributeError "'list' object has no attribute 'get'"), s)
    | _ => (Raise (AttributeError "object has no attribute 'get'"), s)
    end.

(** One turn of [while self.is_running] in [start]. *)
Definition poll_once (s : Service) : Service :=
  let (r, s) := _poll_cycle s in
  match r with
  | Ret _ => s
  | Raise e => _log_error ("Poll cycle error: " +:+ exn_msg e) s
  end.

(** The loop of [start], for at most [fuel] turns; only [stop], called
    from outside between two turns, ends it. *)
Fixpoint poll_loop (fuel : nat) (s : Service) : Service :=
  match fuel with
  | O => s
  | S fuel => if is_running s then poll_loop fuel (poll_once s) else s
  end.

Definition start (fuel : nat) (s : Service) : Service :=
  if is_running s then s else poll_loop fuel (set_running true s).

Definition stop (s : Service) : Service := set_running false s.

End Service.

(** The counters add up: every received command was executed or failed, a
    result was posted for each, and there was one request per poll. *)
Definition accounted {Handler : Type} (s : PollingService Handler) : Prop :=
  commands_executed (stats s) + commands_failed (stats s) = commands_received (stats s) /\
  commands_received (stats s) <= total_polls (stats s) /\
  Z.of_nat (length (posted s)) = commands_received (stats s) /\
  Z.of_nat (n_get s) = total_polls (stats s) /\
  n_send s = length (posted s) /\
  (length (errors (stats s)) <= 50)%nat.

(** What a step leaves alone: everything but the error list, the times and
    the clock. *)
Definition quiet_step {Handler : Type} (s s' : PollingService Handler) : Prop :=
  is_running s' = is_running s /\
  command_handler s' = command_handler s /\
  posted s' = posted s /\
  n_get s' = n_get s /\
  n_send s' = n_send s /\
  total_polls (stats s') = total_polls (stats s) /\
  commands_received (stats s') = commands_received (stats s) /\
  commands_executed (stats s') = commands_executed (stats s) /\
  commands_failed (stats s') = commands_failed (stats s) /\
  ((length (errors (stats s)) <= 50)%nat -> (length (errors (stats s')) <= 50)%nat).

(** A poll that found no command: nothing is executed, posted or counted. *)
Definition idle {Handler : Type} (s s' : PollingService Handler) : Prop :=
  command_handler s' = command_handler s /\
  posted s' = posted s /\
  n_send s' = n_send s /\
  commands_received (stats s') = commands_received (stats s) /\
  commands_executed (stats s') = commands_executed (stats s) /\
  commands_failed (stats s') = commands_failed (stats s).

(** A poll that found a command, given what the handler answered: the
    command is counted, counted again as executed or failed, and one result
    is posted. *)
Definition handled {Handler : Type} (answer : outcome dict * Handler)
    (command_data : dict) (s s' : PollingService Handler) : Prop :=
  command_handler s' = answer.2 /\
  n_send s' = S (n_send s) /\
  commands_received (stats s') = commands_received (stats s) + 1 /\
  match answer.1 with
  | Ret result =>
      posted s' = posted s ++ [result] /\
      if truthy (get "success" result) then
        commands_executed (stats s') = commands_executed (stats s) + 1 /\
        commands_failed (stats s') = commands_failed (stats s)
      else
        commands_executed (stats s') = commands_executed (stats s) /\
        commands_failed (stats s') = commands_failed (stats s) + 1
  | Raise e =>
      (exists now,
         posted s' = posted s ++
           [[("success", VBool false);
             ("error", VStr ("Execution error: " +:+ exn_msg e));
             ("command", get "command" command_data);
             ("executed_at", VInt now)]]) /\
      commands_executed (stats s') = commands_executed (stats s) /\
      commands_failed (stats s') = commands_failed (stats s) + 1
  end.

(** A handler that answers every command with the same result or
    exception, for running the service on its own. *)
Definition scripted_handler (answer : outcome dict) (_ : dict) (h : unit)
  : outcome dict * unit := (answer, h).

End Polling.

(** ** app/core/v1/config.py: the hardware address *)

Module HostConfig.

(** One address of a network interface, as psutil reports it. *)
Record Address : Type := mkAddress {
  family : Z;
  address : string
}.

Definition skipped_prefixes : list string := ["lo"; "docker"; "br-"; "veth"].

(** [iface_name.startswith(("lo", "docker", "br-", "veth"))] *)
Definition skipped (iface_name : string) : bool :=
  existsb (λ p, String.prefix p iface_name) skipped_prefixes.

(** [mac and mac != "00:00:00:00:00:00"], for a link-layer address. *)
Definition usable (AF_LINK : Z) (addr : Address) : bool :=
  (family addr =? AF_LINK) &&
  negb (String.eqb (address addr) "") &&
  negb (String.eqb (address addr) "00:00:00:00:00:00").

(** [get_physical_mac], over the interfaces in the order psutil lists
    them. *)
Fixpoint get_physical_mac (AF_LINK : Z) (addrs : list (string * list Address))
  : option string :=
  match addrs with
  | [] => None
  | (iface_name, iface_addrs) :: rest =>
      if skipped iface_name then get_physical_mac AF_LINK rest
      else
        match List.find (usable AF_LINK) iface_addrs with
        | Some addr => Some (address addr)
        | None => get_physical_mac AF_LINK rest
        end
  end.

End HostConfig.

(** ** Scenario inputs *)

Module Scenario.

(** A terminal at 10.0.0.5 with an open session holding the given users
    and attendance log. *)
Definition terminal (users : list Essl.User) (logs : list Essl.Attendance)
  : Essl.ESSLDeviceCore :=
  Essl.mkCore (VStr "10.0.0.5") (VInt 4370) (VInt 0)
    (Some (Essl.mkConn users logs true true true [])).

(** A punch whose wall-clock reading is 1970-01-01 05:30:00 (IST). *)
Definition epoch_punch : Essl.Attendance :=
  Essl.mkAttendance (VStr "7") (Some Essl.IST_OFFSET) (VInt 1) (VInt 0) (VInt 42).

Definition alice : Essl.User :=
  Essl.mkUser 1 (VStr "1001") (VStr "Alice") (VInt 0) (VStr "1234") (VInt 5551).

Definition cfg : Config :=
  {| server_url := "http://server"; agent_id := "agent-1"; mac_address := VNone |}.

(** A registry that already holds device_001. *)
Definition one_device_pool : DevicePool.DevicePoolManager :=
  (DevicePool.register_device "device_001" (VStr "10.0.0.5") None None VNone VNone
     DevicePool.empty_pool).2.

Definition session : Essl.ZKConn := Essl.mkConn [alice] [] true true true [].

(** The server accepts every event; the terminal refuses every connection. *)
Definition dead_world : StreamManager.World :=
  {| StreamManager.http_post := fun _ => StreamManager.Response 200;
     StreamManager.zk_connect := fun _ => None;
     StreamManager.live_capture := fun _ => ([], StreamManager.CaptureEnds);
     StreamManager.clock := fun n => 1700000000 + Z.of_nat n |}.

(** The terminal refuses the first connection and accepts the next one; the
    capture then yields one punch. *)
Definition recovering_world : StreamManager.World :=
  {| StreamManager.http_post := fun _ => StreamManager.Response 200;
     StreamManager.zk_connect :=
       fun n => match n with O => None | _ => Some session end;
     StreamManager.live_capture :=
       fun _ => ([Some epoch_punch], StreamManager.CaptureEnds);
     StreamManager.clock := fun n => 1700000000 + Z.of_nat n |}.

(** The server answers 503 to every event. *)
Definition failing_server : StreamManager.World :=
  {| StreamManager.http_post := fun _ => StreamManager.Response 503;
     StreamManager.zk_connect := fun _ => Some session;
     StreamManager.live_capture := fun _ => ([], StreamManager.CaptureEnds);
     StreamManager.clock := fun n => 1700000000 + Z.of_nat n |}.

(** A started engine for device_001. *)
Definition running_engine : StreamManager.StreamManager :=
  StreamManager.set_running true
    (StreamManager.new_engine (VStr "10.0.0.5") "device_001" 24).

(** A punch whose wall-clock reading is 2023-11-15 03:43:20 (IST), that is
    1700000000 seconds after the epoch. *)
Definition recent_punch : Essl.Attendance :=
  Essl.mkAttendance (VStr "7") (Some (1700000000 + Essl.IST_OFFSET))
    (VInt 1) (VInt 0) (VInt 43).

Definition bogus_command : CommandHandler.CommandEnvelope :=
  CommandHandler.mkCommand (VStr "c-1") (Some "bogus_cmd") [] (Some "device_001") None.

Definition get_users_command : CommandHandler.CommandEnvelope :=
  CommandHandler.mkCommand (VStr "c-2") (Some "get_users") [] (Some "device_001") None.

(** The registry's answer when the device returns one user. *)
Definition get_users_answer : dict :=
  [("success", VBool true); ("device_id", VStr "device_001");
   ("operation", VStr "get_users");
   ("result", VList [VDict [("uid", VInt 1); ("name", VStr "Alice")]])].

(** The terminal accepts the connection and holds three recent punches; the
    server accepts every event. *)
Definition syncing_world : StreamManager.World :=
  {| StreamManager.http_post := fun _ => StreamManager.Response 200;
     StreamManager.zk_connect :=
       fun _ => Some (Essl.mkConn [alice] [recent_punch; recent_punch; recent_punch]
                        true true true []);
     StreamManager.live_capture := fun _ => ([], StreamManager.CaptureEnds);
     StreamManager.clock := fun n => 1700000000 + Z.of_nat n |}.

(** device_001's engine right after [start]. *)
Definition started_engine : StreamManager.StreamManager :=
  (StreamManager.start cfg dead_world
     (StreamManager.new_engine (VStr "10.0.0.5") "device_001" 24)).2.



(** The server offers the same get_users command at every poll and accepts
    every result. *)
Definition busy_server : Polling.World :=
  {| Polling.get_command := fun _ =>
       Polling.Response 200
         (Ret (VDict [("data", VDict [("id", VStr "c-9"); ("command", VStr "get_users");
                                       ("device_id", VStr "device_001")])]));
     Polling.send_result := fun _ => Polling.Response 200 (Ret VNone);
     Polling.clock := fun n => 1700000000 + Z.of_nat n |}.

(** The server has no command: 204 at every poll. *)
Definition idle_server : Polling.World :=
  {| Polling.get_command := fun _ => Polling.Response 204 (Raise (OtherError "no body"));
     Polling.send_result := fun _ => Polling.Response 200 (Ret VNone);
     Polling.clock := fun n => 1700000000 + Z.of_nat n |}.

(** [str()] on the values of the scenarios: None, booleans, integers and
    strings. *)
Definition str_of_scalar (v : value) : string :=
  match v with
  | VNone => "None"
  | VBool true => "True"
  | VBool false => "False"
  | VInt z => pretty z
  | VStr s => s
  | _ => ""
  end.

(** [int()] on the numbers of the scenarios; no scenario converts a
    string, which is taken as invalid here. *)
Definition int_of_scalar (v : value) : Essl.IntResult :=
  match v with
  | VInt z => Essl.IntOk z
  | VBool b => Essl.IntOk (Z.b2z b)
  | VStr _ => Essl.IntValueError "invalid literal for int() with base 10"
  | _ => Essl.IntTypeError "int() argument must be a string or a real number"
  end.

(** No terminal answers. *)
Definition unreachable (_ : value) (_ _ : Z) : outcome Essl.ZKConn :=
  Raise (OtherError "can't reach device (ping 10.0.0.5)").

(** Every terminal answers with the session of the scenarios. *)
Definition reachable (_ : value) (_ _ : Z) : outcome Essl.ZKConn :=
  Ret session.

(** A core with one method, get_users, which returns a fixed list. *)
Definition one_method (operation : string) (_ : Essl.ESSLDeviceCore)
  : option DevicePool.Method :=
  if String.eqb operation "get_users"
  then Some (fun _ core => (Ret (VList []), core))
  else None.

(** A punch whose wall-clock reading is 2023-11-15 00:56:40 (IST), ten
    thousand seconds before [recent_punch]. *)
Definition earlier_punch : Essl.Attendance :=
  Essl.mkAttendance (VStr "8") (Some (1699990000 + Essl.IST_OFFSET))
    (VInt 1) (VInt 0) (VInt 44).

(** [bogus_command] and [get_users_command], sent without device_id and
    without device_ip. *)
Definition bogus_command_without_target : CommandHandler.CommandEnvelope :=
  CommandHandler.mkCommand (VStr "c-1") (Some "bogus_cmd") [] None None.

Definition get_users_without_target : CommandHandler.CommandEnvelope :=
  CommandHandler.mkCommand (VStr "c-2") (Some "get_users") [] None None.

(** A management command, sent without device_id and device_ip beside its
    parameters. *)
Definition unregister_command_without_target : CommandHandler.CommandEnvelope :=
  CommandHandler.mkCommand (VStr "c-4") (Some "unregister_device")
    [("device_id", VStr "device_001")] None None.

(** [needle in text], on strings. *)
Fixpoint mentions (needle text : string) : bool :=
  String.prefix needle text ||
  match text with
  | EmptyString => false
  | String _ rest => mentions needle rest
  end.

(** The client has been closed: every POST raises RuntimeError. *)
Definition closed_client (_ : nat) : option exn :=
  Some (OtherError "Cannot send a request, as the client has been closed.").

(** The client raises nothing but httpx.RequestError. *)
Definition open_client (_ : nat) : option exn := None.

End Scenario.

(** * Properties *)

(** ** Dictionaries *)



(** ** The device core: attendance *)

Section Attendance.

Import Essl.

Lemma insert_desc_perm (x : LogDict) (l : list LogDict) :
  Permutation (insert_desc x l) (x :: l).
Proof.
  induction l as [|y l IH]; simpl; [reflexivity|].
  destruct (sort_key y <=? sort_key x); [reflexivity|].
  rewrite IH. apply perm_swap.
Qed.

(** Sorting keeps exactly the records it was given. *)
Lemma sort_desc_perm (l : list LogDict) : Permutation (sort_desc l) l.
Proof.
  induction l as [|x l IH]; simpl; [reflexivity|].
  rewrite insert_desc_perm. by constructor.
Qed.

Lemma insert_desc_sorted (x : LogDict) (l : list LogDict) :
  newest_first l -> newest_first (insert_desc x l).
Proof.
  unfold newest_first. induction l as [|y l IH]; intros Hs; simpl.
  - repeat constructor.
  - destruct (Z.leb_spec (sort_key y) (sort_key x)) as [Hle|Hgt].
    + constructor; [exact Hs | constructor; exact Hle].
    + apply Sorted_inv in Hs as [Hs Hhd].
      constructor; [by apply IH|].
      destruct l as [|z l]; simpl.
      * constructor. lia.
      * destruct (Z.leb_spec (sort_key z) (sort_key x)).
        -- constructor. lia.
        -- constructor. by apply HdRel_inv in Hhd.
Qed.

(** The sorted list is newest-first. *)
Lemma sort_desc_sorted (l : list LogDict) : newest_first (sort_desc l).
Proof.
  induction l as [|x l IH]; simpl; [constructor|].
  by apply insert_desc_sorted.
Qed.

(** The window tests accept a record exactly when it has a timestamp, the
    timestamp is not 0, and it lies on the right side of the bound. *)
Lemma ts_ge_spec (start_epoch : Z) (l : LogDict) :
  ts_ge start_epoch l = true <->
  exists t, l_timestamp l = Some t /\ t <> 0 /\ start_epoch <= t.
Proof.
  unfold ts_ge. destruct (l_timestamp l) as [t|].
  - rewrite andb_true_iff, negb_true_iff, Z.eqb_neq, Z.leb_le.
    split; [intros [? ?]; eauto | intros (t' & [= <-] & ? & ?); auto].
  - split; [discriminate | intros (t & Ht & _); discriminate].
Qed.

Lemma ts_le_spec (end_epoch : Z) (l : LogDict) :
  ts_le end_epoch l = true <->
  exists t, l_timestamp l = Some t /\ t <> 0 /\ t <= end_epoch.
Proof.
  unfold ts_le. destruct (l_timestamp l) as [t|].
  - rewrite andb_true_iff, negb_true_iff, Z.eqb_neq, Z.leb_le.
    split; [intros [? ?]; eauto | intros (t' & [= <-] & ? & ?); auto].
  - split; [discriminate | intros (t & Ht & _); discriminate].
Qed.

(** What [get_attendance] computes on an open session whose driver answers:
    filter by the window and the user, sort, and only then cut to the limit. *)
Lemma get_attendance_pipeline (core : ESSLDeviceCore) (c : ZKConn)
    (start_time end_time uid_filter limit : value) :
  conn core = Some c ->
  zk_get_attendance_ok c = true ->
  get_attendance core start_time end_time uid_filter limit =
    rewrap "Failed to get attendance: "
      (logs ← filter_start start_time (List.map to_log (zk_attendance c));
       logs ← filter_end end_time logs;
       apply_limit limit (sort_desc (filter_user uid_filter logs))).
Proof.
  intros Hc Hok. unfold get_attendance, _ensure_connected.
  rewrite Hc. simpl. rewrite Hok. reflexivity.
Qed.

(** A null or zero end time is no filter at all: the call behaves as if the
    argument had been left out. *)
Lemma get_attendance_falsy_end (core : ESSLDeviceCore)
    (start_time end_time uid_filter limit : value) :
  truthy end_time = false ->
  get_attendance core start_time end_time uid_filter limit =
  get_attendance core start_time VNone uid_filter limit.
Proof.
  intros Hf. unfold get_attendance, filter_end. rewrite Hf. reflexivity.
Qed.

(** A limit of 0 is no limit at all: the call behaves as if the argument
    had been left out. *)
Lemma get_attendance_zero_limit (core : ESSLDeviceCore)
    (start_time end_time uid_filter : value) :
  get_attendance core start_time end_time uid_filter (VInt 0) =
  get_attendance core start_time end_time uid_filter VNone.
Proof. reflexivity. Qed.

(** C9 (code defect). A limit of 0 is given and not applied: the test
    [if limit:], meant for a limit that was left out, is also false for 0,
    so the call returns every record where [logs[:0]] has none.  Any other
    limit is applied, after the sort. *)
Theorem get_attendance_ignores_zero_limit :
  let core := Scenario.terminal [] [Scenario.earlier_punch; Scenario.recent_punch] in
  let newest_first_logs :=
    [to_log Scenario.recent_punch; to_log Scenario.earlier_punch] in
  get_attendance core VNone VNone VNone (VInt 0) = Ret newest_first_logs /\
  slice_to 0 newest_first_logs = [] /\
  get_attendance core VNone VNone VNone (VInt 1) = Ret [to_log Scenario.recent_punch] /\
  CommandHandler.attendance_params [("limit", VInt 0)] = Ret [("limit", VInt 0)].
Proof. split_and!; reflexivity. Qed.

End Attendance.

(** ** The device core: users *)

Section Users.

Import Essl.

Lemma store_user_same (u : User) (us : list User) :
  find_user (uid u) us = Some u -> store_user u us = us.
Proof.
  unfold find_user. induction us as [|v us IH]; simpl; [discriminate|].
  destruct (uid v =? uid u) eqn:E; intros Hf.
  - congruence.
  - f_equal. by apply IH.
Qed.

Lemma find_user_uid (uid' : Z) (us : list User) (u : User) :
  find_user uid' us = Some u -> uid u = uid'.
Proof.
  unfold find_user. intros Hf. apply find_some in Hf as [_ Hf]. lia.
Qed.

Lemma find_user_none (uid' : Z) (us : list User) :
  Forall (fun u => uid u <> uid') us -> find_user uid' us = None.
Proof.
  unfold find_user. induction 1 as [|u us Hu _ IH]; simpl; [reflexivity|].
  destruct (Z.eqb_spec (uid u) uid'); [contradiction | exact IH].
Qed.

Lemma keep_or_none (existing : value) : keep_or VNone existing = existing.
Proof. reflexivity. Qed.

Lemma keep_or_given (x existing : value) : x <> VNone -> keep_or x existing = x.
Proof. by destruct x. Qed.

Lemma merged_user_unset (u : User) : merged_user u VNone VNone VNone VNone = u.
Proof. by destruct u. Qed.

(** C10. On a connected device, [update_user] writes the found user back
    with every unset field taken from the existing record and the same
    user_id, so that an update without any field rewrites the record as it
    was; when no user has the uid the call fails with a DeviceError and
    nothing is written. *)
Theorem update_user_keeps_unset_fields (core : ESSLDeviceCore) (c : ZKConn)
    (uid' : Z) (name' privilege' password' card' : value) :
  conn core = Some c ->
  (forall existing : User,
      zk_get_users_ok c = true -> zk_set_user_ok c = true ->
      find_user uid' (zk_users c) = Some existing ->
      exists (r : dict) (c' : ZKConn) (written : User),
        update_user core uid' name' privilege' password' card'
          = (Ret r, with_conn core c') /\
        zk_writes c' = zk_writes c ++ [written] /\
        zk_users c' = store_user written (zk_users c) /\
        uid written = uid' /\
        user_id written = user_id existing /\
        name written = (if is_none name' then name existing else name') /\
        privilege written =
          (if is_none privilege' then privilege existing else privilege') /\
        password written =
          (if is_none password' then password existing else password') /\
        card written = (if is_none card' then card existing else card') /\
        (name' = VNone -> privilege' = VNone -> password' = VNone -> card' = VNone ->
         written = existing /\ zk_users c' = zk_users c)) /\
  (Forall (fun u => uid u <> uid') (zk_users c) ->
   exists msg : string,
     update_user core uid' name' privilege' password' card'
       = (Raise (DeviceError msg), core)).
Proof.
  intros Hc. split.
  - intros existing Hget Hset Hfind.
    unfold update_user, _ensure_connected, set_user.
    rewrite Hc, Hget, Hfind, Hset. simpl.
    eexists _, _, (merged_user existing name' privilege' password' card').
    split; [reflexivity|]. simpl.
    split_and!; try reflexivity.
    + by apply find_user_uid in Hfind.
    + by destruct name'.
    + by destruct privilege'.
    + by destruct password'.
    + by destruct card'.
    + intros -> -> -> ->. rewrite merged_user_unset. split; [reflexivity|].
      apply store_user_same. by rewrite (find_user_uid _ _ _ Hfind).
  - intros Hnone. apply find_user_none in Hnone.
    unfold update_user, _ensure_connected. rewrite Hc.
    destruct (zk_get_users_ok c); [rewrite Hnone|]; simpl; eauto.
Qed.

Lemma update_user_keeps_unset_fields_witness :
  exists r c',
    update_user (Scenario.terminal [Scenario.alice] []) 1 VNone VNone VNone VNone
      = (Ret r, with_conn (Scenario.terminal [Scenario.alice] []) c') /\
    zk_writes c' = [Scenario.alice] /\
    zk_users c' = [Scenario.alice].
Proof.
  destruct (update_user_keeps_unset_fields
              (Scenario.terminal [Scenario.alice] [])
              (mkConn [Scenario.alice] [] true true true [])
              1 VNone VNone VNone VNone eq_refl) as [Hfound _].
  destruct (Hfound Scenario.alice eq_refl eq_refl eq_refl)
    as (r & c' & written & Hrun & Hw & Hu & _ & _ & _ & _ & _ & _ & Hsame).
  destruct (Hsame eq_refl eq_refl eq_refl eq_refl) as [-> Hstore].
  exists r, c'. repeat split; assumption.
Defined.

End Users.

(** ** The registry *)

Section Registry.

Import DevicePool.

Lemma filter_none {A : Type} (P : A -> Prop) `{forall x, Decision (P x)} (l : list A) :
  (forall x, x ∈ l -> ~ P x) -> filter P l = [].
Proof.
  induction l as [|x l IH]; intros Hl; [reflexivity|].
  rewrite filter_cons, decide_False by (apply Hl; left).
  apply IH. intros y Hy. apply Hl. by right.
Qed.

(** A registered id has exactly one record. *)
Lemma records_for_registered (p : DevicePoolManager) (i : string) (info : DeviceInfo) :
  devices p !! i = Some info -> records_for i p = [(i, info)].
Proof.
  intros Hi. unfold records_for.
  apply Permutation_singleton_r.
  rewrite <- (map_to_list_delete _ _ _ Hi).
  rewrite filter_cons, decide_True by reflexivity.
  rewrite filter_none; [reflexivity|].
  intros [k v] Hkv Hk. simpl in Hk. subst k.
  apply elem_of_map_to_list in Hkv. by rewrite lookup_delete_eq in Hkv.
Qed.

Lemma save_devices_maps (p : DevicePoolManager) :
  devices (_save_devices p) = devices p /\
  device_cores (_save_devices p) = device_cores p.
Proof. unfold _save_devices. by destruct (fs_writable p). Qed.

(** After any registration call the id is present. *)
Lemma register_device_present (p : DevicePoolManager) (i : string)
    (ip : value) (po pw : option value) (n l : value) :
  is_Some (devices (register_device i ip po pw n l p).2 !! i).
Proof.
  unfold register_device. destruct (devices p !! i) eqn:E; simpl.
  - rewrite E. eauto.
  - destruct (save_devices_maps
                {| devices := <[i:=mkDeviceInfo i ip (or_default po DEFAULT_PORT)
                                    (or_default pw DEFAULT_PASSWORD) (VInt DEFAULT_TIMEOUT)
                                    n l true VNone]> (devices p);
                   device_cores :=
                     <[i:=Essl.mkCore ip (or_default po DEFAULT_PORT)
                            (or_default pw DEFAULT_PASSWORD) None]> (device_cores p);
                   data_file := data_file p; fs_writable := fs_writable p |})
      as [-> _].
    simpl. rewrite lookup_insert_eq. eauto.
Qed.

Lemma register_device_duplicate (p : DevicePoolManager) (i : string)
    (ip : value) (po pw : option value) (n l : value) :
  is_Some (devices p !! i) ->
  get "success" (register_device i ip po pw n l p).1 = VBool false /\
  get "message" (register_device i ip po pw n l p).1
    = VStr ("Device " +:+ i +:+ " already registered") /\
  (register_device i ip po pw n l p).2 = p /\
  length (records_for i (register_device i ip po pw n l p).2) = 1%nat.
Proof.
  intros [info Hi]. unfold register_device. rewrite Hi. simpl.
  split_and!; try reflexivity.
  by rewrite (records_for_registered _ _ _ Hi).
Qed.

Lemma register_device_fresh (p : DevicePoolManager) (i : string)
    (ip : value) (po pw : option value) (n l : value) :
  devices p !! i = None ->
  get "success" (register_device i ip po pw n l p).1 = VBool true /\
  exists info core,
    devices (register_device i ip po pw n l p).2 !! i = Some info /\
    device_cores (register_device i ip po pw n l p).2 !! i = Some core /\
    length (records_for i (register_device i ip po pw n l p).2) = 1%nat /\
    port info = or_default po 4370 /\ Essl.port core = port info /\
    password info = or_default pw 0 /\ Essl.core_password core = password info /\
    (po = None \/ po = Some VNone -> port info = VInt 4370) /\
    (pw = None \/ pw = Some VNone -> password info = VInt 0).
Proof.
  intros Hi. unfold register_device. rewrite Hi. simpl.
  split; [reflexivity|].
  match goal with |- context [_save_devices ?q] =>
    destruct (save_devices_maps q) as [Hd Hc];
    assert (Hrec : length (records_for i (_save_devices q)) = 1%nat)
  end.
  { erewrite records_for_registered; [reflexivity|].
    rewrite Hd. simpl. apply lookup_insert_eq. }
  eexists _, _. rewrite Hd, Hc. simpl.
  rewrite !lookup_insert_eq.
  split_and!; try reflexivity; try exact Hrec.
  + by intros [-> | ->].
  + by intros [-> | ->].
Qed.

(** C4. Registering an id that is already present reports failure and
    changes nothing (record map, capability map, saved file), and the id
    keeps exactly one record; a registration that succeeds stores port 4370
    and secret 0 when port or password is left out or null, in the record
    and in the bound capability. *)
Theorem register_device_rejects_duplicate (p : DevicePoolManager) (i : string)
    (ip : value) (po pw : option value) (n l : value) :
  (is_Some (devices p !! i) ->
   get "success" (register_device i ip po pw n l p).1 = VBool false /\
   get "message" (register_device i ip po pw n l p).1
     = VStr ("Device " +:+ i +:+ " already registered") /\
   (register_device i ip po pw n l p).2 = p /\
   length (records_for i (register_device i ip po pw n l p).2) = 1%nat) /\
  (devices p !! i = None ->
   get "success" (register_device i ip po pw n l p).1 = VBool true /\
   exists info core,
     devices (register_device i ip po pw n l p).2 !! i = Some info /\
     device_cores (register_device i ip po pw n l p).2 !! i = Some core /\
     length (records_for i (register_device i ip po pw n l p).2) = 1%nat /\
     port info = or_default po 4370 /\ Essl.port core = port info /\
     password info = or_default pw 0 /\ Essl.core_password core = password info /\
     (po = None \/ po = Some VNone -> port info = VInt 4370) /\
     (pw = None \/ pw = Some VNone -> password info = VInt 0)).
Proof.
  split; [apply register_device_duplicate | apply register_device_fresh].
Qed.

Lemma register_device_rejects_duplicate_witness :
  get "success"
    (register_device "device_001" (VStr "10.0.0.9") (Some (VInt 4000)) None VNone VNone
       Scenario.one_device_pool).1 = VBool false /\
  (register_device "device_001" (VStr "10.0.0.9") (Some (VInt 4000)) None VNone VNone
     Scenario.one_device_pool).2 = Scenario.one_device_pool /\
  exists info,
    devices Scenario.one_device_pool !! "device_001" = Some info /\
    port info = VInt 4370 /\ password info = VInt 0.
Proof.
  destruct (register_device_rejects_duplicate Scenario.one_device_pool "device_001"
              (VStr "10.0.0.9") (Some (VInt 4000)) None VNone VNone) as [Hdup _].
  destruct Hdup as (Hs & _ & Hp & _).
  { apply register_device_present. }
  destruct (register_device_rejects_duplicate empty_pool "device_001"
              (VStr "10.0.0.5") None None VNone VNone) as [_ Hnew].
  destruct (Hnew eq_refl) as (_ & info & core & Hi & _ & _ & _ & _ & _ & _ & Hpo & Hpw).
  split; [exact Hs|]. split; [exact Hp|].
  exists info. split; [exact Hi|]. split; [apply Hpo | apply Hpw]; by left.
Defined.

(** Registering the same id twice: whatever the first call did, the second
    fails and leaves the registry as the first call left it. *)
Lemma register_device_twice (p : DevicePoolManager) (i : string)
    (ip ip' : value) (po pw po' pw' : option value) (n l n' l' : value) :
  let p1 := (register_device i ip po pw n l p).2 in
  get "success" (register_device i ip' po' pw' n' l' p1).1 = VBool false /\
  (register_device i ip' po' pw' n' l' p1).2 = p1 /\
  length (records_for i p1) = 1%nat.
Proof.
  intros p1.
  destruct (register_device_duplicate p1 i ip' po' pw' n' l')
    as (Hs & _ & Hp & Hc); [apply register_device_present|].
  rewrite Hp in Hc. auto.
Qed.

End Registry.

(** ** The coordinator and the registry *)

Section Coordination.

Import DevicePool StreamManager Coordinator.

Variable cfg : Config.
Variable w : World.
Variable hours : Z.

Lemma register_device_devices (p : DevicePoolManager) (i : string)
    (ip : value) (po pw : option value) (n l : value) :
  devices (register_device i ip po pw n l p).2 = devices p \/
  devices p !! i = None /\
  exists info, is_active info = true /\
    devices (register_device i ip po pw n l p).2 = <[i:=info]> (devices p).
Proof.
  unfold register_device. destruct (devices p !! i) eqn:E; simpl; [by left|].
  right. split; [reflexivity|].
  match goal with |- context [_save_devices ?q] =>
    destruct (save_devices_maps q) as [-> _] end.
  simpl. eexists. split; [|reflexivity]. reflexivity.
Qed.

Lemma unregister_device_devices (p : DevicePoolManager) (i : string) :
  devices (unregister_device i p).2 = delete i (devices p).
Proof.
  unfold unregister_device. destruct (devices p !! i) eqn:E; simpl.
  - match goal with |- context [_save_devices ?q] =>
      destruct (save_devices_maps q) as [-> _] end.
    reflexivity.
  - by rewrite delete_id.
Qed.

(** A freshly built engine starts, and is running afterwards. *)
Lemma start_new_engine (ip : value) (i : string) :
  success_of (start cfg w (new_engine ip i hours)).1 = true /\
  is_running (start cfg w (new_engine ip i hours)).2 = true.
Proof. split; reflexivity. Qed.

(** A running engine stops. *)
Lemma stop_running_engine (sm : StreamManager) :
  is_running sm = true -> success_of (stop cfg w sm).1 = true.
Proof. intros Hr. unfold stop. rewrite Hr. reflexivity. Qed.

Lemma consistent_initial : consistent initial_system.
Proof.
  split_and!.
  - intros i [sm Hsm]. simpl in Hsm. by rewrite lookup_empty in Hsm.
  - intros i sm Hsm. simpl in Hsm. by rewrite lookup_empty in Hsm.
  - intros i info Hi. simpl in Hi. by rewrite lookup_empty in Hi.
Qed.

Lemma consistent_register (sys : System) (i : string)
    (ip : value) (po pw : option value) (n l : value) :
  consistent sys ->
  consistent {| device_pool := (register_device i ip po pw n l (device_pool sys)).2;
                stream_managers := stream_managers sys |}.
Proof.
  intros (Hreg & Hrun & Hact).
  destruct (register_device_devices (device_pool sys) i ip po pw n l)
    as [Hd | (Hnone & info & Hinfo & Hd)]; split_and!.
  - intros j Hj. simpl. rewrite Hd. by apply Hreg.
  - exact Hrun.
  - intros j x. simpl. rewrite Hd. apply Hact.
  - intros j Hj. simpl. rewrite Hd.
    destruct (Hreg j Hj) as (x & Hx & Hax).
    exists x. split; [|exact Hax].
    rewrite lookup_insert_ne; [exact Hx | congruence].
  - exact Hrun.
  - intros j x. simpl. rewrite Hd.
    rewrite lookup_insert_Some. intros [[_ <-] | [_ Hx]]; [exact Hinfo|].
    by apply (Hact j).
Qed.

Lemma consistent_start (sys : System) (i : string) :
  consistent sys -> consistent (start_streaming_device cfg w hours i sys).2.
Proof.
  intros (Hreg & Hrun & Hact). unfold start_streaming_device.
  destruct (stream_managers sys !! i) eqn:Esm; [done|].
  unfold get_device_info.
  destruct (devices (device_pool sys) !! i) as [info|] eqn:Edev; [|done].
  destruct (start_new_engine (DevicePool.device_ip info) i) as [Hok Hrunning].
  destruct (start cfg w (new_engine (DevicePool.device_ip info) i hours)) as [result sm].
  simpl in Hok, Hrunning. rewrite Hok. simpl. split_and!.
  - intros j. simpl. rewrite lookup_insert_is_Some.
    intros [<- | [_ Hj]]; [|by apply Hreg].
    exists info. split; [exact Edev | by apply (Hact i)].
  - intros j x. simpl. rewrite lookup_insert_Some.
    intros [[_ <-] | [_ Hx]]; [exact Hrunning | by apply (Hrun j)].
  - exact Hact.
Qed.

Lemma stop_removes_engine (sys : System) (i : string) :
  engines_running sys ->
  stream_managers (stop_streaming_device cfg w i sys).2
    = delete i (stream_managers sys) /\
  device_pool (stop_streaming_device cfg w i sys).2 = device_pool sys.
Proof.
  intros Hrun. unfold stop_streaming_device.
  destruct (stream_managers sys !! i) as [sm|] eqn:Esm.
  - pose proof (stop_running_engine sm (Hrun i sm Esm)) as Hok.
    destruct (stop cfg w sm) as [result sm']. simpl in Hok. rewrite Hok.
    by split.
  - simpl. by rewrite delete_id.
Qed.

Lemma consistent_stop (sys : System) (i : string) :
  consistent sys -> consistent (stop_streaming_device cfg w i sys).2.
Proof.
  intros (Hreg & Hrun & Hact).
  destruct (stop_removes_engine sys i Hrun) as [Hsm Hpool]. split_and!.
  - intros j. rewrite Hsm, Hpool, lookup_delete_is_Some.
    intros [_ Hj]. by apply Hreg.
  - intros j x. rewrite Hsm, lookup_delete_Some. intros [_ Hx]. by apply (Hrun j).
  - intros j x. rewrite Hpool. apply Hact.
Qed.

Lemma consistent_add (sys : System) (i : string) (ip po n l : value) (auto : bool) :
  consistent sys -> consistent (add_device_and_stream cfg w hours i ip po n l auto sys).2.
Proof.
  intros Hc. unfold add_device_and_stream.
  pose proof (consistent_register sys i ip (Some po) None n l Hc) as Hc'.
  destruct (register_device i ip (Some po) None n l (device_pool sys)) as [r pool].
  simpl in Hc'.
  destruct (negb (success_of r)); [exact Hc'|].
  destruct auto; [|exact Hc'].
  pose proof (consistent_start _ i Hc') as Hc''.
  destruct (start_streaming_device cfg w hours i _) as [r' sys']. exact Hc''.
Qed.

Lemma consistent_remove (sys : System) (i : string) :
  consistent sys -> consistent (remove_device_and_stop_stream cfg w i sys).2.
Proof.
  intros Hc. unfold remove_device_and_stop_stream.
  assert (Hstop : exists sys',
             (match stream_managers sys !! i with
              | Some _ =>
                  let (r, sys0) := stop_streaming_device cfg w i sys in (VDict r, sys0)
              | None => (VNone, sys)
              end).2 = sys' /\ consistent sys' /\ stream_managers sys' !! i = None).
  { destruct (stream_managers sys !! i) eqn:Esm.
    - pose proof (consistent_stop sys i Hc) as Hc'.
      destruct Hc as (_ & Hrun & _).
      destruct (stop_removes_engine sys i Hrun) as [Hsm _].
      destruct (stop_streaming_device cfg w i sys) as [r sys0]. simpl in *.
      exists sys0. split_and!; [reflexivity | exact Hc' |].
      rewrite Hsm. apply lookup_delete_eq.
    - exists sys. by split_and!. }
  destruct Hstop as (sys' & Heq & (Hreg & Hrun & Hact) & Hgone).
  destruct (match stream_managers sys !! i with
            | Some _ => _ | None => _ end) as [sr sys0].
  simpl in Heq. subst sys0.
  pose proof (unregister_device_devices (device_pool sys') i) as Hd.
  destruct (unregister_device i (device_pool sys')) as [ur pool]. simpl in *.
  split_and!.
  - intros j Hj. simpl in *. rewrite Hd.
    destruct (Hreg j Hj) as (x & Hx & Hax). exists x. split; [|exact Hax].
    rewrite lookup_delete_ne; [exact Hx|].
    intros <-. rewrite Hgone in Hj. by destruct Hj.
  - exact Hrun.
  - intros j x. simpl. rewrite Hd, lookup_delete_Some. intros [_ Hx]. by apply (Hact j).
Qed.

(** Every operation other than a bare [unregister_device] keeps the
    coordinator consistent with the registry. *)
Lemma consistent_apply_op (o : Op) (sys : System) :
  is_unregister o = false -> consistent sys -> consistent (apply_op cfg w hours o sys).
Proof.
  destruct o; simpl; intros Hu Hc; try discriminate.
  - by apply consistent_register.
  - by apply consistent_start.
  - by apply consistent_stop.
  - by apply consistent_add.
  - by apply consistent_remove.
Qed.

Lemma consistent_run_ops (ops : list Op) (sys : System) :
  forallb (fun o => negb (is_unregister o)) ops = true ->
  consistent sys -> consistent (run_ops cfg w hours ops sys).
Proof.
  revert sys. induction ops as [|o ops IH]; intros sys Hops Hc; [exact Hc|].
  simpl in Hops. apply andb_prop in Hops as [Ho Hops].
  simpl. apply IH; [exact Hops|].
  apply consistent_apply_op; [|exact Hc]. by destruct (is_unregister o).
Qed.

(** C3 (code defect). Register a device, start streaming it, then
    unregister it through the registry: the coordinator still holds the
    engine while the registry has no record of the device. *)
Theorem unregister_leaves_engine :
  let sys :=
    run_ops cfg w hours
      [Register "device_001" (VStr "10.0.0.5") None None VNone VNone;
       StartStreaming "device_001";
       Unregister "device_001"] initial_system in
  is_Some (stream_managers sys !! "device_001") /\
  devices (device_pool sys) !! "device_001" = None /\
  ~ engines_registered sys.
Proof.
  intros sys.
  assert (Hsm : is_Some (stream_managers sys !! "device_001")) by (vm_compute; eauto).
  assert (Hd : devices (device_pool sys) !! "device_001" = None) by (vm_compute; reflexivity).
  split_and!; [exact Hsm | exact Hd |].
  intros Hreg. destruct (Hreg "device_001" Hsm) as (info & Hi & _). congruence.
Qed.

End Coordination.

(** ** The stream engine: delivery *)

Section Delivery.

Import StreamManager.

Variable w : World.

Lemma send_attempts_cons (attempt : Z) (rest : list Z) (payload : Payload)
    (st : StreamManager) :
  send_attempts w (attempt :: rest) payload st =
    if failed (post w st).1 then
      send_attempts w rest payload
        (if attempt <? MAX_RETRY_ATTEMPTS
         then sleep (RETRY_DELAY_SECONDS * 1000) (post w st).2 else (post w st).2)
    else (true, count_sent (time_now w (post w st).2).1 (time_now w (post w st).2).2).
Proof.
  simpl. destruct (http_post w (n_posts st)) as [c|m]; simpl; [|reflexivity].
  by destruct (is_success c).
Qed.

Lemma range1_max : range1 MAX_RETRY_ATTEMPTS = [1; 2; 3].
Proof. reflexivity. Qed.

Lemma last_skipn_snoc {A : Type} (l : list A) (x : A) (k : nat) :
  (k <= length l)%nat -> last (skipn k (l ++ [x])) = Some x.
Proof.
  intros Hk. rewrite skipn_app.
  replace (k - length l)%nat with 0%nat by lia. simpl. apply last_snoc.
Qed.

(** A status outside 200..299 is a failed attempt, and so is a transport
    error. *)
Lemma non_2xx_failed (status_code : Z) :
  status_code < 200 \/ 300 <= status_code -> failed (Response status_code) = true.
Proof. intros Hc. unfold failed, is_success. lia. Qed.

(** What one call of [_send_event_to_server] does: the attempts it makes,
    the delays between them, and its effect on the statistics and on the
    overflow queue. *)
Lemma send_event_outcome (data : value) (ty : EventType) (st : StreamManager) :
  let res := _send_event_to_server w data ty st in
  let s := stats st in
  let s' := stats res.2 in
  let payload := mkPayload (device_id st) ty data (clock w (n_clock st)) in
  exists results : list HttpResult,
    (0 < length results <= 3)%nat /\
    (forall i r, results !! i = Some r -> r = http_post w (n_posts st + i)) /\
    trace res.2 =
      trace st ++ separated_by (ASleep (RETRY_DELAY_SECONDS * 1000)) (APost <$> results) /\
    (forall i r, results !! i = Some r -> (S i < length results)%nat -> failed r = true) /\
    res.1 = negb (forallb failed results) /\
    historical_events_sent s' = historical_events_sent s /\
    realtime_events_sent s' = realtime_events_sent s /\
    (res.1 = true ->
       total_events_sent s' = total_events_sent s + 1 /\
       last_event_time s' = Some (clock w (S (n_clock st))) /\
       failed_events s' = failed_events s /\
       event_queue res.2 = event_queue st /\
       errors s' = errors s) /\
    (res.1 = false ->
       length results = 3%nat /\
       total_events_sent s' = total_events_sent s /\
       failed_events s' = failed_events s + 1 /\
       last_event_time s' = last_event_time s /\
       if Z.of_nat (length (event_queue st)) <? EVENT_QUEUE_MAX_SIZE
       then event_queue res.2 = event_queue st ++ [payload] /\ errors s' = errors s
       else event_queue res.2 = event_queue st /\
            last (errors s') =
              Some (mkError "Event queue full - event discarded"
                      (clock w (S (n_clock st))))).
Proof.
  intros res s s' payload. subst res s s'.
  unfold _send_event_to_server.
  destruct (time_now w st) as [now st0] eqn:E0.
  injection E0 as <- <-.
  rewrite range1_max, !send_attempts_cons. simpl.
  destruct (failed (http_post w (n_posts st))) eqn:F1;
    [destruct (failed (http_post w (S (n_posts st)))) eqn:F2;
     [destruct (failed (http_post w (S (S (n_posts st))))) eqn:F3|]|].
  - exists [http_post w (n_posts st); http_post w (S (n_posts st));
            http_post w (S (S (n_posts st)))].
    simpl. rewrite F1, F2, F3. simpl.
    unfold _queue_failed_event, put_nowait. simpl.
    split_and!.
    all: try lia.
    all: try (intros [|[|[|i]]] r Hr; simplify_eq/=; f_equal; lia).
    all: try (intros [|[|[|i]]] r Hr Hi; simplify_eq/=; try done; lia).
    all: try (destruct (_ <? _); simpl; by rewrite <- ?app_assoc).
    all: try discriminate.
    intros _.
    destruct (Z.of_nat (length (event_queue st)) <? EVENT_QUEUE_MAX_SIZE);
      simpl; split_and!; try reflexivity.
    destruct (50 <? _); [|apply last_snoc].
    apply last_skipn_snoc. rewrite length_app. simpl. lia.
  - exists [http_post w (n_posts st); http_post w (S (n_posts st));
            http_post w (S (S (n_posts st)))].
    simpl. rewrite F1, F2, F3. simpl.
    split_and!.
    all: try lia.
    all: try (intros [|[|[|i]]] r Hr; simplify_eq/=; f_equal; lia).
    all: try (intros [|[|[|i]]] r Hr Hi; simplify_eq/=; try done; lia).
    all: try (by rewrite <- ?app_assoc).
    all: try discriminate.
    all: try (intros _; by split_and!).
  - exists [http_post w (n_posts st); http_post w (S (n_posts st))].
    simpl. rewrite F1, F2. simpl.
    split_and!.
    all: try lia.
    all: try (intros [|[|i]] r Hr; simplify_eq/=; f_equal; lia).
    all: try (intros [|[|i]] r Hr Hi; simplify_eq/=; try done; lia).
    all: try (by rewrite <- ?app_assoc).
    all: try discriminate.
    all: try (intros _; by split_and!).
  - exists [http_post w (n_posts st)].
    simpl. rewrite F1. simpl.
    split_and!.
    all: try lia.
    all: try (intros [|i] r Hr; simplify_eq/=; f_equal; lia).
    all: try (intros [|i] r Hr Hi; simplify_eq/=; lia).
    all: try reflexivity.
    all: try discriminate.
    all: try (intros _; by split_and!).
Qed.

End Delivery.

(** ** The stream engine: delivery, whatever the client raises *)

Section PostingPath.

Import StreamManager.

Variable w : World.
Variable escapes : nat -> option exn.

Lemma any_send_attempts_cons (attempt : Z) (rest : list Z) (payload : Payload)
    (st : StreamManager) :
  Posting.send_attempts w escapes (attempt :: rest) payload st =
    match escapes (n_posts st) with
    | Some e => (Raise e, (Posting.post w escapes st).2)
    | None =>
        if failed (post w st).1 then
          Posting.send_attempts w escapes rest payload
            (if attempt <? MAX_RETRY_ATTEMPTS
             then sleep (RETRY_DELAY_SECONDS * 1000) (post w st).2 else (post w st).2)
        else (Ret true,
              count_sent (time_now w (post w st).2).1 (time_now w (post w st).2).2)
    end.
Proof.
  cbn [Posting.send_attempts]. unfold Posting.post.
  destruct (escapes (n_posts st)) as [e|]; [reflexivity|].
  cbn [post fst snd]. destruct (http_post w (n_posts st)) as [c|m]; cbn [failed];
    [|reflexivity].
  by destruct (is_success c).
Qed.

(** Over a client that raises nothing but httpx.RequestError the delivery
    is the one of the engine. *)
Lemma send_attempts_without_escape (attempts : list Z) (payload : Payload)
    (st : StreamManager) :
  (forall n, escapes n = None) ->
  Posting.send_attempts w escapes attempts payload st =
    (Ret (send_attempts w attempts payload st).1,
     (send_attempts w attempts payload st).2).
Proof.
  intros Hnone. revert st. induction attempts as [|a rest IH]; intros st.
  - reflexivity.
  - rewrite any_send_attempts_cons, send_attempts_cons, Hnone.
    destruct (failed (post w st).1); [apply IH | reflexivity].
Qed.

Lemma send_event_without_escape (data : value) (ty : EventType) (st : StreamManager) :
  (forall n, escapes n = None) ->
  Posting._send_event_to_server w escapes data ty st =
    (Ret (_send_event_to_server w data ty st).1,
     (_send_event_to_server w data ty st).2).
Proof.
  intros Hnone. unfold Posting._send_event_to_server, _send_event_to_server.
  destruct (time_now w st) as [now st0]. by apply send_attempts_without_escape.
Qed.

(** C5 (amended). One event is posted at most 3 times.  The attempts are
    the answers of the server in order; every attempt but the last has
    failed, where a status outside 2xx and a transport error are failures,
    and a failed attempt is always followed by the next one until three
    have been made; consecutive attempts are 5 seconds apart with nothing
    else in between.  The call returns True exactly when the last attempt
    made was accepted, and then counts the event sent.  It returns False
    exactly when three attempts have failed: the failure counter goes up
    by one and the payload is appended to the overflow queue, unless the
    queue already holds 1000 events: then [put_nowait] raises, the event
    is dropped and the drop is recorded as the newest error.  It raises
    exactly when the client raises an exception that is not an
    httpx.RequestError: that exception leaves the call at once, with no
    further attempt, nothing counted and nothing queued.  So no exception
    leaves the call when the client fails only with httpx.RequestError,
    and a queue of at most 1000 events stays at most 1000 long. *)
Theorem send_event_bounded_retry (data : value) (ty : EventType) (st : StreamManager) :
  let res := Posting._send_event_to_server w escapes data ty st in
  let payload := mkPayload (device_id st) ty data (clock w (n_clock st)) in
  let s := stats st in
  let s' := stats res.2 in
  (exists results : list HttpResult,
     (length results <= 3)%nat /\
     (forall i r, results !! i = Some r ->
        escapes (n_posts st + i) = None /\ r = http_post w (n_posts st + i)) /\
     (forall i r, results !! i = Some r -> (S i < length results)%nat ->
        failed r = true) /\
     match res.1 with
     | Ret true =>
         (exists r, last results = Some r /\ failed r = false) /\
         trace res.2 =
           trace st ++ separated_by (ASleep (5 * 1000)) (APost <$> results) /\
         total_events_sent s' = total_events_sent s + 1 /\
         last_event_time s' = Some (clock w (S (n_clock st))) /\
         failed_events s' = failed_events s /\
         event_queue res.2 = event_queue st
     | Ret false =>
         length results = 3%nat /\ forallb failed results = true /\
         trace res.2 =
           trace st ++ separated_by (ASleep (5 * 1000)) (APost <$> results) /\
         total_events_sent s' = total_events_sent s /\
         failed_events s' = failed_events s + 1 /\
         (Z.of_nat (length (event_queue st)) < 1000 ->
            event_queue res.2 = event_queue st ++ [payload] /\
            errors s' = errors s) /\
         (1000 <= Z.of_nat (length (event_queue st)) ->
            put_nowait payload (event_queue st) = Raise QueueFull /\
            event_queue res.2 = event_queue st /\
            last (errors s') =
              Some (mkError "Event queue full - event discarded"
                      (clock w (S (n_clock st)))))
     | Raise e =>
         (length results < 3)%nat /\ forallb failed results = true /\
         escapes (n_posts st + length results) = Some e /\
         trace res.2 =
           trace st ++ flat_map (fun r => [APost r; ASleep (5 * 1000)]) results /\
         s' = s /\
         event_queue res.2 = event_queue st
     end) /\
  (forall status_code, status_code < 200 \/ 300 <= status_code ->
                       failed (Response status_code) = true) /\
  (forall msg, failed (RequestError msg) = true) /\
  (forall c, failed (Response c) = false <-> c = 200 \/ c = 201 \/ c = 204) /\
  ((forall n, escapes n = None) ->
   res = (Ret (_send_event_to_server w data ty st).1,
          (_send_event_to_server w data ty st).2)) /\
  (Z.of_nat (length (event_queue st)) <= 1000 ->
   Z.of_nat (length (event_queue res.2)) <= 1000).
Proof.
  intros res payload s s'.
  match goal with |- ?cases /\ _ => assert (Hmain : cases) end.
  { subst res payload s s'. unfold Posting._send_event_to_server.
    destruct (time_now w st) as [now st0] eqn:E0. injection E0 as <- <-.
    rewrite range1_max, !any_send_attempts_cons. unfold Posting.post. simpl.
    assert (H2 : (n_posts st + 2)%nat = S (S (n_posts st))) by lia.
    destruct (escapes (n_posts st)) as [e1|] eqn:X1.
    { exists []. simpl. rewrite Nat.add_0_r, app_nil_r.
      split_and!; try done; lia. }
    destruct (failed (http_post w (n_posts st))) eqn:F1.
    2: { exists [http_post w (n_posts st)]. simpl.
         split_and!; try done; try lia; eauto.
         intros [|i] r Hr; simplify_eq/=. by rewrite Nat.add_0_r. }
    destruct (escapes (S (n_posts st))) as [e2|] eqn:X2.
    { exists [http_post w (n_posts st)]. simpl. rewrite F1. simpl.
      split_and!; try done; try lia.
      all: try (intros [|i] r Hr; simplify_eq/=; by rewrite Nat.add_0_r).
      all: by rewrite ?Nat.add_1_r, <- ?app_assoc. }
    destruct (failed (http_post w (S (n_posts st)))) eqn:F2.
    2: { exists [http_post w (n_posts st); http_post w (S (n_posts st))]. simpl.
         split_and!; try done; try lia; eauto.
         all: try (intros [|[|i]] r Hr; simplify_eq/=;
                   rewrite ?Nat.add_0_r, ?Nat.add_1_r; done).
         all: try (intros [|[|i]] r Hr Hi; simplify_eq/=; try done; lia).
         all: by rewrite <- ?app_assoc. }
    destruct (escapes (S (S (n_posts st)))) as [e3|] eqn:X3.
    { exists [http_post w (n_posts st); http_post w (S (n_posts st))].
      simpl. rewrite F1, F2, H2. simpl.
      split_and!; try done; try lia.
      all: try (intros [|[|i]] r Hr; simplify_eq/=;
                rewrite ?Nat.add_0_r, ?Nat.add_1_r; done).
      all: try (intros [|[|i]] r Hr Hi; simplify_eq/=; try done; lia).
      all: by rewrite <- ?app_assoc. }
    exists [http_post w (n_posts st); http_post w (S (n_posts st));
            http_post w (S (S (n_posts st)))].
    split; [simpl; lia|]. split.
    { intros [|[|[|i]]] r Hr; simplify_eq/=;
        rewrite ?Nat.add_0_r, ?Nat.add_1_r, ?H2; done. }
    split.
    { intros [|[|[|i]]] r Hr Hi; simplify_eq/=; try done; lia. }
    destruct (failed (http_post w (S (S (n_posts st))))) eqn:F3.
    2: { simpl. split_and!; try done; try lia; eauto.
         all: by rewrite <- ?app_assoc. }
    simpl. rewrite F1, F2, F3. simpl.
    unfold _queue_failed_event, put_nowait, EVENT_QUEUE_MAX_SIZE. simpl.
    destruct (Z.ltb_spec (Z.of_nat (length (event_queue st))) 1000); simpl.
    - split_and!; try done; try lia. by rewrite <- ?app_assoc.
    - split_and!; try done; try lia.
      + by rewrite <- ?app_assoc.
      + intros _. split_and!; try done.
        destruct (50 <? _); [|apply last_snoc].
        apply last_skipn_snoc. rewrite length_app. simpl. lia. }
  split; [exact Hmain|].
  split; [apply non_2xx_failed|].
  split; [reflexivity|].
  split.
  { intros c. unfold failed, is_success.
    rewrite negb_false_iff, !orb_true_iff, !Z.eqb_eq. tauto. }
  destruct Hmain as (results & _ & _ & _ & Hcase).
  split.
  - apply send_event_without_escape.
  - intros Hq. destruct (fst res) as [[|]|e].
    + destruct Hcase as (_ & _ & _ & _ & _ & ->). exact Hq.
    + destruct Hcase as (_ & _ & _ & _ & _ & Hfree & Hfull).
      destruct (Z.lt_ge_cases (Z.of_nat (length (event_queue st))) 1000) as [Hlt|Hge].
      * destruct (Hfree Hlt) as [-> _]. rewrite length_app. simpl. lia.
      * destruct (Hfull Hge) as (_ & -> & _). exact Hq.
    + destruct Hcase as (_ & _ & _ & _ & _ & ->). exact Hq.
Qed.

End PostingPath.

Lemma send_event_bounded_retry_witness :
  let res :=
    Posting._send_event_to_server Scenario.failing_server Scenario.open_client VNone
      StreamManager.HISTORICAL Scenario.running_engine in
  res.1 = Ret false /\
  StreamManager.failed_events (StreamManager.stats res.2) = 1 /\
  length (StreamManager.event_queue res.2) = 1%nat /\
  Z.of_nat (length (StreamManager.event_queue res.2)) <= 1000.
Proof.
  intros res.
  destruct (send_event_bounded_retry Scenario.failing_server Scenario.open_client VNone
              StreamManager.HISTORICAL Scenario.running_engine)
    as ((results & _ & _ & _ & Hcase) & _ & _ & _ & _ & Hbound).
  fold res in Hcase, Hbound.
  assert (Hres : res.1 = Ret false) by reflexivity.
  rewrite Hres in Hcase.
  destruct Hcase as (_ & _ & _ & _ & Hf & Hfree & _).
  split; [exact Hres|]. split; [exact Hf|]. split.
  - destruct Hfree as [-> _]; [simpl; lia | reflexivity].
  - apply Hbound. simpl. lia.
Defined.

(** C5, the claim as stated fails: once the client has been closed its
    POST raises RuntimeError, which [_send_event_to_server] does not
    handle; the exception leaves the call, and the event is neither
    counted as failed nor queued. *)
Lemma send_event_raises_on_closed_client :
  let res :=
    Posting._send_event_to_server Scenario.dead_world Scenario.closed_client VNone
      StreamManager.HISTORICAL Scenario.running_engine in
  res.1 = Raise (OtherError "Cannot send a request, as the client has been closed.") /\
  StreamManager.failed_events (StreamManager.stats res.2) = 0 /\
  StreamManager.event_queue res.2 = [].
Proof. split_and!; reflexivity. Qed.

(** ** The stream engine: statistics *)

Section Statistics.

Import StreamManager.

Variable cfg : Config.
Variable w : World.

#[local] Instance counters_le_refl : Reflexive counters_le.
Proof. intros s. unfold counters_le. lia. Qed.

#[local] Instance counters_le_trans : Transitive counters_le.
Proof. intros a b c. unfold counters_le. lia. Qed.

Lemma connect_stats (st : StreamManager) : stats (connect w st).2 = stats st.
Proof.
  unfold connect. destruct (Essl.conn (device st)); [reflexivity|].
  by destruct (zk_connect w (n_connects st)).
Qed.

Lemma connect_running (st : StreamManager) :
  is_running (connect w st).2 = is_running st.
Proof.
  unfold connect. destruct (Essl.conn (device st)); [reflexivity|].
  by destruct (zk_connect w (n_connects st)).
Qed.

Lemma disconnect_stats (st : StreamManager) : stats (disconnect st) = stats st.
Proof. unfold disconnect. by destruct (Essl.conn (device st)). Qed.

Lemma log_error_counters (msg : string) (st : StreamManager) :
  counters_le (stats st) (stats (_log_error w msg st)).
Proof. unfold _log_error, counters_le. simpl. lia. Qed.

Lemma queue_failed_counters (payload : Payload) (st : StreamManager) :
  counters_le (stats st) (stats (_queue_failed_event w payload st)).
Proof.
  unfold _queue_failed_event. destruct (put_nowait payload (event_queue st)).
  - reflexivity.
  - apply log_error_counters.
Qed.

Lemma send_event_counters (data : value) (ty : EventType) (st : StreamManager) :
  counters_le (stats st) (stats (_send_event_to_server w data ty st).2).
Proof.
  destruct (send_event_outcome w data ty st)
    as (results & _ & _ & _ & _ & _ & Hh & Hr & Hsent & Hlost).
  unfold counters_le.
  destruct (_send_event_to_server w data ty st).1.
  - destruct (Hsent eq_refl) as (Ht & _ & Hf & _). lia.
  - destruct (Hlost eq_refl) as (_ & Ht & Hf & _). lia.
Qed.

Lemma reconnect_attempts_stats (attempts : list Z) (m : Z) (st : StreamManager) :
  stats (reconnect_attempts w attempts m st) = stats st.
Proof.
  revert st. induction attempts as [|a rest IH]; intros st; simpl; [reflexivity|].
  destruct (is_running st); simpl; [|reflexivity].
  pose proof (connect_stats st) as Hc.
  destruct (connect w st) as [[|e] st1]; simpl in Hc; [exact Hc|].
  rewrite IH. by destruct (a <? m).
Qed.

Lemma reconnect_stats (st : StreamManager) : stats (_reconnect w st) = stats st.
Proof.
  unfold _reconnect. rewrite reconnect_attempts_stats. simpl.
  by rewrite disconnect_stats.
Qed.

Lemma count_realtime_counters (st : StreamManager) :
  counters_le (stats st) (stats (count_realtime st)).
Proof. unfold counters_le. simpl. lia. Qed.

Lemma count_historical_counters (st : StreamManager) :
  counters_le (stats st) (stats (count_historical st)).
Proof. unfold counters_le. simpl. lia. Qed.

Lemma format_event_stats (a : Essl.Attendance) (st : StreamManager) :
  stats (_format_attendance_event w a st).2 = stats st.
Proof. reflexivity. Qed.

Lemma capture_events_cons (ev : option Essl.Attendance)
    (rest : list (option Essl.Attendance)) (st : StreamManager) :
  capture_events w (ev :: rest) st =
    if negb (is_running st) then (true, record (ACapture ev) st)
    else
      match ev with
      | None => capture_events w rest (record (ACapture ev) st)
      | Some a =>
          let fmt := _format_attendance_event w a (record (ACapture ev) st) in
          let sent := _send_event_to_server w fmt.1 REALTIME fmt.2 in
          capture_events w rest
            (if sent.1 then count_realtime sent.2 else sent.2)
      end.
Proof.
  simpl. destruct (is_running st); simpl; [|reflexivity].
  destruct ev as [a|]; [|reflexivity].
  by destruct (_send_event_to_server w _ REALTIME _).
Qed.

Lemma capture_events_counters (events : list (option Essl.Attendance)) (st : StreamManager) :
  counters_le (stats st) (stats (capture_events w events st).2).
Proof.
  revert st. induction events as [|ev rest IH]; intros st; [reflexivity|].
  rewrite capture_events_cons.
  destruct (negb (is_running st)); [reflexivity|].
  destruct ev as [a|]; [|apply (IH (record (ACapture None) st))].
  cbv zeta. etrans; [|apply IH].
  etrans; [|destruct (_send_event_to_server w _ REALTIME _).1;
             [apply count_realtime_counters | reflexivity]].
  etrans; [|apply send_event_counters]. reflexivity.
Qed.

Lemma live_iteration_counters (st : StreamManager) :
  counters_le (stats st) (stats (live_iteration w st)).
Proof.
  unfold live_iteration.
  pose proof (connect_stats st) as Hc.
  destruct (connect w st) as [[|e] st1]; simpl in Hc.
  - destruct (live_capture w (n_captures st1)) as [events fin].
    match goal with |- context [capture_events w events ?s] =>
      pose proof (capture_events_counters events s) as Hcap;
      destruct (capture_events w events s) as [broke st2] end.
    simpl in Hcap. rewrite Hc in Hcap.
    destruct fin as [|msg]; [exact Hcap|].
    destruct broke; [exact Hcap|].
    rewrite reconnect_stats. etrans; [exact Hcap | apply log_error_counters].
  - rewrite reconnect_stats. rewrite <- Hc. apply log_error_counters.
Qed.

Lemma live_loop_counters (fuel : nat) (st : StreamManager) :
  counters_le (stats st) (stats (live_loop w fuel st)).
Proof.
  revert st. induction fuel as [|fuel IH]; intros st; simpl; [reflexivity|].
  destruct (is_running st); [|reflexivity].
  etrans; [apply live_iteration_counters | apply IH].
Qed.

Lemma live_stream_loop_counters (fuel : nat) (st : StreamManager) :
  counters_le (stats st) (stats (_live_stream_loop w fuel st)).
Proof.
  unfold _live_stream_loop. destruct (is_running st); simpl; [|reflexivity].
  apply (live_loop_counters fuel (set_mode LIVE st)).
Qed.

Lemma sync_logs_cons (log : Essl.LogDict) (rest : list Essl.LogDict)
    (st : StreamManager) :
  sync_logs w (log :: rest) st =
    if negb (is_running st) then st
    else
      let sent := _send_event_to_server w (log_value log) HISTORICAL st in
      sync_logs w rest
        (sleep 100 (if sent.1 then count_historical sent.2 else sent.2)).
Proof.
  simpl. destruct (is_running st); simpl; [|reflexivity].
  by destruct (_send_event_to_server w _ HISTORICAL _).
Qed.

Lemma sync_logs_counters (logs : list Essl.LogDict) (st : StreamManager) :
  counters_le (stats st) (stats (sync_logs w logs st)).
Proof.
  revert st. induction logs as [|log rest IH]; intros st; [reflexivity|].
  rewrite sync_logs_cons.
  destruct (negb (is_running st)); [reflexivity|].
  cbv zeta. etrans; [|apply IH].
  etrans; [apply (send_event_counters (log_value log) HISTORICAL st)|].
  destruct (_send_event_to_server w _ HISTORICAL _).1;
    [apply count_historical_counters | reflexivity].
Qed.

Lemma sync_counters (st : StreamManager) :
  counters_le (stats st) (stats (_sync_historical_logs w st)).
Proof.
  unfold _sync_historical_logs. destruct (is_running st); simpl; [|reflexivity].
  pose proof (connect_stats (set_mode SYNCING st)) as Hc.
  destruct (connect w (set_mode SYNCING st)) as [[|e] st1]; simpl in Hc.
  - simpl. destruct (Essl.get_attendance _ _ _ _ _) as [logs|e].
    + etrans; [|apply sync_logs_counters]. simpl. by rewrite Hc.
    + etrans; [|apply log_error_counters]. simpl. by rewrite Hc.
  - etrans; [|apply log_error_counters]. by rewrite Hc.
Qed.

Lemma run_loop_counters (fuel : nat) (st : StreamManager) :
  counters_le (stats st) (stats (_run_loop w fuel st)).
Proof.
  unfold _run_loop. etrans; [apply sync_counters | apply live_stream_loop_counters].
Qed.

Lemma start_counters (st : StreamManager) :
  counters_le (stats st) (stats (start cfg w st).2).
Proof.
  unfold start. destruct (is_running st); simpl; [reflexivity|].
  unfold counters_le. simpl. lia.
Qed.

Lemma stop_counters (st : StreamManager) :
  counters_le (stats st) (stats (stop cfg w st).2).
Proof.
  unfold stop. destruct (is_running st); simpl; [|reflexivity].
  by rewrite disconnect_stats.
Qed.

Lemma engine_step_counters (st st' : StreamManager) :
  engine_step cfg w st st' -> counters_le (stats st) (stats st').
Proof.
  destruct 1.
  - apply start_counters.
  - apply stop_counters.
  - apply run_loop_counters.
  - apply sync_counters.
  - apply live_stream_loop_counters.
  - apply send_event_counters.
  - apply queue_failed_counters.
  - rewrite reconnect_stats. reflexivity.
  - apply log_error_counters.
Qed.

Lemma engine_steps_counters (st st' : StreamManager) :
  rtc (engine_step cfg w) st st' -> counters_le (stats st) (stats st').
Proof.
  induction 1 as [|st st1 st2 Hstep _ IH]; [reflexivity|].
  etrans; [by apply engine_step_counters | exact IH].
Qed.

Lemma is_success_codes (status_code : Z) :
  is_success status_code = true <->
  status_code = 200 \/ status_code = 201 \/ status_code = 204.
Proof. unfold is_success. rewrite !orb_true_iff, !Z.eqb_eq. tauto. Qed.

Lemma forallb_false_exists {A : Type} (f : A -> bool) (l : list A) :
  forallb f l = false -> exists x, In x l /\ f x = false.
Proof.
  induction l as [|x l IH]; simpl; [discriminate|].
  destruct (f x) eqn:E; simpl; [|eauto].
  intros Hl. destruct (IH Hl) as (y & Hy & Hfy). eauto.
Qed.

Lemma not_failed_success (r : HttpResult) :
  failed r = false -> exists c, r = Response c /\ is_success c = true.
Proof.
  destruct r as [c|m]; simpl; [|discriminate].
  intros Hf. exists c. split; [reflexivity|]. by destruct (is_success c).
Qed.

(** C6. A delivery succeeds exactly when one of its (at most three)
    attempts is answered with status 200, 201 or 204; it then adds exactly
    1 to total_events_sent and sets last_event_time to the clock reading
    taken at that moment. Whatever an engine does during its lifetime, none
    of its four counters ever goes down. *)
Theorem delivery_counts_once_and_counters_grow :
  (forall (data : value) (ty : EventType) (st : StreamManager),
      let res := _send_event_to_server w data ty st in
      (res.1 = true <->
       exists (i : nat) (c : Z),
         (i < 3)%nat /\ http_post w (n_posts st + i) = Response c /\
         (c = 200 \/ c = 201 \/ c = 204)) /\
      (res.1 = true ->
       total_events_sent (stats res.2) = total_events_sent (stats st) + 1 /\
       last_event_time (stats res.2) = Some (clock w (S (n_clock st))))) /\
  (forall st st' : StreamManager,
      rtc (engine_step cfg w) st st' ->
      total_events_sent (stats st) <= total_events_sent (stats st') /\
      historical_events_sent (stats st) <= historical_events_sent (stats st') /\
      realtime_events_sent (stats st) <= realtime_events_sent (stats st') /\
      failed_events (stats st) <= failed_events (stats st')).
Proof.
  split; [|apply engine_steps_counters].
  intros data ty st res.
  destruct (send_event_outcome w data ty st)
    as (results & Hlen & Hres & _ & Hfailed & Hok & _ & _ & Hsent & Hlost).
  fold res in Hok, Hsent, Hlost.
  split; [split|].
  - intros Hr. rewrite Hr in Hok. symmetry in Hok.
    apply negb_true_iff, forallb_false_exists in Hok as (r & Hin & Hr').
    apply list_elem_of_In, list_elem_of_lookup in Hin as [i Hi].
    destruct (not_failed_success r Hr') as (c & -> & Hc).
    exists i, c. split_and!.
    + apply lookup_lt_Some in Hi. lia.
    + symmetry. by apply Hres.
    + by apply is_success_codes.
  - intros (i & c & Hi & Hpost & Hc).
    destruct (fst res) eqn:Hr; [reflexivity|]. exfalso.
    destruct (Hlost eq_refl) as (H3 & _).
    symmetry in Hok. apply negb_false_iff in Hok.
    destruct (lookup_lt_is_Some_2 results i) as [r Hri]; [lia|].
    assert (Hf : failed r = true).
    { rewrite forallb_forall in Hok. apply Hok.
      apply list_elem_of_In, list_elem_of_lookup. eauto. }
    rewrite (Hres i r Hri), Hpost in Hf. simpl in Hf.
    apply is_success_codes in Hc. rewrite Hc in Hf. discriminate.
  - intros Hr. destruct (Hsent Hr) as (Ht & Hl & _). by split.
Qed.

End Statistics.

Lemma delivery_counts_once_and_counters_grow_witness :
  let res :=
    StreamManager._send_event_to_server Scenario.dead_world VNone
      StreamManager.REALTIME Scenario.running_engine in
  res.1 = true /\
  StreamManager.total_events_sent (StreamManager.stats res.2) = 1 /\
  0 <= StreamManager.failed_events
         (StreamManager.stats
            (StreamManager._run_loop Scenario.dead_world 2 Scenario.running_engine)).
Proof.
  intros res.
  destruct (delivery_counts_once_and_counters_grow Scenario.cfg Scenario.dead_world)
    as [Hsend Hmono].
  destruct (Hsend VNone StreamManager.REALTIME Scenario.running_engine) as [Hiff Hcount].
  assert (Hok : res.1 = true).
  { apply Hiff. exists 0%nat, 200. split; [lia|]. split; [reflexivity | by left]. }
  split; [exact Hok|]. split.
  - destruct (Hcount Hok) as [Ht _]. exact Ht.
  - destruct (Hmono Scenario.running_engine
                (StreamManager._run_loop Scenario.dead_world 2 Scenario.running_engine))
      as (_ & _ & _ & Hf).
    + apply rtc_once. apply StreamManager.step_run_loop.
    + exact Hf.
Defined.

(** The start-up scenario: three records inside the look-back window are
    posted as historical events, then the engine is in mode LIVE. *)
Example historical_sync_then_live :
  let st := StreamManager._run_loop Scenario.syncing_world 0 Scenario.running_engine in
  StreamManager.mode st = StreamManager.LIVE /\
  StreamManager.total_events_sent (StreamManager.stats st) = 3 /\
  StreamManager.historical_events_sent (StreamManager.stats st) = 3 /\
  StreamManager.realtime_events_sent (StreamManager.stats st) = 0.
Proof. vm_compute. repeat split. Qed.

(** ** The stream engine: reconnection *)

Section Reconnection.

Import StreamManager.

Variable w : World.

Lemma live_loop_step (fuel : nat) (st : StreamManager) :
  is_running st = true ->
  live_loop w (S fuel) st = live_loop w fuel (live_iteration w st).
Proof. intros Hr. simpl. by rewrite Hr. Qed.

(** When the terminal refuses every connection, one iteration of the live
    loop makes four connection attempts (one of its own and three in
    [_reconnect]) and leaves the engine in mode ERROR, still running and
    still disconnected. *)
Lemma live_iteration_dead (st : StreamManager) :
  (forall n, zk_connect w n = None) ->
  is_running st = true ->
  Essl.conn (device st) = None ->
  is_running (live_iteration w st) = true /\
  Essl.conn (device (live_iteration w st)) = None /\
  mode (live_iteration w st) = ERROR /\
  n_connects (live_iteration w st) = (n_connects st + 4)%nat.
Proof.
  intros Hdead Hrun Hconn.
  unfold live_iteration, connect. rewrite Hconn, Hdead. simpl.
  unfold _reconnect, disconnect. simpl. rewrite Hconn. simpl.
  repeat (progress (unfold connect; simpl; rewrite ?Hrun, ?Hconn, ?Hdead; simpl)).
  split_and!; try reflexivity. lia.
Qed.

Lemma live_loop_dead (fuel : nat) (st : StreamManager) :
  (forall n, zk_connect w n = None) ->
  is_running st = true ->
  Essl.conn (device st) = None ->
  is_running (live_loop w fuel st) = true /\
  n_connects (live_loop w fuel st) = (n_connects st + 4 * fuel)%nat /\
  (0 < fuel -> mode (live_loop w fuel st) = ERROR)%nat.
Proof.
  intros Hdead. revert st. induction fuel as [|fuel IH]; intros st Hrun Hconn.
  - simpl. split_and!; [exact Hrun | lia | lia].
  - rewrite live_loop_step by exact Hrun.
    destruct (live_iteration_dead st Hdead Hrun Hconn) as (Hr & Hc & Hm & Hn).
    destruct (IH _ Hr Hc) as (Hr' & Hn' & Hm').
    split_and!; [exact Hr' | lia |].
    intros _. destruct fuel as [|fuel]; [exact Hm | apply Hm'; lia].
Qed.

Lemma reconnect_success_mode (st : StreamManager) (c : Essl.ZKConn) :
  is_running st = true ->
  zk_connect w (n_connects st) = Some c ->
  mode (_reconnect w st) = RECONNECTING /\
  Essl.conn (device (_reconnect w st)) = Some c.
Proof.
  intros Hrun Hc. unfold _reconnect, disconnect.
  destruct (Essl.conn (device st)) eqn:E; simpl;
    repeat (progress (unfold connect; simpl; rewrite ?Hrun, ?Hc, ?E; simpl));
    by split.
Qed.


(** C2 (code defect). With a terminal that refuses every connection, the
    first iteration of the live loop exhausts the three reconnection
    attempts and sets the mode to ERROR, but the engine keeps running: the
    second iteration attempts the connection again and goes through a
    whole new reconnection sequence. And when a reconnection attempt
    succeeds, capture resumes while the mode stays RECONNECTING. *)
Theorem reconnect_exhaustion_does_not_halt :
  let st1 := _live_stream_loop Scenario.dead_world 1 Scenario.running_engine in
  let st2 := _live_stream_loop Scenario.dead_world 2 Scenario.running_engine in
  let st3 := _live_stream_loop Scenario.recovering_world 2 Scenario.running_engine in
  (mode st1 = ERROR /\ is_running st1 = true /\ n_connects st1 = 4%nat) /\
  (n_connects st2 = 8%nat /\
   trace st2 =
     trace st1 ++
     [AConnect false; ASetMode RECONNECTING; ASleep 5000;
      AConnect false; ASleep 10000; AConnect false; ASleep 10000; AConnect false;
      ASetMode ERROR]) /\
  (mode st3 = RECONNECTING /\
   realtime_events_sent (stats st3) = 1 /\
   trace st3 =
     [ASetMode LIVE; AConnect false; ASetMode RECONNECTING; ASleep 5000;
      AConnect true; ACapture (Some Scenario.epoch_punch);
      APost (Response 200)]).
Proof. vm_compute. repeat split. Qed.

End Reconnection.

(** ** The command handler *)

Section Routing.

Import CommandHandler.

Context {Pool : Type} `{PoolOps Pool}.
Variable cfg : Config.
Variable now : Z.

Lemma format_result_is_dict (command : string) (v : value) :
  is_dict (format_result command v) = true.
Proof.
  destruct v; try reflexivity. simpl.
  destruct (String.eqb command "get_users"); [reflexivity|].
  by destruct (String.eqb command "get_attendance").
Qed.

Lemma management_command_result_is_dict (command : string) (params : dict)
    (command_id : value) (pool pool' : Pool) (r : ResultEnvelope) :
  _execute_management_command cfg now command params command_id pool = (Ret r, pool') ->
  is_dict (r_result r) = true.
Proof.
  unfold _execute_management_command.
  destruct (management_result command params pool) as [[v|e] p]; simpl; [|discriminate].
  destruct v; simpl; try discriminate.
  intros [= <- _]. reflexivity.
Qed.

(** Whenever [execute_command] returns an envelope, its result is a mapping. *)
Lemma execute_command_result_is_dict (env : CommandEnvelope) (pool pool' : Pool)
    (r : ResultEnvelope) :
  execute_command cfg now env pool = (Ret r, pool') -> is_dict (r_result r) = true.
Proof.
  unfold execute_command.
  destruct (is_management (command env)).
  { apply management_command_result_is_dict. }
  destruct (missing (or_else (device_id env) (device_ip env))).
  { intros [= <- _]. reflexivity. }
  destruct (missing (command env)).
  { intros [= <- _]. reflexivity. }
  destruct (dict_get _ command_map) as [operation|].
  2: { intros [= <- _]. reflexivity. }
  destruct (if String.eqb _ "get_attendance" then _ else _) as [ps|e]; [|discriminate].
  destruct (_ || _); [discriminate|].
  destruct (pool_execute_on_device _ _ _ _) as [result p].
  intros [= <- _]. simpl. apply format_result_is_dict.
Qed.

(** C1 (code defect). The list_devices command never yields a result
    envelope: the registry answers with a list, reading its "success" entry
    fails, and the handler raises DeviceError. *)
Theorem list_devices_command_raises (command_id : value) (params : dict)
    (device_id' device_ip' : option string) (pool : Pool) :
  execute_command cfg now
    (mkCommand command_id (Some "list_devices") params device_id' device_ip') pool
  = (Raise (DeviceError
       "Failed to execute management command: 'list' object has no attribute 'get'"),
     pool).
Proof. reflexivity. Qed.

End Routing.

Section RoutingFailures.

Import CommandHandler.

Context {Pool : Type} `{PoolOps Pool}.
Variable cfg : Config.
Variable now : Z.

(** C7 (amended). For a command that is not a management command the
    handler checks the routing target first, then the command name, then
    the command table, and answers each failure with an envelope, without
    raising and without touching the pool.  When neither device_id nor
    device_ip is given the answer is the missing-target message, whatever
    the command name is: unknown, known or absent.  With a target, an
    absent or empty name is answered with the missing-command message, and
    a name that is not in the command table with "Unknown command: "
    followed by that name.  Each of these envelopes has success False, the
    message under "error" as its whole result, and the id and the command
    of the request; the three messages differ from one another. *)
Theorem unknown_command_is_structured_failure (env : CommandEnvelope) (pool : Pool) :
  is_management (command env) = false ->
  let target := or_else (device_id env) (device_ip env) in
  let answer := execute_command cfg now env pool in
  let failure_with (message : string) (device_id' : string) : ResultEnvelope :=
    {| r_id := id env;
       r_agent_id := agent_id cfg;
       r_command := str_or_none (command env);
       r_mac_address := mac_address cfg;
       r_result := VDict [("error", VStr message)];
       r_device_ip := VStr "";
       r_device_id := VStr device_id';
       r_success := VBool false;
       r_timestamp := now |} in
  (missing target = true ->
   answer = (Ret (failure_with "Missing device_id or device_ip in command" ""), pool)) /\
  (forall t, target = Some t -> t <> "" -> missing (command env) = true ->
   answer = (Ret (failure_with "Missing command in request" t), pool)) /\
  (forall t c, target = Some t -> t <> "" -> command env = Some c -> c <> "" ->
   dict_get c command_map = None ->
   answer = (Ret (failure_with ("Unknown command: " +:+ c) t), pool)) /\
  "Missing device_id or device_ip in command" <> "Missing command in request" /\
  (forall c, "Unknown command: " +:+ c <> "Missing device_id or device_ip in command" /\
             "Unknown command: " +:+ c <> "Missing command in request").
Proof.
  intros Hm target answer failure_with. subst answer.
  unfold execute_command. rewrite Hm. fold target.
  split_and!.
  - intros Ht. rewrite Ht. reflexivity.
  - intros t Ht Hne Hc. rewrite Ht. cbn [missing].
    destruct (String.eqb_spec t ""); [done|]. rewrite Hc. reflexivity.
  - intros t c Ht Hne Hc Hcne Htable. rewrite Ht, Hc. cbn [missing].
    destruct (String.eqb_spec t ""); [done|].
    destruct (String.eqb_spec c ""); [done|].
    cbn [default from_option Datatypes.id]. rewrite Htable. reflexivity.
  - discriminate.
  - intros c. split; discriminate.
Qed.

End RoutingFailures.

Lemma unknown_command_is_structured_failure_witness :
  exists r,
    CommandHandler.execute_command (H := CommandHandler.scripted_pool [])
      Scenario.cfg 1700000000 Scenario.bogus_command tt = (Ret r, tt) /\
    CommandHandler.r_success r = VBool false /\
    CommandHandler.r_result r = VDict [("error", VStr "Unknown command: bogus_cmd")] /\
    CommandHandler.execute_command (H := CommandHandler.scripted_pool [])
      Scenario.cfg 1700000000 Scenario.get_users_without_target tt =
      (Ret (CommandHandler.failure Scenario.cfg 1700000000
              Scenario.get_users_without_target
              "Missing device_id or device_ip in command" (VStr "")), tt).
Proof.
  destruct (unknown_command_is_structured_failure
              (H := CommandHandler.scripted_pool [])
              Scenario.cfg 1700000000 Scenario.bogus_command tt eq_refl)
    as (_ & _ & Hunknown & _).
  destruct (unknown_command_is_structured_failure
              (H := CommandHandler.scripted_pool [])
              Scenario.cfg 1700000000 Scenario.get_users_without_target tt eq_refl)
    as (Htarget & _).
  eexists. split.
  - apply (Hunknown "device_001" "bogus_cmd"); done.
  - split; [reflexivity|]. split; [reflexivity|]. apply Htarget. reflexivity.
Defined.

(** C7, the claim as stated fails: an unknown command sent without
    device_id and device_ip is answered with the missing-target message,
    which does not mention the command.  (A management command needs no
    target: sent without one, unregister_device is carried out.) *)
Lemma unknown_command_without_target_is_not_named :
  CommandHandler.is_management
    (CommandHandler.command Scenario.bogus_command_without_target) = false /\
  dict_get "bogus_cmd" CommandHandler.command_map = None /\
  (exists r,
     CommandHandler.execute_command (H := CommandHandler.scripted_pool [])
       Scenario.cfg 1700000000 Scenario.bogus_command_without_target tt = (Ret r, tt) /\
     CommandHandler.r_result r =
       VDict [("error", VStr "Missing device_id or device_ip in command")] /\
     Scenario.mentions "bogus_cmd" "Missing device_id or device_ip in command" = false /\
     Scenario.mentions "bogus_cmd" "Unknown command: bogus_cmd" = true) /\
  (exists r,
     CommandHandler.execute_command
       (H := CommandHandler.scripted_pool [("success", VBool true)])
       Scenario.cfg 1700000000 Scenario.unregister_command_without_target tt
       = (Ret r, tt) /\
     CommandHandler.r_success r = VBool true /\
     CommandHandler.r_result r = VDict [("success", VBool true)]).
Proof.
  split; [reflexivity|]. split; [reflexivity|]. split.
  - eexists. split; [reflexivity|]. split_and!; reflexivity.
  - eexists. split; [reflexivity|]. split; reflexivity.
Qed.

(** The get_users scenario: the list is wrapped under "users" with its
    length. *)
Example get_users_result_is_wrapped :
  exists r,
    CommandHandler.execute_command
      (H := CommandHandler.scripted_pool Scenario.get_users_answer)
      Scenario.cfg 1700000000 Scenario.get_users_command tt = (Ret r, tt) /\
    CommandHandler.r_success r = VBool true /\
    CommandHandler.r_result r =
      VDict [("users", VList [VDict [("uid", VInt 1); ("name", VStr "Alice")]]);
             ("count", VInt 1)].
Proof. eexists. split; [reflexivity|]. split; reflexivity. Qed.

Section AttendanceParams.

Import CommandHandler.

Lemma get_default_dict_set_eq (k : string) (v dflt : value) (d : dict) :
  get_default k dflt (dict_set k v d) = v.
Proof.
  unfold get_default. induction d as [|[k' v'] d IH]; simpl.
  - by rewrite String.eqb_refl.
  - destruct (String.eqb k k') eqn:E; simpl.
    + by rewrite String.eqb_refl.
    + by rewrite E.
Qed.

Lemma fromtimestamp_int (t : Z) :
  MIN_TIMESTAMP <= t <= MAX_TIMESTAMP -> fromtimestamp (VInt t) = Ret (VDatetime t).
Proof.
  intros Ht. unfold fromtimestamp.
  destruct (Z.leb_spec MIN_TIMESTAMP t); [|lia].
  destruct (Z.leb_spec t MAX_TIMESTAMP); [reflexivity | lia].
Qed.


(** C8 (code defect). An end_time of 0 is present in the parameters but is
    not converted: it reaches the operation as the integer 0, which the
    operation takes for "no end time", so that a record stamped long after
    the epoch is returned; the converted value would have excluded it. *)
Theorem zero_end_time_is_not_converted :
  attendance_params [("end_time", VInt 0)]
    = Ret [("end_time", VInt 0); ("limit", VInt 1000)] /\
  fromtimestamp (VInt 0) = Ret (VDatetime 0) /\
  Essl.get_attendance (Scenario.terminal [] [Scenario.recent_punch])
    VNone (VInt 0) VNone (VInt 1000) = Ret [Essl.to_log Scenario.recent_punch] /\
  Essl.get_attendance (Scenario.terminal [] [Scenario.recent_punch])
    VNone (VDatetime 0) VNone (VInt 1000) = Ret [].
Proof. split_and!; reflexivity. Qed.

End AttendanceParams.

(** * Further properties of the code *)

(** ** The stream engine: bounded buffers *)

Section EngineInvariants.

Import StreamManager.

Variable cfg : Config.
Variable w : World.

(** X1. [_log_error] keeps the newest 50 records: the new record is the last
    one, the kept records are the tail of the old ones followed by it, and
    the length is the old length plus one, capped at 50. *)
Lemma log_error_ring (msg : string) (st : StreamManager) :
  let old := errors (stats st) in
  let new := mkError msg (clock w (n_clock st)) in
  let kept := errors (stats (_log_error w msg st)) in
  last kept = Some new /\
  (exists dropped, old ++ [new] = dropped ++ kept) /\
  length kept = Nat.min (S (length old)) 50.
Proof.
  intros old new kept. subst kept. unfold _log_error. simpl. fold old new.
  rewrite length_app. simpl.
  destruct (Z.ltb_spec 50 (Z.of_nat (length old + 1))).
  - split_and!.
    + apply last_skipn_snoc. lia.
    + exists (take (length old + 1 - 50) (old ++ [new])). by rewrite take_drop.
    + rewrite length_skipn, length_app. simpl. lia.
  - split_and!.
    + apply last_snoc.
    + by exists [].
    + rewrite length_app. simpl. lia.
Qed.

Lemma bounded_same (st st' : StreamManager) :
  stats st' = stats st -> event_queue st' = event_queue st ->
  bounded st -> bounded st'.
Proof. unfold bounded. by intros -> ->. Qed.

Lemma bounded_errors_same (st st' : StreamManager) :
  errors (stats st') = errors (stats st) -> event_queue st' = event_queue st ->
  bounded st -> bounded st'.
Proof. unfold bounded. by intros -> ->. Qed.

Lemma log_error_bounded (msg : string) (st : StreamManager) :
  bounded st -> bounded (_log_error w msg st).
Proof.
  intros [He Hq]. split.
  - destruct (log_error_ring msg st) as (_ & _ & ->). lia.
  - exact Hq.
Qed.

Lemma queue_failed_bounded (payload : Payload) (st : StreamManager) :
  bounded st -> bounded (_queue_failed_event w payload st).
Proof.
  intros Hb. unfold _queue_failed_event, put_nowait.
  destruct (Z.ltb_spec (Z.of_nat (length (event_queue st))) EVENT_QUEUE_MAX_SIZE).
  - destruct Hb as [He Hq]. split; [exact He|]. simpl.
    rewrite length_app. simpl. lia.
  - by apply log_error_bounded.
Qed.

Lemma send_attempts_bounded (attempts : list Z) (payload : Payload)
    (st : StreamManager) :
  bounded st -> bounded (send_attempts w attempts payload st).2.
Proof.
  revert st. induction attempts as [|a rest IH]; intros st Hb.
  - simpl. apply queue_failed_bounded. revert Hb. by apply bounded_errors_same.
  - rewrite send_attempts_cons.
    destruct (failed (post w st).1).
    + apply IH. destruct (a <? MAX_RETRY_ATTEMPTS); revert Hb; by apply bounded_same.
    + simpl. revert Hb. by apply bounded_errors_same.
Qed.

Lemma send_event_bounded (data : value) (ty : EventType) (st : StreamManager) :
  bounded st -> bounded (_send_event_to_server w data ty st).2.
Proof.
  intros Hb. unfold _send_event_to_server.
  destruct (time_now w st) as [now st0] eqn:E. injection E as <- <-.
  apply send_attempts_bounded. revert Hb. by apply bounded_same.
Qed.

Lemma connect_queue (st : StreamManager) :
  event_queue (connect w st).2 = event_queue st.
Proof.
  unfold connect. destruct (Essl.conn (device st)); [reflexivity|].
  by destruct (zk_connect w (n_connects st)).
Qed.

Lemma disconnect_queue (st : StreamManager) :
  event_queue (disconnect st) = event_queue st.
Proof. unfold disconnect. by destruct (Essl.conn (device st)). Qed.

Lemma reconnect_attempts_queue (attempts : list Z) (m : Z) (st : StreamManager) :
  event_queue (reconnect_attempts w attempts m st) = event_queue st.
Proof.
  revert st. induction attempts as [|a rest IH]; intros st; simpl; [reflexivity|].
  destruct (is_running st); simpl; [|reflexivity].
  pose proof (connect_queue st) as Hc.
  destruct (connect w st) as [[|e] st1]; simpl in Hc; [exact Hc|].
  rewrite IH. by destruct (a <? m).
Qed.

Lemma reconnect_bounded (st : StreamManager) :
  bounded st -> bounded (_reconnect w st).
Proof.
  apply bounded_same; [apply reconnect_stats|].
  unfold _reconnect. rewrite reconnect_attempts_queue. simpl.
  by rewrite disconnect_queue.
Qed.

Lemma capture_events_bounded (events : list (option Essl.Attendance))
    (st : StreamManager) :
  bounded st -> bounded (capture_events w events st).2.
Proof.
  revert st. induction events as [|ev rest IH]; intros st Hb; [exact Hb|].
  rewrite capture_events_cons.
  destruct (negb (is_running st)); [exact Hb|].
  destruct ev as [a|]; [|by apply IH].
  cbv zeta. apply IH.
  assert (Hs : bounded
                 (_send_event_to_server w
                    (_format_attendance_event w a (record (ACapture (Some a)) st)).1
                    REALTIME
                    (_format_attendance_event w a (record (ACapture (Some a)) st)).2).2).
  { apply send_event_bounded. exact Hb. }
  destruct (_send_event_to_server w _ REALTIME _).1; [|exact Hs].
  revert Hs. by apply bounded_errors_same.
Qed.

Lemma live_iteration_bounded (st : StreamManager) :
  bounded st -> bounded (live_iteration w st).
Proof.
  intros Hb. unfold live_iteration.
  pose proof (connect_stats w st) as Hc. pose proof (connect_queue st) as Hq.
  destruct (connect w st) as [[|e] st1]; simpl in Hc, Hq.
  - destruct (live_capture w (n_captures st1)) as [events fin].
    match goal with |- context [capture_events w events ?s] =>
      pose proof (capture_events_bounded events s) as Hcap;
      destruct (capture_events w events s) as [broke st2] end.
    simpl in Hcap.
    assert (Hb2 : bounded st2).
    { apply Hcap. revert Hb. by apply bounded_same. }
    destruct fin as [|msg]; [exact Hb2|].
    destruct broke; [exact Hb2|].
    by apply reconnect_bounded, log_error_bounded.
  - apply reconnect_bounded, log_error_bounded. revert Hb. by apply bounded_same.
Qed.

Lemma live_loop_bounded (fuel : nat) (st : StreamManager) :
  bounded st -> bounded (live_loop w fuel st).
Proof.
  revert st. induction fuel as [|fuel IH]; intros st Hb; simpl; [exact Hb|].
  destruct (is_running st); [|exact Hb].
  by apply IH, live_iteration_bounded.
Qed.

Lemma live_stream_loop_bounded (fuel : nat) (st : StreamManager) :
  bounded st -> bounded (_live_stream_loop w fuel st).
Proof.
  intros Hb. unfold _live_stream_loop. destruct (is_running st); simpl; [|exact Hb].
  apply live_loop_bounded. exact Hb.
Qed.

Lemma sync_logs_bounded (logs : list Essl.LogDict) (st : StreamManager) :
  bounded st -> bounded (sync_logs w logs st).
Proof.
  revert st. induction logs as [|log rest IH]; intros st Hb; [exact Hb|].
  rewrite sync_logs_cons.
  destruct (negb (is_running st)); [exact Hb|].
  cbv zeta. apply IH.
  pose proof (send_event_bounded (log_value log) HISTORICAL st Hb) as Hs.
  destruct (_send_event_to_server w _ HISTORICAL _).1;
    revert Hs; by apply bounded_errors_same.
Qed.

Lemma sync_bounded (st : StreamManager) :
  bounded st -> bounded (_sync_historical_logs w st).
Proof.
  intros Hb. unfold _sync_historical_logs.
  destruct (is_running st); simpl; [|exact Hb].
  pose proof (connect_stats w (set_mode SYNCING st)) as Hc.
  pose proof (connect_queue (set_mode SYNCING st)) as Hq.
  destruct (connect w (set_mode SYNCING st)) as [[|e] st1]; simpl in Hc, Hq.
  - simpl. destruct (Essl.get_attendance _ _ _ _ _) as [logs|e].
    + apply sync_logs_bounded. revert Hb. by apply bounded_same.
    + apply log_error_bounded. revert Hb. by apply bounded_same.
  - apply log_error_bounded. revert Hb. by apply bounded_same.
Qed.

Lemma start_bounded (st : StreamManager) :
  bounded st -> bounded (start cfg w st).2.
Proof.
  intros Hb. unfold start. destruct (is_running st); simpl; [exact Hb|].
  revert Hb. by apply bounded_errors_same.
Qed.

Lemma stop_bounded (st : StreamManager) :
  bounded st -> bounded (stop cfg w st).2.
Proof.
  intros Hb. unfold stop. destruct (is_running st); simpl; [|exact Hb].
  revert Hb. apply bounded_same; simpl.
  - by rewrite disconnect_stats.
  - by rewrite disconnect_queue.
Qed.

Lemma engine_step_bounded (st st' : StreamManager) :
  engine_step cfg w st st' -> bounded st -> bounded st'.
Proof.
  destruct 1; intros Hb.
  - by apply start_bounded.
  - by apply stop_bounded.
  - by apply live_stream_loop_bounded, sync_bounded.
  - by apply sync_bounded.
  - by apply live_stream_loop_bounded.
  - by apply send_event_bounded.
  - by apply queue_failed_bounded.
  - by apply reconnect_bounded.
  - by apply log_error_bounded.
Qed.

(** X2. From the moment an engine is built, whatever sequence of its
    methods runs, the error list holds at most 50 records and the overflow
    queue at most 1000 events. *)
Theorem engine_buffers_stay_bounded (ip : value) (i : string) (hours : Z)
    (st : StreamManager) :
  rtc (engine_step cfg w) (new_engine ip i hours) st ->
  (length (errors (stats st)) <= 50)%nat /\
  Z.of_nat (length (event_queue st)) <= 1000.
Proof.
  intros Hsteps.
  assert (Hb : bounded (new_engine ip i hours)) by (split; simpl; [lia | done]).
  revert Hb. induction Hsteps as [|st0 st1 st2 Hstep _ IH]; intros Hb; [exact Hb|].
  apply IH. by apply (engine_step_bounded st0).
Qed.

End EngineInvariants.

Lemma engine_buffers_stay_bounded_witness :
  (length (StreamManager.errors (StreamManager.stats
     (StreamManager._run_loop Scenario.dead_world 3 Scenario.started_engine))) <= 50)%nat.
Proof.
  apply (engine_buffers_stay_bounded Scenario.cfg Scenario.dead_world
           (VStr "10.0.0.5") "device_001" 24).
  eapply rtc_l; [apply StreamManager.step_start|].
  apply rtc_once. apply StreamManager.step_run_loop.
Defined.

(** ** The stream engine: accounting *)

Section EngineAccounting.

Import StreamManager.

Variable cfg : Config.
Variable w : World.

Lemma unclassified_counters (s s' : Stats) :
  total_events_sent s' = total_events_sent s ->
  historical_events_sent s' = historical_events_sent s ->
  realtime_events_sent s' = realtime_events_sent s ->
  unclassified s' = unclassified s.
Proof. unfold unclassified. lia. Qed.

Lemma log_error_unclassified (msg : string) (st : StreamManager) :
  unclassified (stats (_log_error w msg st)) = unclassified (stats st).
Proof. reflexivity. Qed.

Lemma count_realtime_unclassified (st : StreamManager) :
  unclassified (stats (count_realtime st)) = unclassified (stats st) - 1.
Proof. unfold unclassified. simpl. lia. Qed.

Lemma count_historical_unclassified (st : StreamManager) :
  unclassified (stats (count_historical st)) = unclassified (stats st) - 1.
Proof. unfold unclassified. simpl. lia. Qed.

Lemma send_event_unclassified (data : value) (ty : EventType) (st : StreamManager) :
  unclassified (stats (_send_event_to_server w data ty st).2) =
  unclassified (stats st) + Z.b2z (_send_event_to_server w data ty st).1.
Proof.
  destruct (send_event_outcome w data ty st)
    as (results & _ & _ & _ & _ & _ & Hh & Hr & Hsent & Hlost).
  unfold unclassified.
  destruct (_send_event_to_server w data ty st).1; simpl.
  - destruct (Hsent eq_refl) as (Ht & _). lia.
  - destruct (Hlost eq_refl) as (_ & Ht & _). lia.
Qed.

Lemma capture_events_unclassified (events : list (option Essl.Attendance))
    (st : StreamManager) :
  unclassified (stats (capture_events w events st).2) = unclassified (stats st).
Proof.
  revert st. induction events as [|ev rest IH]; intros st; [reflexivity|].
  rewrite capture_events_cons.
  destruct (negb (is_running st)); [reflexivity|].
  destruct ev as [a|]; [|by rewrite IH].
  cbv zeta. rewrite IH.
  pose proof (send_event_unclassified
                (_format_attendance_event w a (record (ACapture (Some a)) st)).1
                REALTIME
                (_format_attendance_event w a (record (ACapture (Some a)) st)).2) as Hs.
  change (stats (_format_attendance_event w a (record (ACapture (Some a)) st)).2)
    with (stats st) in Hs.
  destruct (_send_event_to_server w _ REALTIME _).1;
    cbn [Z.b2z] in Hs; cbv iota.
  - rewrite count_realtime_unclassified. lia.
  - lia.
Qed.

Lemma live_iteration_unclassified (st : StreamManager) :
  unclassified (stats (live_iteration w st)) = unclassified (stats st).
Proof.
  unfold live_iteration.
  pose proof (connect_stats w st) as Hc.
  destruct (connect w st) as [[|e] st1]; simpl in Hc.
  - destruct (live_capture w (n_captures st1)) as [events fin].
    match goal with |- context [capture_events w events ?s] =>
      pose proof (capture_events_unclassified events s) as Hcap;
      destruct (capture_events w events s) as [broke st2] end.
    simpl in Hcap. rewrite Hc in Hcap.
    destruct fin as [|msg]; [exact Hcap|].
    destruct broke; [exact Hcap|].
    by rewrite reconnect_stats, log_error_unclassified.
  - by rewrite reconnect_stats, log_error_unclassified, Hc.
Qed.

Lemma live_loop_unclassified (fuel : nat) (st : StreamManager) :
  unclassified (stats (live_loop w fuel st)) = unclassified (stats st).
Proof.
  revert st. induction fuel as [|fuel IH]; intros st; simpl; [reflexivity|].
  destruct (is_running st); [|reflexivity].
  by rewrite IH, live_iteration_unclassified.
Qed.

Lemma live_stream_loop_unclassified (fuel : nat) (st : StreamManager) :
  unclassified (stats (_live_stream_loop w fuel st)) = unclassified (stats st).
Proof.
  unfold _live_stream_loop. destruct (is_running st); simpl; [|reflexivity].
  by rewrite live_loop_unclassified.
Qed.

Lemma sync_logs_unclassified (logs : list Essl.LogDict) (st : StreamManager) :
  unclassified (stats (sync_logs w logs st)) = unclassified (stats st).
Proof.
  revert st. induction logs as [|log rest IH]; intros st; [reflexivity|].
  rewrite sync_logs_cons.
  destruct (negb (is_running st)); [reflexivity|].
  cbv zeta. rewrite IH.
  pose proof (send_event_unclassified (log_value log) HISTORICAL st) as Hs.
  destruct (_send_event_to_server w _ HISTORICAL _).1;
    cbn [Z.b2z] in Hs; cbv iota.
  - change (stats (sleep 100 ?x)) with (stats x).
    rewrite count_historical_unclassified. lia.
  - change (stats (sleep 100 ?x)) with (stats x). lia.
Qed.

Lemma sync_unclassified (st : StreamManager) :
  unclassified (stats (_sync_historical_logs w st)) = unclassified (stats st).
Proof.
  unfold _sync_historical_logs. destruct (is_running st); simpl; [|reflexivity].
  pose proof (connect_stats w (set_mode SYNCING st)) as Hc.
  destruct (connect w (set_mode SYNCING st)) as [[|e] st1]; simpl in Hc.
  - simpl. destruct (Essl.get_attendance _ _ _ _ _) as [logs|e].
    + rewrite sync_logs_unclassified. simpl. by rewrite Hc.
    + rewrite log_error_unclassified. simpl. by rewrite Hc.
  - by rewrite log_error_unclassified, Hc.
Qed.

(** The background thread classifies every event it delivers. *)
Lemma run_loop_unclassified (fuel : nat) (st : StreamManager) :
  unclassified (stats (_run_loop w fuel st)) = unclassified (stats st).
Proof.
  unfold _run_loop. by rewrite live_stream_loop_unclassified, sync_unclassified.
Qed.

Lemma engine_step_unclassified (st st' : StreamManager) :
  engine_step cfg w st st' ->
  unclassified (stats st) <= unclassified (stats st').
Proof.
  destruct 1.
  - unfold start. destruct (is_running st); simpl; [lia|]. unfold unclassified. simpl. lia.
  - unfold stop. destruct (is_running st); simpl; [|lia].
    rewrite disconnect_stats. simpl. lia.
  - rewrite run_loop_unclassified. lia.
  - rewrite sync_unclassified. lia.
  - rewrite live_stream_loop_unclassified. lia.
  - rewrite send_event_unclassified.
    destruct (_send_event_to_server w data ty st).1; simpl; lia.
  - unfold _queue_failed_event. destruct (put_nowait _ _); [apply Z.le_refl|].
    rewrite log_error_unclassified. lia.
  - rewrite reconnect_stats. lia.
  - rewrite log_error_unclassified. lia.
Qed.

Lemma unclassified_zero (s : Stats) :
  unclassified s = 0 ->
  total_events_sent s = historical_events_sent s + realtime_events_sent s.
Proof. unfold unclassified. lia. Qed.

Lemma unclassified_nonneg (s : Stats) :
  0 <= unclassified s ->
  historical_events_sent s + realtime_events_sent s <= total_events_sent s.
Proof. unfold unclassified. lia. Qed.

Lemma start_new_unclassified (ip : value) (i : string) (hours : Z) :
  unclassified (stats (start cfg w (new_engine ip i hours)).2) = 0.
Proof. reflexivity. Qed.

Lemma engine_steps_unclassified (st st' : StreamManager) :
  rtc (engine_step cfg w) st st' ->
  unclassified (stats st) <= unclassified (stats st').
Proof.
  induction 1 as [|st0 st1 st2 Hstep _ IH]; [lia|].
  pose proof (engine_step_unclassified _ _ Hstep). lia.
Qed.

(** X3. In every state an engine can reach, the historical and realtime
    counters together never exceed total_events_sent; and after any run of
    the background thread of a freshly started engine the total equals
    their sum. *)
Theorem kinds_never_exceed_total (ip : value) (i : string) (hours : Z) (fuel : nat)
    (st : StreamManager) :
  (rtc (engine_step cfg w) (new_engine ip i hours) st ->
   historical_events_sent (stats st) + realtime_events_sent (stats st)
     <= total_events_sent (stats st)) /\
  total_events_sent (stats (_run_loop w fuel (start cfg w (new_engine ip i hours)).2)) =
    historical_events_sent
      (stats (_run_loop w fuel (start cfg w (new_engine ip i hours)).2)) +
    realtime_events_sent
      (stats (_run_loop w fuel (start cfg w (new_engine ip i hours)).2)).
Proof.
  split.
  - intros Hsteps. apply unclassified_nonneg.
    apply (engine_steps_unclassified _ _ Hsteps).
  - apply unclassified_zero.
    rewrite run_loop_unclassified. apply start_new_unclassified.
Qed.

End EngineAccounting.

Lemma kinds_never_exceed_total_witness :
  StreamManager.historical_events_sent (StreamManager.stats
     (StreamManager._run_loop Scenario.syncing_world 2 Scenario.started_engine))
  + StreamManager.realtime_events_sent (StreamManager.stats
     (StreamManager._run_loop Scenario.syncing_world 2 Scenario.started_engine))
  <= StreamManager.total_events_sent (StreamManager.stats
     (StreamManager._run_loop Scenario.syncing_world 2 Scenario.started_engine)).
Proof.
  apply (kinds_never_exceed_total Scenario.cfg Scenario.syncing_world
           (VStr "10.0.0.5") "device_001" 24 0).
  eapply rtc_l; [apply StreamManager.step_start|].
  apply rtc_once. apply StreamManager.step_run_loop.
Defined.

(** ** The stream engine: modes and life cycle *)

Section EngineModes.

Import StreamManager.

Variable cfg : Config.
Variable w : World.

Lemma quiet_refl (st : StreamManager) : quiet st st.
Proof. by split_and!. Qed.

Lemma quiet_trans (a b c : StreamManager) : quiet a b -> quiet b c -> quiet a c.
Proof. intros (?&?&?) (?&?&?). split_and!; congruence. Qed.

Lemma modes_of_app (l1 l2 : list Action) :
  modes_of (l1 ++ l2) = modes_of l1 ++ modes_of l2.
Proof. apply omap_app. Qed.

Lemma modes_of_snoc_quiet (tr : list Action) (a : Action) :
  mode_of a = None -> modes_of (tr ++ [a]) = modes_of tr.
Proof. intros Ha. rewrite modes_of_app. simpl. rewrite Ha. apply app_nil_r. Qed.

Lemma modes_of_posts (sep : Z) (rs : list HttpResult) :
  modes_of (separated_by (ASleep sep) (APost <$> rs)) = [].
Proof.
  induction rs as [|r rs IH]; [reflexivity|].
  simpl. destruct rs as [|r' rs]; [reflexivity|]. exact IH.
Qed.

Lemma connect_quiet (st : StreamManager) : quiet st (connect w st).2.
Proof.
  unfold connect. destruct (Essl.conn (device st)); [apply quiet_refl|].
  destruct (zk_connect w (n_connects st)); split_and!; try reflexivity;
    by apply modes_of_snoc_quiet.
Qed.

Lemma disconnect_quiet (st : StreamManager) : quiet st (disconnect st).
Proof.
  unfold disconnect. destruct (Essl.conn (device st)); [|apply quiet_refl].
  split_and!; try reflexivity. by apply modes_of_snoc_quiet.
Qed.

Lemma log_error_quiet (msg : string) (st : StreamManager) :
  quiet st (_log_error w msg st).
Proof. by split_and!. Qed.

Lemma queue_failed_quiet (payload : Payload) (st : StreamManager) :
  quiet st (_queue_failed_event w payload st).
Proof.
  unfold _queue_failed_event. destruct (put_nowait _ _); [by split_and!|].
  apply log_error_quiet.
Qed.

Lemma send_attempts_quiet (attempts : list Z) (payload : Payload)
    (st : StreamManager) :
  quiet st (send_attempts w attempts payload st).2.
Proof.
  revert st. induction attempts as [|a rest IH]; intros st.
  - simpl. eapply quiet_trans; [|apply queue_failed_quiet]. by split_and!.
  - rewrite send_attempts_cons.
    assert (Hp : quiet st (post w st).2).
    { split_and!; try reflexivity. by apply modes_of_snoc_quiet. }
    destruct (failed (post w st).1).
    + eapply quiet_trans; [|apply IH].
      destruct (a <? MAX_RETRY_ATTEMPTS); [|exact Hp].
      eapply quiet_trans; [exact Hp|].
      split_and!; try reflexivity. by apply modes_of_snoc_quiet.
    + eapply quiet_trans; [exact Hp|]. by split_and!.
Qed.

Lemma send_event_quiet (data : value) (ty : EventType) (st : StreamManager) :
  quiet st (_send_event_to_server w data ty st).2.
Proof.
  unfold _send_event_to_server.
  destruct (time_now w st) as [now st0] eqn:E. injection E as <- <-.
  eapply quiet_trans; [|apply send_attempts_quiet]. by split_and!.
Qed.

Lemma capture_events_quiet (events : list (option Essl.Attendance))
    (st : StreamManager) :
  quiet st (capture_events w events st).2.
Proof.
  revert st. induction events as [|ev rest IH]; intros st; [apply quiet_refl|].
  rewrite capture_events_cons.
  assert (Hr : quiet st (record (ACapture ev) st)).
  { split_and!; try reflexivity. by apply modes_of_snoc_quiet. }
  destruct (negb (is_running st)); [exact Hr|].
  destruct ev as [a|]; [|eapply quiet_trans; [exact Hr | apply IH]].
  cbv zeta. eapply quiet_trans; [|apply IH].
  eapply quiet_trans; [exact Hr|].
  pose proof (send_event_quiet
                (_format_attendance_event w a (record (ACapture (Some a)) st)).1
                REALTIME
                (_format_attendance_event w a (record (ACapture (Some a)) st)).2) as Hs.
  set (sent := _send_event_to_server w _ REALTIME _) in *.
  assert (H1 : quiet (record (ACapture (Some a)) st) sent.2).
  { eapply quiet_trans; [|exact Hs]. by split_and!. }
  assert (H2 : quiet sent.2 (if sent.1 then count_realtime sent.2 else sent.2)).
  { destruct sent.1; by split_and!. }
  exact (quiet_trans _ _ _ H1 H2).
Qed.

Lemma sync_logs_quiet (logs : list Essl.LogDict) (st : StreamManager) :
  quiet st (sync_logs w logs st).
Proof.
  revert st. induction logs as [|log rest IH]; intros st; [apply quiet_refl|].
  rewrite sync_logs_cons.
  destruct (negb (is_running st)); [apply quiet_refl|].
  cbv zeta. eapply quiet_trans; [|apply IH].
  pose proof (send_event_quiet (log_value log) HISTORICAL st) as Hs.
  set (sent := _send_event_to_server w _ HISTORICAL _) in *.
  eapply quiet_trans; [exact Hs|].
  destruct sent.1; split_and!; try reflexivity; by apply modes_of_snoc_quiet.
Qed.

Lemma quiet_recovering (st st' : StreamManager) : quiet st st' -> recovering st st'.
Proof.
  intros (Hr & _ & Hm). split; [exact Hr|].
  exists []. by rewrite app_nil_r.
Qed.

Lemma recovering_trans (a b c : StreamManager) :
  recovering a b -> recovering b c -> recovering a c.
Proof.
  intros (Hr1 & ms1 & Hm1 & Hf1) (Hr2 & ms2 & Hm2 & Hf2).
  split; [congruence|].
  exists (ms1 ++ ms2). split.
  - by rewrite Hm2, Hm1, app_assoc.
  - by apply Forall_app.
Qed.

Lemma set_mode_modes (m : StreamMode) (st : StreamManager) :
  is_running (set_mode m st) = is_running st /\
  modes_of (trace (set_mode m st)) = modes_of (trace st) ++ [m].
Proof. split; [reflexivity|]. unfold set_mode. cbn [trace]. apply modes_of_app. Qed.

Lemma set_mode_recovering (m : StreamMode) (st : StreamManager) :
  m = RECONNECTING \/ m = ERROR -> recovering st (set_mode m st).
Proof.
  intros Hm. destruct (set_mode_modes m st) as [Hr Hms].
  split; [exact Hr|]. exists [m]. split; [exact Hms|].
  constructor; [exact Hm | constructor].
Qed.

Lemma reconnect_attempts_recovering (attempts : list Z) (m : Z) (st : StreamManager) :
  recovering st (reconnect_attempts w attempts m st).
Proof.
  revert st. induction attempts as [|a rest IH]; intros st; simpl.
  - apply set_mode_recovering. by right.
  - destruct (is_running st) eqn:Hrun; simpl; [|apply quiet_recovering, quiet_refl].
    pose proof (connect_quiet st) as Hc.
    destruct (connect w st) as [[|e] st1]; simpl in Hc.
    + by apply quiet_recovering.
    + eapply recovering_trans; [|apply IH].
      apply quiet_recovering. eapply quiet_trans; [exact Hc|].
      destruct (a <? m); [|apply quiet_refl].
      split_and!; try reflexivity. by apply modes_of_snoc_quiet.
Qed.

Lemma sleep_quiet (ms : Z) (st : StreamManager) : quiet st (sleep ms st).
Proof. split_and!; try reflexivity. by apply modes_of_snoc_quiet. Qed.

Lemma reconnect_recovering (st : StreamManager) : recovering st (_reconnect w st).
Proof.
  unfold _reconnect. cbv zeta.
  apply (recovering_trans st (set_mode RECONNECTING st));
    [apply set_mode_recovering; by left|].
  apply (recovering_trans _ (disconnect (set_mode RECONNECTING st)));
    [apply quiet_recovering, disconnect_quiet|].
  apply (recovering_trans _ (sleep (5 * 1000) (disconnect (set_mode RECONNECTING st))));
    [apply quiet_recovering, sleep_quiet|].
  apply reconnect_attempts_recovering.
Qed.

Lemma live_iteration_recovering (st : StreamManager) :
  recovering st (live_iteration w st).
Proof.
  unfold live_iteration.
  pose proof (connect_quiet st) as Hc.
  destruct (connect w st) as [[|e] st1]; simpl in Hc.
  - destruct (live_capture w (n_captures st1)) as [events fin].
    match goal with |- context [capture_events w events ?s] =>
      pose proof (capture_events_quiet events s) as Hcap;
      destruct (capture_events w events s) as [broke st2] end.
    simpl in Hcap.
    assert (Hq : quiet st st2).
    { eapply quiet_trans; [exact Hc|]. eapply quiet_trans; [|exact Hcap]. by split_and!. }
    destruct fin as [|msg]; [by apply quiet_recovering|].
    destruct broke; [by apply quiet_recovering|].
    eapply recovering_trans; [|apply reconnect_recovering].
    apply quiet_recovering. eapply quiet_trans; [exact Hq | apply log_error_quiet].
  - eapply recovering_trans; [|apply reconnect_recovering].
    apply quiet_recovering. eapply quiet_trans; [exact Hc | apply log_error_quiet].
Qed.

Lemma live_loop_recovering (fuel : nat) (st : StreamManager) :
  recovering st (live_loop w fuel st).
Proof.
  revert st. induction fuel as [|fuel IH]; intros st; simpl.
  - apply quiet_recovering, quiet_refl.
  - destruct (is_running st); [|apply quiet_recovering, quiet_refl].
    eapply recovering_trans; [apply live_iteration_recovering | apply IH].
Qed.

(** The sync phase of a running engine: SYNCING is entered and no other mode. *)
Lemma sync_modes (st : StreamManager) :
  is_running st = true ->
  is_running (_sync_historical_logs w st) = true /\
  modes_of (trace (_sync_historical_logs w st)) = modes_of (trace st) ++ [SYNCING].
Proof.
  intros Hrun. unfold _sync_historical_logs. rewrite Hrun. simpl.
  assert (H0 : is_running (set_mode SYNCING st) = true /\
               modes_of (trace (set_mode SYNCING st)) = modes_of (trace st) ++ [SYNCING]).
  { destruct (set_mode_modes SYNCING st) as [H1 H2]. split; congruence. }
  assert (Hq : forall st', quiet (set_mode SYNCING st) st' ->
                 is_running st' = true /\
                 modes_of (trace st') = modes_of (trace st) ++ [SYNCING]).
  { intros st' (Hr & _ & Hm). destruct H0 as [H1 H2]. split; congruence. }
  pose proof (connect_quiet (set_mode SYNCING st)) as Hc.
  destruct (connect w (set_mode SYNCING st)) as [[|e] st1]; simpl in Hc.
  - simpl. destruct (Essl.get_attendance _ _ _ _ _) as [logs|e]; apply Hq.
    + eapply quiet_trans; [exact Hc|].
      eapply quiet_trans; [|apply sync_logs_quiet]. by split_and!.
    + eapply quiet_trans; [exact Hc|].
      eapply quiet_trans; [|apply log_error_quiet]. by split_and!.
  - apply Hq. eapply quiet_trans; [exact Hc | apply log_error_quiet].
Qed.

(** X4. The background thread of a running engine enters SYNCING, then
    LIVE, and from then on only RECONNECTING and ERROR, whatever the device
    and the server do: LIVE is entered exactly once, after the sync phase
    has ended or been given up. *)
Theorem run_loop_mode_sequence (fuel : nat) (st : StreamManager) :
  is_running st = true ->
  exists rest,
    modes_of (trace (_run_loop w fuel st)) =
      modes_of (trace st) ++ SYNCING :: LIVE :: rest /\
    Forall (fun m => m = RECONNECTING \/ m = ERROR) rest.
Proof.
  intros Hrun. unfold _run_loop.
  destruct (sync_modes st Hrun) as [Hr Hm].
  generalize dependent (_sync_historical_logs w st). intros st1 Hr Hm.
  unfold _live_stream_loop. rewrite Hr. simpl.
  destruct (live_loop_recovering fuel (set_mode LIVE st1)) as (_ & ms & Hms & Hf).
  exists ms. split; [|exact Hf].
  destruct (set_mode_modes LIVE st1) as [_ Hl].
  rewrite Hms, Hl, Hm. by rewrite <- !app_assoc.
Qed.

End EngineModes.

Lemma run_loop_mode_sequence_witness :
  exists rest,
    StreamManager.modes_of (StreamManager.trace
      (StreamManager._run_loop Scenario.recovering_world 2 Scenario.running_engine))
    = StreamManager.SYNCING :: StreamManager.LIVE :: rest.
Proof.
  destruct (run_loop_mode_sequence Scenario.recovering_world 2 Scenario.running_engine
              eq_refl) as (rest & Hm & _).
  exists rest. exact Hm.
Defined.

(** ** The stream engine: start, stop and the thread *)

Section EngineLifecycle.

Import StreamManager.

Variable cfg : Config.
Variable w : World.

Lemma recovering_running (st st' : StreamManager) :
  recovering st st' -> is_running st' = is_running st.
Proof. by intros [Hr _]. Qed.

Lemma quiet_running (st st' : StreamManager) :
  quiet st st' -> is_running st' = is_running st.
Proof. by intros [Hr _]. Qed.

Lemma sync_running (st : StreamManager) :
  is_running (_sync_historical_logs w st) = is_running st.
Proof.
  destruct (is_running st) eqn:Hrun.
  - by destruct (sync_modes w st Hrun).
  - unfold _sync_historical_logs. by rewrite Hrun.
Qed.

Lemma live_stream_loop_running (fuel : nat) (st : StreamManager) :
  is_running (_live_stream_loop w fuel st) = is_running st.
Proof.
  unfold _live_stream_loop. destruct (is_running st) eqn:Hrun; [|exact Hrun].
  cbn [negb]. rewrite (recovering_running _ _ (live_loop_recovering w fuel _)).
  exact Hrun.
Qed.

(** No step of the thread writes the running flag. *)
Lemma thread_step_running (st st' : StreamManager) :
  StreamManager.thread_step w st st' -> is_running st' = is_running st.
Proof.
  destruct 1.
  - unfold _run_loop. by rewrite live_stream_loop_running, sync_running.
  - apply sync_running.
  - apply quiet_running, sync_logs_quiet.
  - apply live_stream_loop_running.
  - apply recovering_running, live_loop_recovering.
  - apply recovering_running, live_iteration_recovering.
  - apply quiet_running, capture_events_quiet.
  - apply quiet_running, send_event_quiet.
  - apply quiet_running, send_attempts_quiet.
  - apply quiet_running, queue_failed_quiet.
  - apply recovering_running, reconnect_recovering.
  - apply recovering_running, reconnect_attempts_recovering.
  - reflexivity.
  - apply quiet_running, connect_quiet.
  - apply quiet_running, disconnect_quiet.
  - reflexivity.
  - reflexivity.
  - reflexivity.
  - reflexivity.
  - reflexivity.
  - reflexivity.
  - reflexivity.
  - reflexivity.
  - reflexivity.
Qed.

Lemma thread_steps_running (st st' : StreamManager) :
  rtc (StreamManager.thread_step w) st st' -> is_running st' = is_running st.
Proof.
  induction 1 as [|st st1 st2 Hstep _ IH]; [reflexivity|].
  rewrite IH. by apply thread_step_running.
Qed.

(** X5. Start and stop.  An engine that is not running starts; a second
    start is refused and changes nothing; stopping an engine that is not
    running is refused and changes nothing, and its background loop does
    nothing.  Stopping a running engine is answered with success and
    clears the running flag.  No step of the background thread writes the
    flag, so that it stays cleared whatever the thread is still doing
    while [stop] waits for it and afterwards.  With the flag cleared the
    thread winds down: its loop and both of its phases return at once,
    the loops over the logs and over the captured events stop before the
    next one, and a reconnection makes no connection attempt, although it
    has by then set the mode to RECONNECTING. *)
Theorem engine_lifecycle (st : StreamManager) (fuel : nat) :
  (is_running st = false ->
   let st1 := (start cfg w st).2 in
   Coordinator.success_of (start cfg w st).1 = true /\
   is_running st1 = true /\
   Coordinator.success_of (start cfg w st1).1 = false /\
   (start cfg w st1).2 = st1 /\
   Coordinator.success_of (stop cfg w st).1 = false /\
   (stop cfg w st).2 = st /\
   _run_loop w fuel st = st) /\
  (is_running st = true ->
   Coordinator.success_of (stop cfg w st).1 = true /\
   is_running (stop cfg w st).2 = false) /\
  (forall st', rtc (StreamManager.thread_step w) st st' ->
   is_running st' = is_running st) /\
  (is_running st = false ->
   _sync_historical_logs w st = st /\
   _live_stream_loop w fuel st = st /\
   live_loop w fuel st = st /\
   (forall logs, sync_logs w logs st = st) /\
   (forall ev rest,
      capture_events w (ev :: rest) st = (true, record (ACapture ev) st)) /\
   (forall attempt rest max_attempts,
      reconnect_attempts w (attempt :: rest) max_attempts st = st) /\
   is_running (_reconnect w st) = false /\
   n_connects (_reconnect w st) = n_connects st /\
   mode (_reconnect w st) = RECONNECTING).
Proof.
  split_and!.
  - intros Hrun st1.
    assert (Hst1 : is_running st1 = true).
    { unfold st1, start. rewrite Hrun. reflexivity. }
    split_and!.
    + unfold start. rewrite Hrun. reflexivity.
    + exact Hst1.
    + unfold start. rewrite Hst1. reflexivity.
    + unfold start. rewrite Hst1. reflexivity.
    + unfold stop. rewrite Hrun. reflexivity.
    + unfold stop. rewrite Hrun. reflexivity.
    + unfold _run_loop, _sync_historical_logs, _live_stream_loop.
      rewrite Hrun. simpl. rewrite Hrun. reflexivity.
  - intros Hrun. unfold stop. rewrite Hrun. simpl. unfold disconnect. simpl.
    by destruct (Essl.conn (device st)).
  - apply thread_steps_running.
  - intros Hrun. split_and!.
    + unfold _sync_historical_logs. rewrite Hrun. reflexivity.
    + unfold _live_stream_loop. rewrite Hrun. reflexivity.
    + destruct fuel; simpl; [reflexivity|]. rewrite Hrun. reflexivity.
    + intros [|log rest]; simpl; [reflexivity|]. rewrite Hrun. reflexivity.
    + intros ev rest. simpl. rewrite Hrun. reflexivity.
    + intros attempt rest m. simpl. rewrite Hrun. reflexivity.
    + rewrite (recovering_running _ _ (reconnect_recovering w st)). exact Hrun.
    + unfold _reconnect, disconnect. simpl.
      destruct (Essl.conn (device st)); simpl; rewrite Hrun; reflexivity.
    + unfold _reconnect, disconnect. simpl.
      destruct (Essl.conn (device st)); simpl; rewrite Hrun; reflexivity.
Qed.

End EngineLifecycle.

Lemma engine_lifecycle_witness :
  StreamManager.is_running
    (StreamManager.start Scenario.cfg Scenario.dead_world
       (StreamManager.new_engine (VStr "10.0.0.5") "device_001" 24)).2 = true /\
  let st2 :=
    (StreamManager.stop Scenario.cfg Scenario.dead_world Scenario.running_engine).2 in
  let st3 :=
    StreamManager._reconnect Scenario.dead_world
      (StreamManager._log_error Scenario.dead_world "Unexpected error in live mode"
         st2) in
  StreamManager.is_running st2 = false /\
  StreamManager.is_running st3 = false /\
  StreamManager.mode st3 = StreamManager.RECONNECTING /\
  StreamManager._live_stream_loop Scenario.dead_world 5 st3 = st3.
Proof.
  destruct (engine_lifecycle Scenario.cfg Scenario.dead_world
              (StreamManager.new_engine (VStr "10.0.0.5") "device_001" 24) 5)
    as (Hstopped & _).
  destruct (engine_lifecycle Scenario.cfg Scenario.dead_world
              Scenario.running_engine 5) as (_ & Hrunning & _).
  destruct (Hstopped eq_refl) as (_ & H1 & _).
  destruct (Hrunning eq_refl) as (_ & H2).
  split; [exact H1|]. intros st2 st3.
  destruct (engine_lifecycle Scenario.cfg Scenario.dead_world st2 5)
    as (_ & _ & Hthread & _).
  assert (H3 : StreamManager.is_running st3 = false).
  { rewrite (Hthread st3); [exact H2|].
    eapply rtc_l; [apply StreamManager.thread_log_error|].
    apply rtc_once. apply StreamManager.thread_reconnect. }
  destruct (engine_lifecycle Scenario.cfg Scenario.dead_world st3 5)
    as (_ & _ & _ & Hdown).
  destruct (Hdown H3) as (_ & H4 & _).
  split_and!; [exact H2 | exact H3 | reflexivity | exact H4].
Defined.

(** ** The device core: attendance, what is returned *)

Section AttendanceMore.

Import Essl.

Lemma newest_first_firstn (k : nat) (l : list LogDict) :
  newest_first l -> newest_first (firstn k l).
Proof.
  unfold newest_first. revert k. induction l as [|x l IH]; intros k Hs.
  - by destruct k.
  - destruct k as [|k]; [constructor|]. simpl.
    apply Sorted_inv in Hs as [Hs Hhd]. constructor; [by apply IH|].
    destruct l as [|y l]; [by destruct k|].
    destruct k; [constructor|]. simpl. constructor. by apply HdRel_inv in Hhd.
Qed.

Lemma in_firstn {A : Type} (k : nat) (l : list A) (x : A) :
  In x (firstn k l) -> In x l.
Proof.
  revert k. induction l as [|y l IH]; intros [|k]; simpl; try tauto.
  intros [->|Hx]; [by left | right; eauto].
Qed.

Lemma slice_to_prefix (n : Z) (l : list LogDict) :
  exists k, slice_to n l = firstn k l /\ (0 <= n -> k = Z.to_nat n).
Proof.
  unfold slice_to. destruct (Z.leb_spec 0 n).
  - eexists. by split.
  - eexists. split; [reflexivity|]. lia.
Qed.

Lemma apply_limit_prefix (limit : value) (l l' : list LogDict) :
  apply_limit limit l = Ret l' ->
  (exists k, l' = firstn k l) /\
  (forall n, limit = VInt n -> 0 < n -> Z.of_nat (length l') <= n).
Proof.
  unfold apply_limit. destruct (truthy limit) eqn:Ht.
  - destruct limit; try discriminate.
    + intros [= <-]. destruct (slice_to_prefix (Z.b2z b) l) as (k & -> & _).
      split; [eauto | intros n [=]].
    + intros [= <-]. destruct (slice_to_prefix z l) as (k & -> & Hk).
      split; [eauto|]. intros n [= <-] Hn.
      rewrite Hk by lia. rewrite length_firstn. lia.
  - intros [= <-]. split; [by exists (length l); rewrite firstn_all|].
    intros n -> Hn. simpl in Ht. apply negb_false_iff, Z.eqb_eq in Ht. lia.
Qed.

Lemma filter_start_sound (start_time : value) (l l' : list LogDict) :
  filter_start start_time l = Ret l' ->
  incl l' l /\
  (forall e, start_time = VDatetime e -> Forall (fun x => ts_ge e x = true) l').
Proof.
  unfold filter_start. destruct (truthy start_time) eqn:Ht.
  - destruct start_time; try discriminate. simpl. intros [= <-]. split.
    + intros x Hx. by apply filter_In in Hx as [? _].
    + intros e [= <-]. apply Forall_forall. intros x Hx.
      by apply list_elem_of_In, filter_In in Hx as [_ ?].
  - intros [= <-]. split; [apply incl_refl|]. intros e ->. simpl in Ht. discriminate.
Qed.

Lemma filter_end_sound (end_time : value) (l l' : list LogDict) :
  filter_end end_time l = Ret l' ->
  incl l' l /\
  (forall e, end_time = VDatetime e -> Forall (fun x => ts_le e x = true) l').
Proof.
  unfold filter_end. destruct (truthy end_time) eqn:Ht.
  - destruct end_time; try discriminate. simpl. intros [= <-]. split.
    + intros x Hx. by apply filter_In in Hx as [? _].
    + intros e [= <-]. apply Forall_forall. intros x Hx.
      by apply list_elem_of_In, filter_In in Hx as [_ ?].
  - intros [= <-]. split; [apply incl_refl|]. intros e ->. simpl in Ht. discriminate.
Qed.

Lemma filter_user_sound (uid_filter : value) (l : list LogDict) :
  incl (filter_user uid_filter l) l /\
  (truthy uid_filter = true ->
   Forall (fun x => py_eqb (l_user_id x) uid_filter = true) (filter_user uid_filter l)).
Proof.
  unfold filter_user. destruct (truthy uid_filter).
  - split.
    + intros x Hx. by apply filter_In in Hx as [? _].
    + intros _. apply Forall_forall. intros x Hx.
      by apply list_elem_of_In, filter_In in Hx as [_ ?].
  - split; [apply incl_refl | discriminate].
Qed.

(** X9. Whatever [get_attendance] returns is a newest-first list of
    records of the device, each with the user id asked for, and no longer
    than a positive limit.  A start and an end given as datetimes are
    compared by their whole seconds, [int(dt.timestamp())]: every record
    returned is stamped at or after the second the start falls in, so less
    than a second before the start when the start has microseconds, and at
    or before the second the end falls in, so not after the end. *)
Theorem get_attendance_sound (core : ESSLDeviceCore) (c : ZKConn)
    (start_time end_time uid_filter limit : value) (logs : list LogDict) :
  conn core = Some c ->
  get_attendance core start_time end_time uid_filter limit = Ret logs ->
  newest_first logs /\
  (forall l, In l logs -> exists raw, In raw (zk_attendance c) /\ l = to_log raw) /\
  (forall micros l, start_time = datetime_at micros -> In l logs ->
     exists t, l_timestamp l = Some t /\
               Z.quot micros 1000000 <= t /\ micros - 1000000 < t * 1000000) /\
  (forall micros l, end_time = datetime_at micros -> In l logs ->
     exists t, l_timestamp l = Some t /\
               t <= Z.quot micros 1000000 /\ (0 <= micros -> t * 1000000 <= micros)) /\
  (forall l, truthy uid_filter = true -> In l logs ->
     py_eqb (l_user_id l) uid_filter = true) /\
  (forall n, limit = VInt n -> 0 < n -> Z.of_nat (length logs) <= n).
Proof.
  intros Hc. unfold get_attendance, _ensure_connected. rewrite Hc. simpl.
  destruct (zk_get_attendance_ok c); simpl; [|discriminate].
  destruct (filter_start start_time (List.map to_log (zk_attendance c)))
    as [l1|] eqn:H1; simpl; [|discriminate].
  destruct (filter_end end_time l1) as [l2|] eqn:H2; simpl; [|discriminate].
  destruct (apply_limit limit (sort_desc (filter_user uid_filter l2)))
    as [l3|] eqn:H3; simpl; [|discriminate].
  intros [= <-].
  destruct (filter_start_sound _ _ _ H1) as [Hi1 Hs1].
  destruct (filter_end_sound _ _ _ H2) as [Hi2 Hs2].
  destruct (filter_user_sound uid_filter l2) as [Hi3 Hs3].
  destruct (apply_limit_prefix _ _ _ H3) as [[k ->] Hlen].
  assert (Hin : forall l, In l (firstn k (sort_desc (filter_user uid_filter l2))) ->
                          In l (filter_user uid_filter l2)).
  { intros l Hl. apply in_firstn in Hl.
    eapply Permutation_in; [apply sort_desc_perm | exact Hl]. }
  split_and!.
  - apply newest_first_firstn, sort_desc_sorted.
  - intros l Hl. apply Hin, Hi3, Hi2, Hi1, in_map_iff in Hl as (raw & <- & Hraw). eauto.
  - intros micros l Hs Hl. apply Hin, Hi3, Hi2 in Hl.
    specialize (Hs1 _ Hs). rewrite Forall_forall in Hs1.
    apply list_elem_of_In, Hs1, ts_ge_spec in Hl as (t & Ht & _ & Hle).
    exists t. split_and!; [exact Ht | exact Hle |].
    pose proof (Z.quot_rem' micros 1000000) as Hqr.
    pose proof (Z.rem_bound_pos micros 1000000) as Hpos.
    pose proof (Z.rem_bound_pos_neg micros 1000000) as Hneg.
    lia.
  - intros micros l He Hl. apply Hin, Hi3 in Hl.
    specialize (Hs2 _ He). rewrite Forall_forall in Hs2.
    apply list_elem_of_In, Hs2, ts_le_spec in Hl as (t & Ht & _ & Hle).
    exists t. split_and!; [exact Ht | exact Hle |].
    intros Hm.
    pose proof (Z.quot_rem' micros 1000000) as Hqr.
    pose proof (Z.rem_bound_pos micros 1000000) as Hpos.
    lia.
  - intros l Ht Hl. apply Hin in Hl.
    specialize (Hs3 Ht). rewrite Forall_forall in Hs3.
    by apply list_elem_of_In, Hs3 in Hl.
  - exact Hlen.
Qed.

End AttendanceMore.

Lemma get_attendance_sound_witness :
  exists logs,
    Essl.get_attendance (Scenario.terminal [] [Scenario.recent_punch; Scenario.epoch_punch])
      (Essl.datetime_at 1700000000999999) VNone (VStr "7") (VInt 5) = Ret logs /\
    logs = [Essl.to_log Scenario.recent_punch] /\
    Essl.l_timestamp (Essl.to_log Scenario.recent_punch) = Some 1700000000 /\
    Essl.newest_first logs /\ Z.of_nat (length logs) <= 5 /\
    Forall (fun l => exists t, Essl.l_timestamp l = Some t /\
                               1700000000999999 - 1000000 < t * 1000000) logs.
Proof.
  eexists. split; [reflexivity|].
  destruct (get_attendance_sound
              (Scenario.terminal [] [Scenario.recent_punch; Scenario.epoch_punch])
              (Essl.mkConn [] [Scenario.recent_punch; Scenario.epoch_punch]
                 true true true [])
              (Essl.datetime_at 1700000000999999) VNone (VStr "7") (VInt 5) _
              eq_refl eq_refl)
    as (Hsorted & _ & Hstart & _ & _ & Hlen).
  split; [reflexivity|]. split; [reflexivity|].
  split; [exact Hsorted|]. split; [apply (Hlen 5 eq_refl); lia|].
  apply Forall_forall. intros l Hl. apply list_elem_of_In in Hl.
  destruct (Hstart 1700000000999999 l eq_refl Hl) as (t & Ht & _ & Hlt). eauto.
Defined.

(** ** The registry: removal and persistence *)

Section RegistryMore.

Import DevicePool.

Lemma save_devices_file (p : DevicePoolManager) :
  data_file (_save_devices p) =
    if fs_writable p then Some (to_dict <$> devices p) else data_file p.
Proof. unfold _save_devices. by destruct (fs_writable p). Qed.

Lemma unregister_device_cores (p : DevicePoolManager) (i : string) :
  device_cores (unregister_device i p).2 =
    match devices p !! i with
    | Some _ => delete i (device_cores p)
    | None => device_cores p
    end.
Proof.
  unfold unregister_device. destruct (devices p !! i); simpl; [|reflexivity].
  match goal with |- context [_save_devices ?q] =>
    destruct (save_devices_maps q) as [_ ->] end.
  reflexivity.
Qed.

(** X6. Unregistering an id that is not registered reports failure and
    changes nothing. Unregistering a registered id removes its record and
    its capability, leaves every other device as it was, and makes a second
    unregistration fail. Registering a fresh id and unregistering it again
    restores both maps. *)
Theorem unregister_device_contract (p : DevicePoolManager) (i : string) :
  (devices p !! i = None ->
   get "success" (unregister_device i p).1 = VBool false /\
   get "message" (unregister_device i p).1 = VStr ("Device " +:+ i +:+ " not found") /\
   (unregister_device i p).2 = p) /\
  (is_Some (devices p !! i) ->
   get "success" (unregister_device i p).1 = VBool true /\
   devices (unregister_device i p).2 !! i = None /\
   device_cores (unregister_device i p).2 !! i = None /\
   (forall j, j <> i ->
      devices (unregister_device i p).2 !! j = devices p !! j /\
      device_cores (unregister_device i p).2 !! j = device_cores p !! j) /\
   get "success" (unregister_device i (unregister_device i p).2).1 = VBool false) /\
  (forall (ip : value) (po pw : option value) (n l : value),
     devices p !! i = None -> device_cores p !! i = None ->
     devices (unregister_device i (register_device i ip po pw n l p).2).2 = devices p /\
     device_cores (unregister_device i (register_device i ip po pw n l p).2).2
       = device_cores p).
Proof.
  split_and!.
  - intros Hi. unfold unregister_device. rewrite Hi. by split_and!.
  - intros [info Hi].
    pose proof (unregister_device_devices p i) as Hd.
    pose proof (unregister_device_cores p i) as Hc. rewrite Hi in Hc.
    assert (Hgone : devices (unregister_device i p).2 !! i = None).
    { rewrite Hd. apply lookup_delete_eq. }
    split_and!.
    + unfold unregister_device. rewrite Hi. reflexivity.
    + exact Hgone.
    + rewrite Hc. apply lookup_delete_eq.
    + intros j Hj. rewrite Hd, Hc. by rewrite !lookup_delete_ne.
    + generalize dependent (unregister_device i p).2. intros p' _ _ Hgone.
      unfold unregister_device. rewrite Hgone. reflexivity.
  - intros ip po pw n l Hi Hci.
    destruct (register_device_fresh p i ip po pw n l Hi)
      as (_ & info & core & Hinfo & Hcore & _).
    pose proof (unregister_device_devices (register_device i ip po pw n l p).2 i) as Hd.
    pose proof (unregister_device_cores (register_device i ip po pw n l p).2 i) as Hc.
    rewrite Hinfo in Hc. rewrite Hd, Hc.
    unfold register_device. rewrite Hi. simpl.
    match goal with |- context [_save_devices ?q] =>
      destruct (save_devices_maps q) as [-> ->] end.
    simpl. by rewrite !delete_insert_id.
Qed.

(** X7. A successful registration or unregistration rewrites data.json as
    the image of the record map under [to_dict] when the file can be
    written, and silently leaves the old file when it cannot (the call
    still reports success); a failed call does not touch the file. A saved
    entry carries the device id, address and port of its record, and
    neither the password nor the timeout. *)
Theorem saved_file_mirrors_registry (p : DevicePoolManager) (i : string)
    (ip : value) (po pw : option value) (n l : value) :
  let reg := register_device i ip po pw n l p in
  let unreg := unregister_device i p in
  (get "success" reg.1 = VBool true ->
   data_file reg.2 =
     if fs_writable p then Some (to_dict <$> devices reg.2) else data_file p) /\
  (get "success" unreg.1 = VBool true ->
   data_file unreg.2 =
     if fs_writable p then Some (to_dict <$> devices unreg.2) else data_file p) /\
  (get "success" reg.1 = VBool false -> data_file reg.2 = data_file p) /\
  (get "success" unreg.1 = VBool false -> data_file unreg.2 = data_file p) /\
  (forall (q : DevicePoolManager) (j : string) (d : dict),
     (to_dict <$> devices q) !! j = Some d ->
     exists info, devices q !! j = Some info /\
       get "device_id" d = VStr (device_id info) /\
       get "device_ip" d = device_ip info /\
       get "port" d = port info /\
       dict_get "password" d = None /\ dict_get "timeout" d = None).
Proof.
  intros reg unreg. subst reg unreg. split_and!.
  - unfold register_device. destruct (devices p !! i); simpl; [discriminate|].
    intros _. rewrite save_devices_file. simpl.
    destruct (fs_writable p); [|reflexivity].
    match goal with |- context [_save_devices ?q] =>
      destruct (save_devices_maps q) as [-> _] end.
    reflexivity.
  - unfold unregister_device. destruct (devices p !! i); simpl; [|discriminate].
    intros _. rewrite save_devices_file. simpl.
    destruct (fs_writable p); [|reflexivity].
    match goal with |- context [_save_devices ?q] =>
      destruct (save_devices_maps q) as [-> _] end.
    reflexivity.
  - unfold register_device. destruct (devices p !! i); simpl; [reflexivity|discriminate].
  - unfold unregister_device. destruct (devices p !! i); simpl; [discriminate|reflexivity].
  - intros q j d Hd. apply lookup_fmap_Some in Hd as (info & <- & Hinfo).
    exists info. by split_and!.
Qed.

End RegistryMore.

Lemma unregister_device_contract_witness :
  get "success" (DevicePool.unregister_device "device_001" Scenario.one_device_pool).1
    = VBool true /\
  DevicePool.devices
    (DevicePool.unregister_device "device_001" Scenario.one_device_pool).2
    = DevicePool.devices DevicePool.empty_pool /\
  get "success" (DevicePool.unregister_device "device_002" Scenario.one_device_pool).1
    = VBool false.
Proof.
  destruct (unregister_device_contract Scenario.one_device_pool "device_001")
    as (_ & Hpresent & _).
  destruct (unregister_device_contract DevicePool.empty_pool "device_001")
    as (_ & _ & Hround).
  destruct (unregister_device_contract Scenario.one_device_pool "device_002")
    as (Habsent & _ & _).
  destruct Hpresent as (Hs & _); [apply register_device_present|].
  destruct (Hround (VStr "10.0.0.5") None None VNone VNone eq_refl eq_refl) as [Hd _].
  destruct (Habsent eq_refl) as (Hf & _).
  split; [exact Hs|]. split; [exact Hd | exact Hf].
Defined.

Lemma saved_file_mirrors_registry_witness :
  DevicePool.data_file Scenario.one_device_pool
    = Some (DevicePool.to_dict <$> DevicePool.devices Scenario.one_device_pool).
Proof.
  destruct (saved_file_mirrors_registry DevicePool.empty_pool "device_001"
              (VStr "10.0.0.5") None None VNone VNone) as (Hreg & _).
  exact (Hreg eq_refl).
Defined.

(** ** The coordinator: starting and stopping one device *)

Section CoordinationMore.

Import DevicePool StreamManager Coordinator.

Variable cfg : Config.
Variable w : World.
Variable hours : Z.

(** X8. Starting a device that is already streaming or is not registered,
    and stopping one that is not streaming, fail and change nothing.
    Starting a registered device that is not streaming records a running
    engine bound to that id and touches no other engine; stopping it again
    gives back the system as it was before the start. *)
Theorem streaming_start_stop (sys : System) (i : string) :
  (is_Some (stream_managers sys !! i) ->
   success_of (start_streaming_device cfg w hours i sys).1 = false /\
   (start_streaming_device cfg w hours i sys).2 = sys) /\
  (devices (device_pool sys) !! i = None ->
   success_of (start_streaming_device cfg w hours i sys).1 = false /\
   (start_streaming_device cfg w hours i sys).2 = sys) /\
  (stream_managers sys !! i = None ->
   success_of (stop_streaming_device cfg w i sys).1 = false /\
   (stop_streaming_device cfg w i sys).2 = sys) /\
  (stream_managers sys !! i = None -> is_Some (devices (device_pool sys) !! i) ->
   let sys1 := (start_streaming_device cfg w hours i sys).2 in
   success_of (start_streaming_device cfg w hours i sys).1 = true /\
   (exists sm, stream_managers sys1 !! i = Some sm /\ is_running sm = true /\
               StreamManager.device_id sm = i) /\
   device_pool sys1 = device_pool sys /\
   (forall j, j <> i -> stream_managers sys1 !! j = stream_managers sys !! j) /\
   success_of (stop_streaming_device cfg w i sys1).1 = true /\
   (stop_streaming_device cfg w i sys1).2 = sys).
Proof.
  split_and!.
  - intros [sm Hsm]. unfold start_streaming_device. rewrite Hsm. by split.
  - intros Hd. unfold start_streaming_device, get_device_info.
    destruct (stream_managers sys !! i); [by split|]. rewrite Hd. by split.
  - intros Hsm. unfold stop_streaming_device. rewrite Hsm. by split.
  - intros Hsm [info Hinfo] sys1. subst sys1.
    unfold start_streaming_device, get_device_info. rewrite Hsm, Hinfo.
    destruct (start_new_engine cfg w hours (DevicePool.device_ip info) i) as [Hok Hrun].
    assert (Hid : StreamManager.device_id
                    (start cfg w (new_engine (DevicePool.device_ip info) i hours)).2 = i)
      by reflexivity.
    destruct (start cfg w (new_engine (DevicePool.device_ip info) i hours)) as [r sm].
    simpl in Hok, Hrun, Hid. rewrite Hok. simpl.
    split_and!; try reflexivity; try exact Hok.
    + exists sm. rewrite lookup_insert_eq. by split_and!.
    + intros j Hj. by rewrite lookup_insert_ne.
    + unfold stop_streaming_device. simpl. rewrite lookup_insert_eq.
      pose proof (stop_running_engine cfg w sm Hrun) as Hs.
      destruct (stop cfg w sm) as [r' sm']. simpl in Hs. by rewrite Hs.
    + unfold stop_streaming_device. simpl. rewrite lookup_insert_eq.
      pose proof (stop_running_engine cfg w sm Hrun) as Hs.
      destruct (stop cfg w sm) as [r' sm']. simpl in Hs. rewrite Hs. simpl.
      rewrite delete_insert_id by exact Hsm. by destruct sys.
Qed.

End CoordinationMore.

Lemma streaming_start_stop_witness :
  let sys := {| Coordinator.device_pool := Scenario.one_device_pool;
                Coordinator.stream_managers := ∅ |} in
  Coordinator.success_of
    (Coordinator.start_streaming_device Scenario.cfg Scenario.dead_world 24
       "device_001" sys).1 = true /\
  (Coordinator.stop_streaming_device Scenario.cfg Scenario.dead_world "device_001"
     (Coordinator.start_streaming_device Scenario.cfg Scenario.dead_world 24
        "device_001" sys).2).2 = sys.
Proof.
  intros sys.
  destruct (streaming_start_stop Scenario.cfg Scenario.dead_world 24 sys "device_001")
    as (_ & _ & _ & Hstart).
  destruct Hstart as (Hok & _ & _ & _ & _ & Hback);
    [reflexivity | apply register_device_present |].
  split; [exact Hok | exact Hback].
Defined.

(** ** The coordinator: every operation but the bare unregistration *)

Section CoordinationInvariant.

Import Coordinator.

Variable cfg : Config.
Variable w : StreamManager.World.
Variable hours : Z.

(** X10. Starting from an empty registry and no engine, any sequence of
    registrations, stream starts and stops, add-and-stream and
    remove-and-stop calls leaves every streaming device with an enabled
    record in the registry, every held engine running, and every record
    enabled. *)
Theorem coordinator_consistent_without_unregister (ops : list Op) :
  forallb (fun o => negb (is_unregister o)) ops = true ->
  engines_registered (run_ops cfg w hours ops initial_system) /\
  engines_running (run_ops cfg w hours ops initial_system) /\
  all_active (run_ops cfg w hours ops initial_system).
Proof.
  intros Hops. apply (consistent_run_ops cfg w hours ops initial_system Hops).
  apply consistent_initial.
Qed.

End CoordinationInvariant.

Lemma coordinator_consistent_without_unregister_witness :
  Coordinator.engines_registered
    (Coordinator.run_ops Scenario.cfg Scenario.dead_world 24
       [Coordinator.AddAndStream "device_001" (VStr "10.0.0.5") (VInt 4370) VNone VNone true;
        Coordinator.StopStreaming "device_001";
        Coordinator.StartStreaming "device_001";
        Coordinator.RemoveAndStop "device_001"]
       Coordinator.initial_system).
Proof.
  destruct (coordinator_consistent_without_unregister Scenario.cfg Scenario.dead_world 24
              [Coordinator.AddAndStream "device_001" (VStr "10.0.0.5") (VInt 4370)
                 VNone VNone true;
               Coordinator.StopStreaming "device_001";
               Coordinator.StartStreaming "device_001";
               Coordinator.RemoveAndStop "device_001"] eq_refl) as [Hreg _].
  exact Hreg.
Defined.

(** ** The stream engine: a terminal that stays down *)

Section DeadTerminal.

Import StreamManager.

Variable w : World.

(** X11. While the terminal refuses every connection, a running,
    disconnected engine never leaves the live loop by itself: after any
    number [n] of loop iterations it is still running and has made exactly
    4 n connection attempts, and after the first iteration its mode is
    ERROR at the end of each iteration. *)
Theorem dead_terminal_is_retried_for_ever (fuel : nat) (st : StreamManager) :
  (forall n, zk_connect w n = None) ->
  is_running st = true ->
  Essl.conn (device st) = None ->
  is_running (live_loop w fuel st) = true /\
  n_connects (live_loop w fuel st) = (n_connects st + 4 * fuel)%nat /\
  ((0 < fuel)%nat -> mode (live_loop w fuel st) = ERROR).
Proof. apply live_loop_dead. Qed.

End DeadTerminal.

Lemma dead_terminal_is_retried_for_ever_witness :
  StreamManager.n_connects
    (StreamManager.live_loop Scenario.dead_world 25 Scenario.running_engine) = 100%nat.
Proof.
  destruct (dead_terminal_is_retried_for_ever Scenario.dead_world 25
              Scenario.running_engine (fun _ => eq_refl) eq_refl eq_refl)
    as (_ & Hn & _).
  exact Hn.
Defined.

(** ** The command handler: what comes back *)

Section RoutingMore.

Import CommandHandler.

Context {Pool : Type} `{PoolOps Pool}.
Variable cfg : Config.
Variable now : Z.

(** X12. Whenever [execute_command] returns an envelope, for whatever
    command and whatever the registry answers, the result field is a
    mapping. *)
Theorem returned_result_is_a_mapping (env : CommandEnvelope) (pool pool' : Pool)
    (r : ResultEnvelope) :
  execute_command cfg now env pool = (Ret r, pool') ->
  exists d, r_result r = VDict d.
Proof.
  intros Hrun. apply execute_command_result_is_dict in Hrun.
  destruct (r_result r); try discriminate. eauto.
Qed.


End RoutingMore.

Lemma returned_result_is_a_mapping_witness :
  exists r d,
    CommandHandler.execute_command
      (H := CommandHandler.scripted_pool Scenario.get_users_answer)
      Scenario.cfg 1700000000 Scenario.get_users_command tt = (Ret r, tt) /\
    CommandHandler.r_result r = VDict d.
Proof.
  eexists.
  destruct (returned_result_is_a_mapping
              (H := CommandHandler.scripted_pool Scenario.get_users_answer)
              Scenario.cfg 1700000000 Scenario.get_users_command tt tt _ eq_refl)
    as [d Hd].
  exists d. split; [reflexivity | exact Hd].
Defined.


(** ** The command poller *)

Section PollingProps.
Import Polling.
Context {Handler : Type}.
Variable execute_command : dict -> Handler -> outcome dict * Handler.
Variable w : World.

Lemma poller_quiet_refl (s : PollingService Handler) : quiet_step s s.
Proof. unfold quiet_step. tauto. Qed.

Lemma poller_quiet_trans (s1 s2 s3 : PollingService Handler) :
  quiet_step s1 s2 -> quiet_step s2 s3 -> quiet_step s1 s3.
Proof. unfold quiet_step. intros H1 H2. destruct_and!. split_and!; try congruence. auto. Qed.

Lemma poller_log_error_quiet msg (s : PollingService Handler) : quiet_step s (_log_error w msg s).
Proof.
  unfold quiet_step, _log_error. simpl. split_and!; try reflexivity.
  intros Hl. rewrite length_app. simpl.
  destruct (Z.ltb_spec 50 (Z.of_nat (length (errors (stats s)) + 1))).
  - rewrite length_skipn, length_app. simpl. lia.
  - rewrite length_app. simpl. lia.
Qed.

Lemma fetch_command_quiet (s : PollingService Handler) :
  quiet_step (count_request s) (_fetch_command w s).2.
Proof.
  unfold _fetch_command.
  destruct (get_command w (n_get s)) as [code [v|e]|m|m|m]; simpl;
    repeat case_match; simpl;
    first [apply poller_quiet_refl | apply poller_log_error_quiet].
Qed.

(** What [_fetch_command] hands over is the "data" member of the body of a
    200 response, and nothing else. *)
Lemma fetch_command_value (s : PollingService Handler) (v : value) :
  (_fetch_command w s).1 = v -> v <> VNone ->
  exists body,
    get_command w (n_get s) = Response 200 (Ret (VDict body)) /\ get "data" body = v.
Proof.
  unfold _fetch_command.
  destruct (get_command w (n_get s)) as [code c|m|m|m]; simpl;
    try (intros <-; congruence).
  destruct (Z.eqb_spec code 204); [simpl; intros <-; congruence|].
  destruct (Z.eqb_spec code 404); [simpl; intros <-; congruence|].
  destruct (Z.eqb_spec code 200); simpl; [|intros <-; congruence].
  subst code.
  destruct c as [c|e]; [|simpl; intros <-; congruence].
  destruct c; simpl; try (repeat case_match; simpl; intros <-; congruence).
  destruct d as [|kv d]; simpl; [intros <-; congruence|].
  case_match; simpl; intros <- Hv; [congruence|]. eauto.
Qed.

Lemma fetch_command_accepts (s : PollingService Handler) (body : dict) (v : value) :
  get_command w (n_get s) = Response 200 (Ret (VDict body)) ->
  get "data" body = v -> v <> VNone ->
  (_fetch_command w s).1 = v.
Proof.
  intros Hr Hv Hn. unfold _fetch_command. rewrite Hr. simpl.
  destruct body as [|kv body]; [unfold get in Hv; simpl in Hv; congruence|].
  simpl. rewrite Hv. destruct v; simpl; congruence.
Qed.

Lemma send_result_quiet (d result : dict) (s : PollingService Handler) :
  quiet_step (record_post result s) (_send_result w d result s).
Proof.
  unfold _send_result. destruct (send_result w (n_send s));
    first [apply poller_quiet_refl | apply poller_log_error_quiet].
Qed.

Lemma execute_command_effect (d : dict) (s : PollingService Handler) :
  let rh := execute_command d (command_handler s) in
  let rs := _execute_command execute_command w d s in
  is_running rs.2 = is_running s /\
  command_handler rs.2 = rh.2 /\
  posted rs.2 = posted s /\
  n_get rs.2 = n_get s /\
  n_send rs.2 = n_send s /\
  total_polls (stats rs.2) = total_polls (stats s) /\
  commands_received (stats rs.2) = commands_received (stats s) /\
  ((length (errors (stats s)) <= 50)%nat -> (length (errors (stats rs.2)) <= 50)%nat) /\
  match rh.1 with
  | Ret result =>
      rs.1 = result /\
      if truthy (get "success" result) then
        commands_executed (stats rs.2) = commands_executed (stats s) + 1 /\
        commands_failed (stats rs.2) = commands_failed (stats s)
      else
        commands_executed (stats rs.2) = commands_executed (stats s) /\
        commands_failed (stats rs.2) = commands_failed (stats s) + 1
  | Raise e =>
      (exists now,
         rs.1 = [("success", VBool false);
                 ("error", VStr ("Execution error: " +:+ exn_msg e));
                 ("command", get "command" d);
                 ("executed_at", VInt now)]) /\
      commands_executed (stats rs.2) = commands_executed (stats s) /\
      commands_failed (stats rs.2) = commands_failed (stats s) + 1
  end.
Proof.
  intros rh rs. subst rh rs. unfold _execute_command.
  destruct (execute_command d (command_handler s)) as [[result|e] h].
  - destruct (truthy (get "success" result)) eqn:Hs; simpl; rewrite ?Hs;
      split_and!; auto.
  - set (s1 := count_failed (set_handler h s)).
    pose proof (poller_log_error_quiet ("Command execution error: " +:+ exn_msg e) s1) as Hq.
    unfold quiet_step in Hq. destruct_and!.
    destruct (time_now w (_log_error w ("Command execution error: " +:+ exn_msg e) s1))
      as [now s2] eqn:Ht.
    unfold time_now in Ht. injection Ht as <- <-.
    cbn [fst snd is_running command_handler posted n_get n_send stats].
    split_and!; try (subst s1; simpl in *; congruence).
    all: eauto.
Qed.

Lemma begin_poll_effect (s : PollingService Handler) :
  let s' := begin_poll w s in
  is_running s' = is_running s /\ command_handler s' = command_handler s /\
  posted s' = posted s /\ n_get s' = n_get s /\ n_send s' = n_send s /\
  total_polls (stats s') = total_polls (stats s) + 1 /\
  commands_received (stats s') = commands_received (stats s) /\
  commands_executed (stats s') = commands_executed (stats s) /\
  commands_failed (stats s') = commands_failed (stats s) /\
  errors (stats s') = errors (stats s).
Proof. simpl. tauto. Qed.

Lemma count_received_effect (s : PollingService Handler) :
  let s' := count_received w s in
  is_running s' = is_running s /\ command_handler s' = command_handler s /\
  posted s' = posted s /\ n_get s' = n_get s /\ n_send s' = n_send s /\
  total_polls (stats s') = total_polls (stats s) /\
  commands_received (stats s') = commands_received (stats s) + 1 /\
  commands_executed (stats s') = commands_executed (stats s) /\
  commands_failed (stats s') = commands_failed (stats s) /\
  errors (stats s') = errors (stats s).
Proof. simpl. tauto. Qed.

(** One turn of the loop, by what [_fetch_command] handed over. *)
Lemma poll_once_cases (s : PollingService Handler) :
  let v := (_fetch_command w (begin_poll w s)).1 in
  let s' := poll_once execute_command w s in
  is_running s' = is_running s /\
  total_polls (stats s') = total_polls (stats s) + 1 /\
  n_get s' = S (n_get s) /\
  ((length (errors (stats s)) <= 50)%nat -> (length (errors (stats s')) <= 50)%nat) /\
  match v with
  | VDict (kv :: d) => handled (execute_command (kv :: d) (command_handler s)) (kv :: d) s s'
  | _ => idle s s'
  end.
Proof.
  intros v s'. subst v s'. unfold poll_once, _poll_cycle.
  pose proof (begin_poll_effect s) as Hb. cbv zeta in Hb.
  pose proof (fetch_command_quiet (begin_poll w s)) as Hf.
  destruct (_fetch_command w (begin_poll w s)) as [v s1]. cbn [fst snd] in *.
  assert (Hs1 : is_running s1 = is_running s /\ command_handler s1 = command_handler s /\
                posted s1 = posted s /\ n_get s1 = S (n_get s) /\ n_send s1 = n_send s /\
                total_polls (stats s1) = total_polls (stats s) + 1 /\
                commands_received (stats s1) = commands_received (stats s) /\
                commands_executed (stats s1) = commands_executed (stats s) /\
                commands_failed (stats s1) = commands_failed (stats s) /\
                ((length (errors (stats s)) <= 50)%nat ->
                 (length (errors (stats s1)) <= 50)%nat)).
  { unfold quiet_step in Hf. cbn [count_request is_running command_handler posted n_get
      n_send stats] in Hf. destruct_and!. split_and!; try congruence.
    intros Hl. apply H9. congruence. }
  clear Hb Hf. destruct Hs1 as (R1 & R2 & R3 & R4 & R5 & R6 & R7 & R8 & R9 & R10).
  assert (Hidle : forall s2, quiet_step s1 s2 ->
            is_running s2 = is_running s /\
            total_polls (stats s2) = total_polls (stats s) + 1 /\
            n_get s2 = S (n_get s) /\
            ((length (errors (stats s)) <= 50)%nat ->
             (length (errors (stats s2)) <= 50)%nat) /\
            idle s s2).
  { intros s2 Hq. unfold quiet_step in Hq. unfold idle. destruct_and!.
    split_and!; try congruence. auto. }
  pose proof (Hidle s1 (poller_quiet_refl s1)) as Hret.
  assert (Hraise : forall msg, _ ) by
    exact (fun msg => Hidle (_log_error w msg s1) (poller_log_error_quiet msg s1)).
  destruct v as [|[]|z|str|t|[|x l]|[|kv d]]; cbn [truthy negb];
    try destruct (z =? 0); try destruct (String.eqb str ""); cbn [negb];
    cbn beta iota; try exact Hret; try apply Hraise.
  pose proof (count_received_effect s1) as Hc. cbv zeta in Hc.
  set (s2 := count_received w s1) in *.
  pose proof (execute_command_effect (kv :: d) s2) as He. cbv zeta in He.
  destruct (_execute_command execute_command w (kv :: d) s2) as [result s3].
  cbn [fst snd] in He.
  pose proof (send_result_quiet (kv :: d) result s3) as Hs. unfold quiet_step in Hs.
  cbn [record_post is_running command_handler posted n_get n_send stats] in Hs.
  set (s4 := _send_result w (kv :: d) result s3) in *.
  destruct Hc as (C1 & C2 & C3 & C4 & C5 & C6 & C7 & C8 & C9 & C10).
  destruct He as (E1 & E2 & E3 & E4 & E5 & E6 & E7 & E8 & E9).
  destruct Hs as (S1 & S2 & S3 & S4 & S5 & S6 & S7 & S8 & S9 & S10).
  rewrite C2, R2 in E2, E9.
  split_and!; try congruence.
  - intros Hl. apply S10, E8. rewrite C10. auto.
  - unfold handled. split_and!; try congruence.
    destruct (execute_command (kv :: d) (command_handler s)).1 as [res|e].
    + destruct E9 as (-> & E9). split; [congruence|].
      destruct (truthy (get "success" res)); destruct E9; split; congruence.
    + destruct E9 as ((now & ->) & E9 & E10). split_and!; try congruence.
      exists now. rewrite S3, E3, C3, R3. reflexivity.
Qed.

(** X14. A poll that is answered 200 with a JSON object whose "data" is a
    non-empty mapping hands that mapping to the command handler, counts the
    command as received and as executed or failed by the "success" member of
    the handler's result, and posts that result once; when the handler
    raises, the command is counted as failed and the body posted is the
    execution error.  The loop goes on in both cases. *)
Theorem poll_cycle_runs_command (s : PollingService Handler) (body d : dict) :
  get_command w (n_get s) = Response 200 (Ret (VDict body)) ->
  get "data" body = VDict d ->
  truthy (VDict d) = true ->
  let s' := poll_once execute_command w s in
  let answer := execute_command d (command_handler s) in
  is_running s' = is_running s /\
  command_handler s' = answer.2 /\
  total_polls (stats s') = total_polls (stats s) + 1 /\
  commands_received (stats s') = commands_received (stats s) + 1 /\
  match answer.1 with
  | Ret result =>
      posted s' = posted s ++ [result] /\
      if truthy (get "success" result) then
        commands_executed (stats s') = commands_executed (stats s) + 1 /\
        commands_failed (stats s') = commands_failed (stats s)
      else
        commands_executed (stats s') = commands_executed (stats s) /\
        commands_failed (stats s') = commands_failed (stats s) + 1
  | Raise e =>
      (exists now,
         posted s' = posted s ++
           [[("success", VBool false);
             ("error", VStr ("Execution error: " +:+ exn_msg e));
             ("command", get "command" d);
             ("executed_at", VInt now)]]) /\
      commands_executed (stats s') = commands_executed (stats s) /\
      commands_failed (stats s') = commands_failed (stats s) + 1
  end.
Proof.
  intros Hr Hd Ht s' answer.
  pose proof (poll_once_cases s) as Hc. cbv zeta in Hc. fold s' in Hc.
  assert (Hv : (_fetch_command w (begin_poll w s)).1 = VDict d).
  { apply (fetch_command_accepts _ body); [exact Hr | exact Hd | discriminate]. }
  rewrite Hv in Hc. destruct d as [|kv d]; [discriminate Ht|].
  destruct Hc as (C1 & C2 & _ & _ & C5 & _ & C7 & C8).
  fold answer in C5, C8. split_and!; try assumption.
Qed.

(** X15. Any other poll (a transport failure, a status other than 200, a
    body that is not JSON or not an object, no "data", or "data" that is not
    a non-empty mapping) leaves the handler alone, posts nothing and counts
    no command; the loop goes on. *)
Theorem poll_cycle_without_command (s : PollingService Handler) :
  (forall body d,
     get_command w (n_get s) = Response 200 (Ret (VDict body)) ->
     get "data" body = VDict d -> truthy (VDict d) = false) ->
  let s' := poll_once execute_command w s in
  is_running s' = is_running s /\
  command_handler s' = command_handler s /\
  posted s' = posted s /\
  total_polls (stats s') = total_polls (stats s) + 1 /\
  commands_received (stats s') = commands_received (stats s) /\
  commands_executed (stats s') = commands_executed (stats s) /\
  commands_failed (stats s') = commands_failed (stats s).
Proof.
  intros Hno s'.
  pose proof (poll_once_cases s) as Hc. cbv zeta in Hc. fold s' in Hc.
  destruct Hc as (C1 & C2 & _ & _ & C5).
  assert (Hi : idle s s').
  { destruct (_fetch_command w (begin_poll w s)).1 as [| | | | | |[|kv d]] eqn:Hv;
      try exact C5.
    destruct (fetch_command_value _ _ Hv) as (body & Hr & Hd); [discriminate|].
    discriminate (Hno body (kv :: d) Hr Hd). }
  unfold idle in Hi. destruct_and!. split_and!; assumption.
Qed.

Lemma poll_once_accounted (s : PollingService Handler) :
  accounted s -> accounted (poll_once execute_command w s).
Proof.
  unfold accounted. intros (A1 & A2 & A3 & A4 & A5 & A6).
  pose proof (poll_once_cases s) as Hc. cbv zeta in Hc.
  set (s' := poll_once execute_command w s) in *.
  destruct Hc as (C1 & C2 & C3 & C4 & C5).
  assert (Hi : idle s s' -> accounted s').
  { unfold idle, accounted. intros Hi. destruct_and!.
    split_and!; try lia; try congruence; auto. }
  unfold accounted in Hi.
  destruct (_fetch_command w (begin_poll w s)).1 as [| | | | | |[|kv d]];
    try (apply Hi; exact C5).
  unfold handled in C5. destruct C5 as (H1 & H2 & H3 & H4).
  assert (Hp : length (posted s') = S (length (posted s)) /\
               commands_executed (stats s') + commands_failed (stats s') =
               commands_executed (stats s) + commands_failed (stats s) + 1).
  { destruct (execute_command (kv :: d) (command_handler s)).1 as [res|e].
    - destruct H4 as (-> & H4). rewrite length_app. simpl.
      destruct (truthy (get "success" res)); destruct H4; split; lia.
    - destruct H4 as ((now & ->) & H4 & H5). rewrite length_app. simpl.
      split; lia. }
  destruct Hp as (P1 & P2). split_and!; try lia; auto.
Qed.

Lemma poll_loop_accounted (fuel : nat) (s : PollingService Handler) :
  accounted s -> is_running s = true ->
  accounted (poll_loop execute_command w fuel s) /\
  is_running (poll_loop execute_command w fuel s) = true /\
  total_polls (stats (poll_loop execute_command w fuel s)) =
    total_polls (stats s) + Z.of_nat fuel.
Proof.
  revert s. induction fuel as [|fuel IH]; intros s Ha Hr.
  - simpl. split_and!; auto; lia.
  - cbn [poll_loop]. rewrite Hr.
    pose proof (poll_once_cases s) as (C1 & C2 & _).
    destruct (IH (poll_once execute_command w s)) as (I1 & I2 & I3).
    + by apply poll_once_accounted.
    + congruence.
    + split_and!; auto; lia.
Qed.

(** X16. However long the poller runs, whatever the server and the handler
    do: it stays running, there was one poll per turn, every command
    received was counted exactly once as executed or as failed, exactly one
    result was posted per command received, and at most 50 errors are
    kept. *)
Theorem polling_accounting (fuel : nat) (device_pool : Handler) :
  let s := start execute_command w fuel (new_service device_pool) in
  is_running s = true /\
  total_polls (stats s) = Z.of_nat fuel /\
  Z.of_nat (n_get s) = Z.of_nat fuel /\
  commands_executed (stats s) + commands_failed (stats s) = commands_received (stats s) /\
  commands_received (stats s) <= total_polls (stats s) /\
  Z.of_nat (length (posted s)) = commands_received (stats s) /\
  n_send s = length (posted s) /\
  (length (errors (stats s)) <= 50)%nat.
Proof.
  intros s. subst s. unfold start. cbn [new_service is_running].
  destruct (poll_loop_accounted fuel (set_running true (new_service device_pool)))
    as (Ha & Hr & Ht).
  - unfold accounted. simpl. split_and!; lia.
  - reflexivity.
  - unfold accounted in Ha. destruct Ha as (A1 & A2 & A3 & A4 & A5 & A6).
    simpl in Ht. split_and!; auto; lia.
Qed.

End PollingProps.

Lemma poll_cycle_runs_command_witness :
  let handler := Polling.scripted_handler (Ret [("success", VBool true)]) in
  let s := Polling.new_service tt in
  let s' := Polling.poll_once handler Scenario.busy_server s in
  Polling.posted s' = [[("success", VBool true)]] /\
  Polling.commands_executed (Polling.stats s') = 1.
Proof.
  intros handler s s'.
  pose proof (poll_cycle_runs_command handler Scenario.busy_server s
                [("data", VDict [("id", VStr "c-9"); ("command", VStr "get_users");
                                 ("device_id", VStr "device_001")])]
                [("id", VStr "c-9"); ("command", VStr "get_users");
                 ("device_id", VStr "device_001")]
                eq_refl eq_refl eq_refl) as H.
  cbv zeta in H. destruct H as (_ & _ & _ & _ & H).
  destruct H as (H1 & H2 & _). split; [exact H1 | exact H2].
Defined.

Lemma poll_cycle_without_command_witness :
  let handler := Polling.scripted_handler (Ret [("success", VBool true)]) in
  let s' := Polling.poll_once handler Scenario.idle_server (Polling.new_service tt) in
  Polling.posted s' = [] /\
  Polling.total_polls (Polling.stats s') = 1 /\
  Polling.commands_received (Polling.stats s') = 0.
Proof.
  intros handler s'.
  pose proof (poll_cycle_without_command handler Scenario.idle_server
                (Polling.new_service tt)
                (fun body d H => match H with eq_refl => I end)) as H.
  cbv zeta in H. destruct H as (_ & _ & H3 & H4 & H5 & _).
  split_and!; [exact H3 | exact H4 | exact H5].
Defined.

(** ** The coordinator: all devices at once, and the status reports *)

Section CoordinationAll.

Import StreamManager.
Import Coordinator.
Import StreamManager.
Import Coordinator.

Variable cfg : Config.
Variable w : World.
Variable hours : Z.

Lemma start_device_cases (sys : System) (i : string) :
  let rs := start_streaming_device cfg w hours i sys in
  if startable sys i then
    success_of rs.1 = true /\
    exists info,
      DevicePool.devices (device_pool sys) !! i = Some info /\
      rs.2 = {| device_pool := device_pool sys;
                stream_managers :=
                  <[i := (start cfg w (new_engine (DevicePool.device_ip info) i hours)).2]>
                    (stream_managers sys) |}
  else success_of rs.1 = false /\ rs.2 = sys.
Proof.
  unfold startable, start_streaming_device, DevicePool.get_device_info.
  destruct (stream_managers sys !! i) eqn:Esm; simpl; [done|].
  destruct (DevicePool.devices (device_pool sys) !! i) as [info|] eqn:Edev; simpl.
  - split; [reflexivity|]. exists info. split; reflexivity.
  - done.
Qed.

Lemma tally_counts (t : Tally) (result : dict) :
  n_succeeded (tally t result) = n_succeeded t + Z.b2z (success_of result) /\
  n_failed (tally t result) = n_failed t + Z.b2z (negb (success_of result)) /\
  length (results (tally t result)) = S (length (results t)).
Proof.
  unfold tally. destruct (success_of result); simpl; rewrite length_app; simpl;
    split_and!; lia.
Qed.

Lemma start_fold_spec (ids : list string) :
  forall (t : Tally) (sys : System),
  NoDup ids ->
  let r :=
    fold_left
      (λ acc device_id,
         let (result, sys) := start_streaming_device cfg w hours device_id acc.2 in
         (tally acc.1 result, sys))
      ids (t, sys) in
  device_pool r.2 = device_pool sys /\
  (forall i,
     stream_managers r.2 !! i =
       if startable sys i && bool_decide (i ∈ ids) then
         (λ info, (start cfg w (new_engine (DevicePool.device_ip info) i hours)).2) <$>
           DevicePool.devices (device_pool sys) !! i
       else stream_managers sys !! i) /\
  n_succeeded r.1 = n_succeeded t + Z.of_nat (length (List.filter (startable sys) ids)) /\
  n_failed r.1 =
    n_failed t + Z.of_nat (length (List.filter (λ i, negb (startable sys i)) ids)) /\
  length (results r.1) = (length (results t) + length ids)%nat.
Proof.
  induction ids as [|a ids IH]; intros t sys Hnd.
  - simpl. split_and!; try lia; try done.
    intros i. rewrite andb_false_r. done.
  - apply NoDup_cons in Hnd as [Ha Hnd].
    cbn [fold_left fst snd].
    pose proof (start_device_cases sys a) as Hc. cbv zeta in Hc.
    destruct (start_streaming_device cfg w hours a sys) as [result sys1].
    cbn [fst snd] in Hc.
    destruct (tally_counts t result) as (T1 & T2 & T3).
    specialize (IH (tally t result) sys1 Hnd). cbv zeta in IH.
    destruct IH as (I1 & I2 & I3 & I4 & I5).
    cbn [List.filter length].
    destruct (startable sys a) eqn:Hsa.
    + destruct Hc as (Hok & info & Hinfo & Hsys1).
      assert (Hpool : device_pool sys1 = device_pool sys) by (by rewrite Hsys1).
      assert (Hsm : stream_managers sys1 =
                <[a := (start cfg w (new_engine (DevicePool.device_ip info) a hours)).2]>
                  (stream_managers sys)) by (by rewrite Hsys1).
      clear Hsys1.
      assert (Hsame : forall i, i <> a -> startable sys1 i = startable sys i).
      { intros i Hi. unfold startable. rewrite Hpool, Hsm.
        rewrite lookup_insert_ne by done. done. }
      assert (Hf1 : List.filter (startable sys1) ids = List.filter (startable sys) ids).
      { apply List.filter_ext_in. intros i Hi. rewrite Hsame; [done|].
        intros ->. apply Ha. by apply list_elem_of_In. }
      assert (Hf2 : List.filter (λ i, negb (startable sys1 i)) ids
                    = List.filter (λ i, negb (startable sys i)) ids).
      { apply List.filter_ext_in. intros i Hi. rewrite Hsame; [done|].
        intros ->. apply Ha. by apply list_elem_of_In. }
      rewrite Hf1 in I3. rewrite Hf2 in I4.
      rewrite Hok in T1, T2. cbn [negb Z.b2z] in T1, T2. cbn [negb length].
      split_and!; try lia; try congruence.
      intros i. rewrite I2. destruct (decide (i = a)) as [->|Hi].
      * rewrite Hsa. rewrite (bool_decide_eq_false_2 (a ∈ ids)) by done.
        rewrite andb_false_r. rewrite Hsm, lookup_insert_eq.
        rewrite (bool_decide_eq_true_2 (a ∈ a :: ids)) by (apply elem_of_cons; by left).
        cbn [andb]. rewrite Hinfo. done.
      * rewrite Hsame by done. rewrite Hpool, Hsm. rewrite lookup_insert_ne by done.
        rewrite (bool_decide_ext (i ∈ a :: ids) (i ∈ ids)); [done|].
        rewrite elem_of_cons. split; [intros [?|?]; [contradiction|assumption] | by right].
    + destruct Hc as (Hok & ->).
      rewrite Hok in T1, T2. cbn [negb Z.b2z] in T1, T2. cbn [negb length].
      split_and!; try lia; try done.
      intros i. rewrite I2. destruct (decide (i = a)) as [->|Hi].
      * rewrite Hsa. done.
      * rewrite (bool_decide_ext (i ∈ a :: ids) (i ∈ ids)); [done|].
        rewrite elem_of_cons. split; [intros [?|?]; [contradiction|assumption] | by right].
Qed.

Lemma keyed_by_id_empty : keyed_by_id DevicePool.empty_pool.
Proof. intros k info H. simpl in H. by rewrite lookup_empty in H. Qed.

Lemma keyed_by_id_register (p : DevicePool.DevicePoolManager) (i : string)
    (ip : value) (po pw : option value) (n l : value) :
  keyed_by_id p -> keyed_by_id (DevicePool.register_device i ip po pw n l p).2.
Proof.
  intros Hk. unfold DevicePool.register_device.
  destruct (DevicePool.devices p !! i) eqn:E; [exact Hk|].
  intros k info. cbn [snd].
  match goal with |- context [DevicePool._save_devices ?q] =>
    destruct (save_devices_maps q) as [-> _] end.
  cbn [DevicePool.devices]. rewrite lookup_insert_Some.
  intros [[<- <-] | [_ H]]; [reflexivity | by apply Hk].
Qed.

Lemma filter_fst_NoDup {A : Type} (f : string * A -> bool) (l : list (string * A)) :
  NoDup l.*1 -> NoDup (List.filter f l).*1.
Proof.
  induction l as [|kv l IH]; [done|]. cbn [fmap list_fmap]. rewrite NoDup_cons.
  intros [Hn Hnd]. cbn [List.filter]. destruct (f kv); [|by apply IH].
  cbn [fmap list_fmap]. apply NoDup_cons. split; [|by apply IH].
  intros Hin. apply Hn. apply list_elem_of_fmap in Hin as (kv' & -> & Hin).
  apply list_elem_of_fmap. exists kv'. split; [done|].
  apply list_elem_of_In. apply list_elem_of_In in Hin.
  by apply List.filter_In in Hin as [Hin _].
Qed.

Lemma active_device_ids_spec (p : DevicePool.DevicePoolManager) :
  keyed_by_id p ->
  NoDup (active_device_ids p) /\
  forall i, i ∈ active_device_ids p <->
    exists info, DevicePool.devices p !! i = Some info /\
                 DevicePool.is_active info = true.
Proof.
  intros Hk. unfold active_device_ids.
  set (l := List.filter (λ kv, DevicePool.is_active kv.2)
              (map_to_list (DevicePool.devices p))).
  assert (Hl : forall kv, kv ∈ l <->
                 DevicePool.devices p !! kv.1 = Some kv.2 /\
                 DevicePool.is_active kv.2 = true).
  { intros [k info]. subst l. rewrite list_elem_of_In, List.filter_In.
    rewrite <- list_elem_of_In, elem_of_map_to_list. done. }
  assert (Hmap : (λ kv, DevicePool.device_id kv.2) <$> l = l.*1).
  { apply list_fmap_ext. intros n kv Hkv. apply Hk.
    apply list_elem_of_lookup_2 in Hkv. apply Hl in Hkv. tauto. }
  rewrite Hmap. split.
  - subst l. apply filter_fst_NoDup, NoDup_fst_map_to_list.
  - intros i. rewrite list_elem_of_fmap. split.
    + intros ([k info] & -> & Hin). apply Hl in Hin. exists info. exact Hin.
    + intros (info & H1 & H2). exists (i, info). split; [done|]. by apply Hl.
Qed.

(** X17. [start_streaming_all] (registry records kept under their own id):
    the registry is untouched; an engine that was there is left as it is;
    every enabled device without an engine gets a new, started one; no
    other device gets one; the reply counts every enabled device, as
    started when it had no engine and as failed when it had one. *)
Theorem start_streaming_all_covers (sys : System) :
  keyed_by_id (device_pool sys) ->
  let rs := start_streaming_all cfg w hours sys in
  let ids := active_device_ids (device_pool sys) in
  device_pool rs.2 = device_pool sys /\
  (forall i sm, stream_managers sys !! i = Some sm ->
     stream_managers rs.2 !! i = Some sm) /\
  (forall i info,
     DevicePool.devices (device_pool sys) !! i = Some info ->
     DevicePool.is_active info = true ->
     stream_managers sys !! i = None ->
     stream_managers rs.2 !! i =
       Some (start cfg w (new_engine (DevicePool.device_ip info) i hours)).2) /\
  (forall i, is_Some (stream_managers rs.2 !! i) ->
     is_Some (stream_managers sys !! i) \/
     exists info, DevicePool.devices (device_pool sys) !! i = Some info /\
                  DevicePool.is_active info = true) /\
  get "total" rs.1 = VInt (Z.of_nat (length ids)) /\
  get "started" rs.1 =
    VInt (Z.of_nat (length (List.filter
                              (λ i, bool_decide (stream_managers sys !! i = None)) ids))) /\
  get "failed" rs.1 =
    VInt (Z.of_nat (length (List.filter
                              (λ i, negb (bool_decide (stream_managers sys !! i = None)))
                              ids))).
Proof.
  intros Hk rs ids. subst rs. unfold start_streaming_all, start_each. fold ids.
  destruct (active_device_ids_spec (device_pool sys) Hk) as [Hnd Hin]. fold ids in Hnd, Hin.
  pose proof (start_fold_spec ids (mkTally 0 0 []) sys Hnd) as Hf. cbv zeta in Hf.
  destruct (fold_left _ ids (mkTally 0 0 [], sys)) as [t sys'].
  cbn [fst snd n_succeeded n_failed results] in *.
  destruct Hf as (F1 & F2 & F3 & F4 & F5).
  assert (Hst : forall i, i ∈ ids ->
            startable sys i = bool_decide (stream_managers sys !! i = None)).
  { intros i Hi. apply Hin in Hi as (info & Hinfo & _). unfold startable.
    rewrite Hinfo. rewrite (bool_decide_eq_true_2 (is_Some (Some info))) by eauto.
    by rewrite andb_true_r. }
  split_and!.
  - exact F1.
  - intros i sm Hsm. rewrite F2. unfold startable. rewrite Hsm. done.
  - intros i info Hinfo Hact Hsm. rewrite F2.
    rewrite (bool_decide_eq_true_2 (i ∈ ids)) by (apply Hin; eauto).
    unfold startable. rewrite Hsm, Hinfo.
    rewrite (bool_decide_eq_true_2 (is_Some (Some info))) by eauto. done.
  - intros i. rewrite F2.
    destruct (startable sys i && bool_decide (i ∈ ids)) eqn:Hb; [|by left].
    apply andb_true_iff in Hb as [_ Hb]. apply bool_decide_eq_true in Hb.
    intros _. right. by apply Hin.
  - reflexivity.
  - unfold tally_value, get. cbn [dict_get String.eqb Ascii.eqb Bool.eqb].
    rewrite F3, Z.add_0_l. do 3 f_equal. apply List.filter_ext_in.
    intros i Hi. apply Hst. by apply list_elem_of_In.
  - unfold tally_value, get. cbn [dict_get String.eqb Ascii.eqb Bool.eqb].
    rewrite F4, Z.add_0_l. do 3 f_equal. apply List.filter_ext_in.
    intros i Hi. rewrite Hst; [done|]. by apply list_elem_of_In.
Qed.

Lemma stop_device_running (sys : System) (i : string) (sm : StreamManager) :
  stream_managers sys !! i = Some sm -> is_running sm = true ->
  let rs := stop_streaming_device cfg w i sys in
  success_of rs.1 = true /\
  rs.2 = {| device_pool := device_pool sys;
            stream_managers := delete i (stream_managers sys) |}.
Proof.
  intros Hsm Hr. unfold stop_streaming_device. rewrite Hsm. unfold stop. rewrite Hr.
  simpl. done.
Qed.

Lemma stop_fold_spec (ids : list string) :
  forall (t : Tally) (sys : System),
  NoDup ids ->
  (forall i, i ∈ ids ->
     exists sm, stream_managers sys !! i = Some sm /\ is_running sm = true) ->
  let r :=
    fold_left
      (λ acc device_id,
         let (result, sys) := stop_streaming_device cfg w device_id acc.2 in
         (tally acc.1 result, sys))
      ids (t, sys) in
  device_pool r.2 = device_pool sys /\
  (forall i,
     stream_managers r.2 !! i =
       if bool_decide (i ∈ ids) then None else stream_managers sys !! i) /\
  n_succeeded r.1 = n_succeeded t + Z.of_nat (length ids) /\
  n_failed r.1 = n_failed t /\
  length (results r.1) = (length (results t) + length ids)%nat.
Proof.
  induction ids as [|a ids IH]; intros t sys Hnd Hrun.
  - simpl. split_and!; try lia; done.
  - apply NoDup_cons in Hnd as [Ha Hnd].
    cbn [fold_left fst snd].
    destruct (Hrun a) as (sm & Hsm & Hr); [apply elem_of_cons; by left|].
    pose proof (stop_device_running sys a sm Hsm Hr) as Hc. cbv zeta in Hc.
    destruct (stop_streaming_device cfg w a sys) as [result sys1].
    cbn [fst snd] in Hc. destruct Hc as (Hok & Hsys1).
    assert (Hpool : device_pool sys1 = device_pool sys) by (by rewrite Hsys1).
    assert (Hmap : stream_managers sys1 = delete a (stream_managers sys))
      by (by rewrite Hsys1).
    clear Hsys1.
    destruct (tally_counts t result) as (T1 & T2 & T3).
    rewrite Hok in T1, T2. cbn [negb Z.b2z] in T1, T2.
    destruct (IH (tally t result) sys1 Hnd) as (I1 & I2 & I3 & I4 & I5).
    { intros i Hi. destruct (Hrun i) as (x & Hx & Hxr); [apply elem_of_cons; by right|].
      exists x. split; [|done]. rewrite Hmap, lookup_delete_ne; [done|].
      intros ->. by apply Ha. }
    cbn [length]. split_and!; try lia; try congruence.
    intros i. rewrite I2. destruct (decide (i = a)) as [->|Hi].
    + rewrite (bool_decide_eq_false_2 (a ∈ ids)) by done.
      rewrite (bool_decide_eq_true_2 (a ∈ a :: ids)) by (apply elem_of_cons; by left).
      by rewrite Hmap, lookup_delete_eq.
    + rewrite (bool_decide_ext (i ∈ a :: ids) (i ∈ ids)).
      * rewrite Hmap, lookup_delete_ne by done. done.
      * rewrite elem_of_cons. split; [intros [?|?]; [contradiction|assumption] | by right].
Qed.

(** X18. [stop_streaming_all] when every engine held is running (which the
    coordinator maintains): afterwards no engine is held, the registry is
    untouched, and the reply counts every engine as stopped and none as
    failed. *)
Theorem stop_streaming_all_clears (sys : System) :
  engines_running sys ->
  let rs := stop_streaming_all cfg w sys in
  stream_managers rs.2 = ∅ /\
  device_pool rs.2 = device_pool sys /\
  get "total" rs.1 = VInt (Z.of_nat (size (stream_managers sys))) /\
  get "stopped" rs.1 = VInt (Z.of_nat (size (stream_managers sys))) /\
  get "failed" rs.1 = VInt 0.
Proof.
  intros Hrun rs. subst rs. unfold stop_streaming_all, stop_each.
  set (ids := (map_to_list (stream_managers sys)).*1).
  assert (Hin : forall i, i ∈ ids <-> is_Some (stream_managers sys !! i)).
  { intros i. subst ids. rewrite list_elem_of_fmap. split.
    - intros ([k x] & -> & Hkx). apply elem_of_map_to_list in Hkx. eauto.
    - intros [x Hx]. exists (i, x). split; [done|]. by apply elem_of_map_to_list. }
  pose proof (stop_fold_spec ids (mkTally 0 0 []) sys) as Hf. cbv zeta in Hf.
  destruct (fold_left _ ids (mkTally 0 0 [], sys)) as [t sys'].
  cbn [fst snd n_succeeded n_failed results] in *.
  destruct Hf as (F1 & F2 & F3 & F4 & F5).
  { subst ids. apply NoDup_fst_map_to_list. }
  { intros i Hi. apply Hin in Hi as [sm Hsm]. exists sm. split; [done|].
    by apply (Hrun i). }
  assert (Hlen : length ids = size (stream_managers sys)).
  { subst ids. by rewrite length_fmap, length_map_to_list. }
  split_and!.
  - apply map_eq. intros i. rewrite F2, lookup_empty.
    destruct (stream_managers sys !! i) as [sm|] eqn:Hsm; [|by destruct (bool_decide _)].
    rewrite bool_decide_eq_true_2; [done|]. apply Hin. eauto.
  - exact F1.
  - unfold tally_value, get. cbn [dict_get String.eqb Ascii.eqb Bool.eqb].
    by rewrite Hlen.
  - unfold tally_value, get. cbn [dict_get String.eqb Ascii.eqb Bool.eqb].
    rewrite F3, Hlen. done.
  - unfold tally_value, get. cbn [dict_get String.eqb Ascii.eqb Bool.eqb].
    by rewrite F4.
Qed.

Lemma status_path (st : StreamManager) :
  subscript "statistics" (VDict (get_status cfg w st).1)
    = Raise (OtherError "'statistics'") /\
  (result ← subscript "result" (VDict (get_status cfg w st).1);
   statistics ← subscript "statistics" result;
   subscript "total_events_sent" statistics)
    = Ret (VInt (StreamManager.total_events_sent (stats st))).
Proof. split; reflexivity. Qed.

(** X19. [get_all_streaming_status] returns (all zeros) only while no
    engine is held: with any engine it raises KeyError 'statistics', because
    [get_status] keeps the statistics under "result", and
    [get_coordinator_summary] fails with it. *)
Theorem aggregate_status_outcome (server_endpoint : string) (sys : System) :
  (get_all_streaming_status cfg w sys).1 =
    (if bool_decide (stream_managers sys = ∅) then
       Ret {| ss_total_devices_streaming := 0; ss_total_events_sent := 0;
              ss_mode_breakdown := []; ss_devices := [] |}
     else Raise (OtherError "'statistics'")) /\
  (get_coordinator_summary cfg w server_endpoint sys).1 =
    (if bool_decide (stream_managers sys = ∅) then
       Ret {| cs_total_devices_registered :=
                Z.of_nat (size (DevicePool.devices (device_pool sys)));
              cs_total_devices_streaming := 0; cs_total_events_sent := 0;
              cs_mode_breakdown := []; cs_server_url := server_url cfg;
              cs_server_endpoint := server_endpoint |}
     else Raise (OtherError "'statistics'")) /\
  (forall st : StreamManager,
     subscript "statistics" (VDict (get_status cfg w st).1)
       = Raise (OtherError "'statistics'") /\
     (result ← subscript "result" (VDict (get_status cfg w st).1);
      statistics ← subscript "statistics" result;
      subscript "total_events_sent" statistics)
       = Ret (VInt (StreamManager.total_events_sent (stats st)))).
Proof.
  assert (Hall : (get_all_streaming_status cfg w sys).1 =
    (if bool_decide (stream_managers sys = ∅) then
       Ret {| ss_total_devices_streaming := 0; ss_total_events_sent := 0;
              ss_mode_breakdown := []; ss_devices := [] |}
     else Raise (OtherError "'statistics'"))).
  { unfold get_all_streaming_status. cbn [fst].
    destruct (map_to_list (stream_managers sys)) as [|[k sm] l] eqn:Hl.
    - apply map_to_list_empty_iff in Hl. rewrite bool_decide_eq_true_2 by done.
      reflexivity.
    - rewrite bool_decide_eq_false_2.
      + cbn [fmap list_fmap fst snd py_sum].
        destruct (status_path sm) as [-> _]. reflexivity.
      + intros He. rewrite He, map_to_list_empty in Hl. discriminate. }
  split_and!.
  - exact Hall.
  - unfold get_coordinator_summary.
    destruct (get_all_streaming_status cfg w sys) as [r sys'].
    cbn [fst] in *. rewrite Hall.
    destruct (bool_decide (stream_managers sys = ∅)); [|reflexivity].
    cbn. unfold DevicePool.list_devices.
    by rewrite length_fmap, length_map_to_list.
  - apply status_path.
Qed.

End CoordinationAll.

Lemma start_streaming_all_covers_witness :
  let sys := {| Coordinator.device_pool := Scenario.one_device_pool;
                Coordinator.stream_managers := ∅ |} in
  let rs := Coordinator.start_streaming_all Scenario.cfg Scenario.dead_world 24 sys in
  is_Some (Coordinator.stream_managers rs.2 !! "device_001") /\
  get "started" rs.1 = VInt 1.
Proof.
  intros sys rs.
  assert (Hk : Coordinator.keyed_by_id (Coordinator.device_pool sys)).
  { apply keyed_by_id_register, keyed_by_id_empty. }
  pose proof (start_streaming_all_covers Scenario.cfg Scenario.dead_world 24 sys Hk) as H.
  cbv zeta in H. fold rs in H. destruct H as (_ & _ & H3 & _ & _ & H6 & _).
  split.
  - assert (Hinfo : exists info,
              DevicePool.devices (Coordinator.device_pool sys) !! "device_001" = Some info /\
              DevicePool.is_active info = true).
    { eexists. split; vm_compute; reflexivity. }
    destruct Hinfo as (info & H1 & H2). rewrite (H3 _ info H1 H2 eq_refl). eauto.
  - rewrite H6. vm_compute. reflexivity.
Defined.

Lemma stop_streaming_all_clears_witness :
  let sys := {| Coordinator.device_pool := Scenario.one_device_pool;
                Coordinator.stream_managers :=
                  {["device_001" := Scenario.started_engine]} |} in
  Coordinator.stream_managers
    (Coordinator.stop_streaming_all Scenario.cfg Scenario.dead_world sys).2 = ∅.
Proof.
  intros sys.
  assert (Hrun : Coordinator.engines_running sys).
  { intros i sm. cbn [Coordinator.stream_managers sys].
    rewrite lookup_singleton_Some. intros [_ <-]. reflexivity. }
  exact (proj1 (stop_streaming_all_clears Scenario.cfg Scenario.dead_world sys Hrun)).
Defined.

(** ** The registry: bulk registration and the clean-up *)

Section RegistryBulk.

Import DevicePool.
Import DevicePool.

(** The record [register_device] builds for an entry of a batch. *)
Lemma register_entry_cases (i : string) (c : dict) (p : DevicePoolManager) :
  let rs := register_entry (i, c) p in
  match devices p !! i with
  | Some _ => truthy (get "success" rs.1) = false /\ rs.2 = p
  | None =>
      truthy (get "success" rs.1) = true /\
      devices rs.2 =
        <[i := {| device_id := i; device_ip := get "device_ip" c;
                  port := or_default (Some (get_default "port" (VInt 4370) c)) 4370;
                  password := or_default (Some (get_default "password" (VInt 0) c)) 0;
                  timeout := VInt 10; name := get "name" c;
                  location := get "location" c;
                  is_active := true; last_seen := VNone |}]> (devices p)
  end.
Proof.
  unfold register_entry, register_device. cbn [fst snd].
  destruct (devices p !! i) eqn:E; cbn [fst snd]; [done|].
  split; [reflexivity|].
  match goal with |- context [_save_devices ?q] =>
    destruct (save_devices_maps q) as [-> _] end.
  reflexivity.
Qed.

Lemma register_fold_spec (batch : list (string * dict)) :
  forall (r : BulkResult) (p : DevicePoolManager),
  let res :=
    fold_left
      (λ acc entry,
         let (result, p) := register_entry entry acc.2 in
         let r := acc.1 in
         if truthy (get "success" result) then
           (mkBulk (bulk_succeeded r + 1) (bulk_failed r) (bulk_details r ++ [result]), p)
         else
           (mkBulk (bulk_succeeded r) (bulk_failed r + 1) (bulk_details r ++ [result]), p))
      batch (r, p) in
  (forall i,
     devices res.2 !! i =
       match devices p !! i with
       | Some info => Some info
       | None =>
           (λ c, {| device_id := i; device_ip := get "device_ip" c;
                    port := or_default (Some (get_default "port" (VInt 4370) c)) 4370;
                    password :=
                      or_default (Some (get_default "password" (VInt 0) c)) 0;
                    timeout := VInt 10; name := get "name" c;
                    location := get "location" c;
                    is_active := true; last_seen := VNone |}) <$> dict_get i batch
       end) /\
  bulk_succeeded r <= bulk_succeeded res.1 /\
  bulk_succeeded res.1 + bulk_failed res.1 =
    bulk_succeeded r + bulk_failed r + Z.of_nat (length batch) /\
  Z.of_nat (size (devices res.2)) =
    Z.of_nat (size (devices p)) + (bulk_succeeded res.1 - bulk_succeeded r) /\
  length (bulk_details res.1) = (length (bulk_details r) + length batch)%nat.
Proof.
  induction batch as [|[a c] batch IH]; intros r p.
  - cbn [fold_left fst snd dict_get length]. split_and!; try lia.
    intros i. by destruct (devices p !! i).
  - cbn [fold_left fst snd].
    pose proof (register_entry_cases a c p) as Hc. cbv zeta in Hc.
    destruct (register_entry (a, c) p) as [result p1]. cbn [fst snd] in Hc.
    destruct (devices p !! a) as [x|] eqn:Ea.
    + destruct Hc as (-> & ->).
      specialize (IH (mkBulk (bulk_succeeded r) (bulk_failed r + 1)
                        (bulk_details r ++ [result])) p).
      cbv zeta in IH. cbn [bulk_succeeded bulk_failed bulk_details] in IH.
      destruct IH as (I1 & I2 & I3 & I4 & I5).
      rewrite length_app in I5. cbn [length] in *.
      split_and!; try lia.
      intros i. rewrite I1. destruct (devices p !! i) eqn:Ei; [done|].
      cbn [dict_get]. destruct (String.eqb_spec i a) as [->|Hia]; [congruence|done].
    + destruct Hc as (-> & Hd).
      specialize (IH (mkBulk (bulk_succeeded r + 1) (bulk_failed r)
                        (bulk_details r ++ [result])) p1).
      cbv zeta in IH. cbn [bulk_succeeded bulk_failed bulk_details] in IH.
      destruct IH as (I1 & I2 & I3 & I4 & I5).
      rewrite length_app in I5. cbn [length] in *.
      rewrite Hd in I4. rewrite map_size_insert_None in I4 by done.
      split_and!; try lia.
      intros i. rewrite I1, Hd. cbn [dict_get].
      destruct (String.eqb_spec i a) as [->|Hia].
      * rewrite lookup_insert_eq, Ea. done.
      * rewrite lookup_insert_ne by done. done.
Qed.

(** X20. [register_devices_bulk]: a device registered before keeps its
    record; an id that was not registered gets the record built from its
    first entry in the batch (with port 4370 and password 0 where the entry
    has none or null); no other id is added.  The reply counts one result
    per entry, succeeded + failed = total, and the registry grows by
    exactly the number of entries that succeeded. *)
Theorem register_devices_bulk_contract (batch : list (string * dict))
    (p : DevicePoolManager) :
  let rs := register_devices_bulk batch p in
  (forall i,
     devices rs.2 !! i =
       match devices p !! i with
       | Some info => Some info
       | None =>
           (λ c, {| device_id := i; device_ip := get "device_ip" c;
                    port := or_default (Some (get_default "port" (VInt 4370) c)) 4370;
                    password :=
                      or_default (Some (get_default "password" (VInt 0) c)) 0;
                    timeout := VInt 10; name := get "name" c;
                    location := get "location" c;
                    is_active := true; last_seen := VNone |}) <$> dict_get i batch
       end) /\
  exists succeeded failed details,
    rs.1 = [("total", VInt (Z.of_nat (length batch)));
            ("succeeded", VInt succeeded); ("failed", VInt failed);
            ("details", VList (VDict <$> details))] /\
    0 <= succeeded /\
    succeeded + failed = Z.of_nat (length batch) /\
    length details = length batch /\
    Z.of_nat (size (devices rs.2)) = Z.of_nat (size (devices p)) + succeeded.
Proof.
  intros rs. subst rs. unfold register_devices_bulk, register_each.
  pose proof (register_fold_spec batch (mkBulk 0 0 []) p) as Hf. cbv zeta in Hf.
  destruct (fold_left _ batch (mkBulk 0 0 [], p)) as [r p'].
  cbn [fst snd bulk_succeeded bulk_failed bulk_details length] in *.
  destruct Hf as (F1 & F2 & F3 & F4 & F5).
  split; [exact F1|].
  exists (bulk_succeeded r), (bulk_failed r), (bulk_details r).
  split_and!; try lia; done.
Qed.

Lemma fold_deadlock (ids : list string) :
  fold_left
    (λ (acc : Locked DevicePoolManager) device_id,
       match acc with
       | Done p =>
           match unregister_device_locked true device_id p with
           | Done rp => Done rp.2
           | Deadlock => Deadlock
           end
       | Deadlock => Deadlock
       end) ids Deadlock = Deadlock.
Proof. induction ids as [|a ids IH]; [done|]. exact IH. Qed.

(** X21. [cleanup_inactive_devices] never removes a device: when no record
    is stale it returns with the registry as it was; when some record is
    stale (an integer last_seen, not zero, below the cut-off) the first
    [unregister_device] waits for the lock the clean-up itself holds, so
    the call never returns. *)
Theorem cleanup_never_removes (now_ms inactive_hours : Z) (held : bool)
    (p : DevicePoolManager) :
  cleanup_inactive_devices now_ms inactive_hours held p =
    if held ||
       existsb (λ kv, stale (Z.quot (now_ms - inactive_hours * 3600 * 1000) 1000)
                        (last_seen kv.2))
         (map_to_list (devices p))
    then Deadlock else Done p.
Proof.
  unfold cleanup_inactive_devices, with_lock. destruct held; [done|]. cbn [orb].
  induction (map_to_list (devices p)) as [|kv l IH]; [done|].
  cbn [List.filter existsb].
  destruct (stale _ (last_seen kv.2)); cbn [orb]; [|exact IH].
  cbn [fmap list_fmap fold_left unregister_device_locked with_lock].
  apply fold_deadlock.
Qed.

End RegistryBulk.

(** ** The device core: creating users *)

Section UsersMore.

Import Essl.
Import Essl.

Variable py_str : value -> string.

Lemma store_user_fresh (u : User) (us : list User) :
  (forall v, In v us -> uid v <> uid u) -> store_user u us = us ++ [u].
Proof.
  induction us as [|v us IH]; intros Hf; [done|]. cbn [store_user app].
  destruct (Z.eqb_spec (uid v) (uid u)) as [He|_].
  - exfalso. apply (Hf v); [by left | exact He].
  - f_equal. apply IH. intros x Hx. apply Hf. by right.
Qed.

Lemma fold_max_ge (zs : list Z) (z : Z) :
  z <= fold_left Z.max zs z /\ forall x, In x zs -> x <= fold_left Z.max zs z.
Proof.
  revert z. induction zs as [|a zs IH]; intros z; cbn [fold_left].
  - split; [lia | intros x []].
  - destruct (IH (Z.max z a)) as [H1 H2]. split; [lia|].
    intros x [<- | Hx]; [lia | by apply H2].
Qed.

(** The uid [next_uid] hands out is above every uid in use, when uids are
    not negative. *)
Lemma next_uid_above (us : list UserDict) (n : Z) :
  (forall u, In u us -> 0 <= d_uid u) ->
  next_uid us = Ret n ->
  1 <= n /\ forall u, In u us -> d_uid u < n.
Proof.
  intros Hpos. unfold next_uid. destruct us as [|u0 us0]; [intros [= <-]; split; [lia|intros ? []]|].
  set (us := u0 :: us0) in *.
  destruct (List.filter (λ z, negb (z =? 0)) (List.map d_uid us)) as [|z zs] eqn:Hf;
    [discriminate|].
  intros [= <-]. destruct (fold_max_ge zs z) as [H1 H2].
  assert (Hz : forall x, In x (z :: zs) -> 0 < x).
  { intros x Hx. rewrite <- Hf in Hx. apply List.filter_In in Hx as [Hx Hnz].
    apply List.in_map_iff in Hx as (u & <- & Hu). specialize (Hpos u Hu).
    destruct (Z.eqb_spec (d_uid u) 0); [discriminate | lia]. }
  assert (0 < z) by (apply Hz; by left).
  split; [lia|]. intros u Hu.
  destruct (Z.eqb_spec (d_uid u) 0) as [->|Hnz]; [lia|].
  assert (Hin : In (d_uid u) (z :: zs)).
  { rewrite <- Hf. apply List.filter_In. split; [by apply List.in_map|].
    destruct (Z.eqb_spec (d_uid u) 0); [contradiction | done]. }
  destruct Hin as [<- | Hin]; [lia|]. specialize (H2 _ Hin). lia.
Qed.

Lemma find_last_uid (us : list User) (u : User) :
  (forall v, In v us -> uid v <> uid u) ->
  List.find (λ d, py_eqb (VInt (d_uid d)) (VInt (uid u)))
    (List.map (to_user_dict py_str) (us ++ [u]))
  = Some (to_user_dict py_str u).
Proof.
  induction us as [|v us IH]; intros Hf; cbn [app List.map List.find py_eqb to_user_dict d_uid].
  - by rewrite Z.eqb_refl.
  - destruct (Z.eqb_spec (uid v) (uid u)) as [He|_].
    + exfalso. apply (Hf v); [by left | exact He].
    + apply IH. intros x Hx. apply Hf. by right.
Qed.

(** X22. [create_user] on an open session whose driver calls succeed, for
    a user id no stored user decodes to, with uids that are not negative
    and, when there are users, at least one that is not zero: the uid
    handed out is at least 1 and above every uid in use (1 on an empty
    terminal), exactly one record is written, to a free slot, with the
    fields given (an empty or missing password is written as ""), the
    stored users are otherwise unchanged, and [get_user_by_uid] on that uid
    then returns the new user. *)
Theorem create_user_assigns_fresh_uid (core : ESSLDeviceCore) (c : ZKConn)
    (user_id' name' privilege' password' card' : value) :
  conn core = Some c ->
  zk_get_users_ok c = true ->
  zk_set_user_ok c = true ->
  (forall u, In u (zk_users c) -> 0 <= uid u) ->
  (zk_users c = [] \/ exists u, In u (zk_users c) /\ uid u <> 0) ->
  (forall u, In u (zk_users c) ->
     py_eqb (_decode_bytes py_str (user_id u)) user_id' = false) ->
  exists n,
    let new :=
      {| uid := n; user_id := user_id'; name := name'; privilege := privilege';
         password := if truthy password' then password' else VStr "";
         card := card' |} in
    let rc := create_user py_str core user_id' name' privilege' password' card' in
    1 <= n /\
    (forall u, In u (zk_users c) -> uid u < n) /\
    (zk_users c = [] -> n = 1) /\
    rc.1 = Ret [("success", VBool true);
                ("message", VStr ("User " +:+ py_str user_id' +:+ " created successfully"));
                ("uid", VInt n); ("user_id", user_id')] /\
    (exists c', conn rc.2 = Some c' /\
                zk_users c' = zk_users c ++ [new] /\
                zk_writes c' = zk_writes c ++ [new] /\
                zk_attendance c' = zk_attendance c) /\
    get_user_by_uid py_str rc.2 (VInt n) = Ret (Some (to_user_dict py_str new)).
Proof.
  intros Hc Hget Hset Hpos Hnz Hnew.
  assert (Hdup : existsb (λ u, py_eqb (d_user_id u) user_id')
                   (List.map (to_user_dict py_str) (zk_users c)) = false).
  { apply not_true_is_false. intros He. apply existsb_exists in He as (d & Hd & Hq).
    apply List.in_map_iff in Hd as (u & <- & Hu). cbn [to_user_dict d_user_id] in Hq.
    rewrite (Hnew u Hu) in Hq. discriminate. }
  assert (Hnext : exists n, next_uid (List.map (to_user_dict py_str) (zk_users c)) = Ret n).
  { unfold next_uid. destruct Hnz as [-> | (u & Hu & Hu0)]; [by exists 1|].
    destruct (List.map (to_user_dict py_str) (zk_users c)) as [|d ds] eqn:Hm.
    { destruct (zk_users c); [destruct Hu | discriminate]. }
    rewrite <- Hm.
    destruct (List.filter _ (List.map d_uid (List.map (to_user_dict py_str) (zk_users c))))
      as [|z zs] eqn:Hf; [|eauto].
    exfalso. assert (Hin : In (uid u) []); [|destruct Hin].
    rewrite <- Hf. apply List.filter_In. split.
    - rewrite List.map_map. apply List.in_map_iff. exists u. done.
    - destruct (Z.eqb_spec (uid u) 0); [contradiction | done]. }
  destruct Hnext as (n & Hn).
  destruct (next_uid_above (List.map (to_user_dict py_str) (zk_users c)) n)
    as (Hn1 & Hn2); [|exact Hn|].
  { intros d Hd. apply List.in_map_iff in Hd as (u & <- & Hu). by apply Hpos. }
  assert (Hlt : forall u, In u (zk_users c) -> uid u < n).
  { intros u Hu. apply (Hn2 (to_user_dict py_str u)). by apply List.in_map. }
  exists n. intros new rc.
  assert (Hstore : store_user new (zk_users c) = zk_users c ++ [new]).
  { apply store_user_fresh. intros v Hv. specialize (Hlt v Hv). subst new. simpl. lia. }
  assert (Hrc : rc =
    (Ret [("success", VBool true);
          ("message", VStr ("User " +:+ py_str user_id' +:+ " created successfully"));
          ("uid", VInt n); ("user_id", user_id')],
     with_conn core
       {| zk_users := zk_users c ++ [new]; zk_attendance := zk_attendance c;
          zk_get_users_ok := zk_get_users_ok c;
          zk_get_attendance_ok := zk_get_attendance_ok c;
          zk_set_user_ok := zk_set_user_ok c;
          zk_writes := zk_writes c ++ [new] |})).
  { subst rc. unfold create_user, get_users, _ensure_connected. rewrite Hc.
    cbn [mbind outcome_bind]. rewrite Hget. cbn [rewrap mbind outcome_bind mret outcome_ret].
    rewrite Hdup, Hn. unfold set_user. rewrite Hset. fold new. rewrite Hstore.
    rewrite ?Hget, ?Hset. reflexivity. }
  rewrite Hrc. cbn [fst snd].
  split_and!; try done.
  - intros He. rewrite He in Hn. cbn in Hn. by injection Hn as <-.
  - eexists. split; [reflexivity|]. done.
  - unfold get_user_by_uid, get_users, _ensure_connected, with_conn.
    cbn [conn mbind outcome_bind zk_get_users_ok zk_users]. rewrite Hget.
    cbn [rewrap mbind outcome_bind mret outcome_ret]. f_equal.
    apply (find_last_uid (zk_users c) new).
    intros v Hv. specialize (Hlt v Hv). subst new. simpl. lia.
Qed.

(** X23. Whatever [create_user] is given, an exception it raises is a
    DeviceError and nothing has been written to the terminal; this is what
    happens when there is no session, when a stored user already decodes to
    the user id, and when there are users but every uid is 0. *)
Theorem create_user_failure (core : ESSLDeviceCore)
    (user_id' name' privilege' password' card' : value) (e : exn) :
  let rc := create_user py_str core user_id' name' privilege' password' card' in
  rc.1 = Raise e ->
  rc.2 = core /\
  (exists msg, e = DeviceError msg) /\
  (conn core = None ->
     e = DeviceError "Not connected to device. Call connect() first.") /\
  (forall c u, conn core = Some c -> zk_get_users_ok c = true ->
     In u (zk_users c) -> py_eqb (_decode_bytes py_str (user_id u)) user_id' = true ->
     e = DeviceError ("User ID '" +:+ py_str user_id' +:+ "' already exists")).
Proof.
  intros rc. subst rc. unfold create_user, _ensure_connected.
  destruct (conn core) as [c|] eqn:Hc.
  2:{ cbn [fst snd]. intros [= <-]. split_and!; eauto; done. }
  unfold get_users, _ensure_connected. rewrite Hc. cbn [mbind outcome_bind].
  destruct (zk_get_users_ok c) eqn:Hget; cbn [rewrap mbind outcome_bind mret outcome_ret].
  2:{ cbn [fst snd rewrap_others]. intros [= <-]. split_and!; eauto; try done.
      intros c0 u [= <-]. congruence. }
  destruct (existsb _ (List.map (to_user_dict py_str) (zk_users c))) eqn:Hdup.
  { cbn [fst snd rewrap_others]. intros [= <-]. split_and!; eauto; done. }
  assert (Hno : forall c0 u, Some c = Some c0 -> zk_get_users_ok c0 = true ->
            In u (zk_users c0) ->
            py_eqb (_decode_bytes py_str (user_id u)) user_id' = true -> False).
  { intros c0 u [= <-] _ Hu Hq.
    assert (existsb (λ u, py_eqb (d_user_id u) user_id')
              (List.map (to_user_dict py_str) (zk_users c)) = true); [|congruence].
    apply existsb_exists. exists (to_user_dict py_str u). split; [by apply List.in_map|].
    exact Hq. }
  destruct (next_uid _) as [n|e'] eqn:Hn.
  2:{ cbn [fst snd]. destruct e'; cbn [rewrap_others rewrap]; intros [= <-];
        (split_and!; eauto; try done; intros c0 u H1 H2 H3 H4;
         destruct (Hno c0 u H1 H2 H3 H4)). }
  unfold set_user. destruct (zk_set_user_ok c); cbn [fst snd rewrap_others rewrap].
  - discriminate.
  - intros [= <-]. split_and!; eauto; try done.
    intros c0 u H1 H2 H3 H4. destruct (Hno c0 u H1 H2 H3 H4).
Qed.

End UsersMore.

Lemma create_user_assigns_fresh_uid_witness :
  (Essl.create_user Scenario.str_of_scalar (Scenario.terminal [Scenario.alice] [])
     (VStr "1002") (VStr "Bob") (VInt 0) VNone VNone).1
  = Ret [("success", VBool true); ("message", VStr "User 1002 created successfully");
         ("uid", VInt 2); ("user_id", VStr "1002")].
Proof.
  destruct (create_user_assigns_fresh_uid Scenario.str_of_scalar
              (Scenario.terminal [Scenario.alice] [])
              (Essl.mkConn [Scenario.alice] [] true true true [])
              (VStr "1002") (VStr "Bob") (VInt 0) VNone VNone
              eq_refl eq_refl eq_refl)
    as (n & H).
  - intros u [<- | []]. vm_compute. discriminate.
  - right. exists Scenario.alice. split; [by left | vm_compute; discriminate].
  - intros u [<- | []]. reflexivity.
  - cbv zeta in H. destruct H as (_ & _ & _ & H & _). vm_compute. reflexivity.
Defined.

Lemma create_user_failure_witness :
  (Essl.create_user Scenario.str_of_scalar (Scenario.terminal [Scenario.alice] [])
     (VStr "1001") (VStr "Eve") (VInt 0) VNone VNone).2
  = Scenario.terminal [Scenario.alice] [].
Proof.
  exact (proj1 (create_user_failure Scenario.str_of_scalar
                  (Scenario.terminal [Scenario.alice] [])
                  (VStr "1001") (VStr "Eve") (VInt 0) VNone VNone
                  (DeviceError "User ID '1001' already exists") eq_refl)).
Defined.

(** ** The registry: running an operation on a device *)

Section ExecuteOnDevice.

Import DevicePool.
Import DevicePool.

Variable py_str : value -> string.
Variable py_int : value -> Essl.IntResult.
Variable zk_connect : value -> Z -> Z -> outcome Essl.ZKConn.
Variable attribute : string -> Essl.ESSLDeviceCore -> option Method.

Lemma option_Forall2_weaken {A B : Type} (P Q : A -> B -> Prop)
    (x : option A) (y : option B) :
  option_Forall2 P x y -> (forall a b, P a b -> Q a b) -> option_Forall2 Q x y.
Proof. intros [a b H|] HPQ; constructor; auto. Qed.

(** [connection] leaves the core without a session, whatever the body
    does and whether or not the session was open before. *)
Lemma connection_disconnects {A : Type}
    (body : Essl.ESSLDeviceCore -> outcome A * Essl.ESSLDeviceCore)
    (core : Essl.ESSLDeviceCore) :
  Essl.conn (Essl.connection py_str py_int zk_connect body core).2 = None.
Proof.
  unfold Essl.connection.
  destruct (Essl.connect py_str py_int zk_connect core) as [[[]|e] core1].
  - destruct (body core1) as [r core2]. reflexivity.
  - reflexivity.
Qed.

Lemma resolve_home (i : string) (p : DevicePoolManager)
    (home : option string) (core : Essl.ESSLDeviceCore) :
  resolve i p = Some (home, core) ->
  match home with
  | Some k => device_cores p !! k = Some core /\ (k = i \/ devices p !! i = None)
  | None => devices p !! i = None
  end.
Proof.
  unfold resolve. destruct (devices p !! i) as [info|] eqn:Ei.
  - rewrite bool_decide_eq_true_2 by eauto.
    destruct (device_cores p !! i) as [c|] eqn:Ec; [|discriminate].
    intros [= <- <-]. split; [exact Ec | by left].
  - rewrite bool_decide_eq_false_2 by (intros [? ?]; discriminate).
    destruct (List.find _ (map_to_list (devices p))) as [kv|].
    + destruct (device_cores p !! kv.1) as [c|] eqn:Ec; [|discriminate].
      intros [= <- <-]. split; [exact Ec | by right].
    + intros [= <- <-]. reflexivity.
Qed.

Lemma update_last_seen_devices (now : Z) (i j : string) (p : DevicePoolManager) :
  devices (_update_last_seen now i p) !! j =
    if decide (j = i) then
      (λ d, {| device_id := device_id d; device_ip := device_ip d; port := port d;
               password := password d; timeout := timeout d; name := name d;
               location := location d; is_active := is_active d;
               last_seen := VInt now |}) <$> devices p !! j
    else devices p !! j.
Proof.
  unfold _update_last_seen. destruct (decide (j = i)) as [->|Hj].
  - destruct (devices p !! i) as [d|] eqn:Ei; cbn [devices].
    + by rewrite lookup_insert_eq.
    + by rewrite Ei.
  - destruct (devices p !! i) as [d|] eqn:Ei; cbn [devices]; [|done].
    by rewrite lookup_insert_ne.
Qed.

Lemma update_last_seen_rest (now : Z) (i : string) (p : DevicePoolManager) :
  device_cores (_update_last_seen now i p) = device_cores p /\
  data_file (_update_last_seen now i p) = data_file p /\
  (devices p !! i = None -> _update_last_seen now i p = p).
Proof.
  unfold _update_last_seen. destruct (devices p !! i); cbn; split_and!; done.
Qed.

(** X24. Whatever the identifier, the operation, the driver and the method
    do, [execute_on_device] answers with a mapping that names the identifier
    and has a boolean "success"; it adds and removes no device, and changes
    no record but for last_seen, which it sets to the current time only on
    the identified device and only on success; a call routed by address (an
    identifier that is not a device id) never updates last_seen; the saved
    file is untouched; and every core that was touched is left without a
    session, even when it had one before and even when the method raised. *)
Theorem execute_on_device_effects (now : Z) (i operation : string) (kwargs : dict)
    (p : DevicePoolManager) :
  let rp := execute_on_device py_str py_int zk_connect attribute now i operation kwargs p in
  get "device_id" rp.1 = VStr i /\
  (exists b, get "success" rp.1 = VBool b) /\
  data_file rp.2 = data_file p /\
  (forall j,
     option_Forall2
       (λ a b, same_but_last_seen a b /\
               (last_seen b = last_seen a \/
                j = i /\ get "success" rp.1 = VBool true /\ last_seen b = VInt now))
       (devices p !! j) (devices rp.2 !! j)) /\
  (devices p !! i = None -> devices rp.2 = devices p) /\
  (forall j,
     option_Forall2 (λ a b, b = a \/ Essl.conn b = None)
       (device_cores p !! j) (device_cores rp.2 !! j)) /\
  (forall core,
     is_Some (devices p !! i) -> device_cores p !! i = Some core ->
     exists core', device_cores rp.2 !! i = Some core' /\ Essl.conn core' = None).
Proof.
  intros rp. subst rp. unfold execute_on_device.
  assert (Hsame : forall j,
            option_Forall2
              (λ a b, same_but_last_seen a b /\
                      (last_seen b = last_seen a \/ False))
              (devices p !! j) (devices p !! j)).
  { intros j. destruct (devices p !! j); constructor.
    unfold same_but_last_seen. split_and!; auto. }
  assert (Hcores0 : forall j,
            option_Forall2 (λ a b : Essl.ESSLDeviceCore, b = a \/ Essl.conn b = None)
              (device_cores p !! j) (device_cores p !! j)).
  { intros j. destruct (device_cores p !! j); constructor. by left. }
  destruct (resolve i p) as [[home core]|] eqn:Hres.
  2:{ cbn [fst snd]. split_and!; eauto.
      - intros j. eapply option_Forall2_weaken; [apply Hsame|].
        intros a b (? & [?|[]]). split; [done | by left].
      - intros core Hd Hc. unfold resolve in Hres.
        rewrite bool_decide_eq_true_2, Hc in Hres by done. discriminate. }
  pose proof (resolve_home i p home core Hres) as Hhome.
  pose proof (connection_disconnects
                (λ core0,
                   match attribute operation core0 with
                   | Some method =>
                       let (result, core1) := method (method_kwargs kwargs) core0 in
                       (Some <$> result, core1)
                   | None => (Ret None, core0)
                   end) core) as Hconn.
  destruct (Essl.connection py_str py_int zk_connect _ core) as [r core'].
  cbn [snd] in Hconn.
  set (p1 := keep_core home core' p).
  assert (Hp1d : devices p1 = devices p) by (subst p1; by destruct home).
  assert (Hp1f : data_file p1 = data_file p) by (subst p1; by destruct home).
  assert (Hp1c : forall j,
            option_Forall2 (λ a b : Essl.ESSLDeviceCore, b = a \/ Essl.conn b = None)
              (device_cores p !! j) (device_cores p1 !! j)).
  { intros j. subst p1. destruct home as [k|]; cbn [keep_core device_cores];
      [|apply Hcores0].
    destruct Hhome as [Hk _]. destruct (decide (j = k)) as [->|Hj].
    - rewrite Hk, lookup_insert_eq. constructor. by right.
    - rewrite lookup_insert_ne by done. apply Hcores0. }
  assert (Hp1i : forall c0, is_Some (devices p !! i) -> device_cores p !! i = Some c0 ->
            exists core'', device_cores p1 !! i = Some core'' /\ Essl.conn core'' = None).
  { intros c0 [info Hd] Hc. subst p1. destruct home as [k|].
    - destruct Hhome as [Hk [-> | Hn]]; [|congruence].
      cbn [keep_core device_cores]. rewrite lookup_insert_eq. eauto.
    - congruence. }
  assert (Hfail : forall d : dict,
            get "device_id" d = VStr i -> get "success" d = VBool false ->
            let rp := (d, p1) in
            get "device_id" rp.1 = VStr i /\
            (exists b, get "success" rp.1 = VBool b) /\
            data_file rp.2 = data_file p /\
            (forall j,
               option_Forall2
                 (λ a b, same_but_last_seen a b /\
                         (last_seen b = last_seen a \/
                          j = i /\ get "success" rp.1 = VBool true /\
                          last_seen b = VInt now))
                 (devices p !! j) (devices rp.2 !! j)) /\
            (devices p !! i = None -> devices rp.2 = devices p) /\
            (forall j,
               option_Forall2 (λ a b, b = a \/ Essl.conn b = None)
                 (device_cores p !! j) (device_cores rp.2 !! j)) /\
            (forall core,
               is_Some (devices p !! i) -> device_cores p !! i = Some core ->
               exists core', device_cores rp.2 !! i = Some core' /\
                             Essl.conn core' = None)).
  { intros d Hid Hs rp. subst rp. cbn [fst snd]. split_and!; eauto.
    intros j. rewrite Hp1d. eapply option_Forall2_weaken; [apply Hsame|].
    intros a b (? & [?|[]]). split; [done | by left]. }
  destruct r as [[result|]|e].
  - cbn [fst snd].
    destruct (update_last_seen_rest now i p1) as (U1 & U2 & U3).
    split_and!; eauto.
    + congruence.
    + intros j. rewrite update_last_seen_devices, Hp1d.
      destruct (decide (j = i)) as [->|Hj].
      * destruct (devices p !! i) as [a|]; constructor.
        unfold same_but_last_seen. cbn. split_and!; auto.
      * eapply option_Forall2_weaken; [apply Hsame|].
        intros a b (? & [?|[]]). split; [done | by left].
    + intros Hn. rewrite U3; [done|]. by rewrite Hp1d.
    + intros j. rewrite U1. apply Hp1c.
    + intros c0 Hd Hc. rewrite U1. by apply (Hp1i c0).
  - apply Hfail; reflexivity.
  - destruct e; apply Hfail; reflexivity.
Qed.

Lemma find_none {A : Type} (f : A -> bool) (l : list A) :
  (forall x, In x l -> f x = false) -> List.find f l = None.
Proof.
  induction l as [|a l IH]; intros H; [done|]. cbn [List.find].
  rewrite (H a) by (by left). apply IH. intros x Hx. apply H. by right.
Qed.

(** X25. An identifier that is neither a registered id nor the address of a
    registered device is not reported as unknown: it is taken as an address
    and dialled on port 4370 with password 0.  When that connection fails
    the answer is the connection error; when it succeeds the operation runs
    on the nameless core.  The registry is left exactly as it was. *)
Theorem unknown_identifier_is_dialled (now : Z) (i operation : string) (kwargs : dict)
    (p : DevicePoolManager) :
  devices p !! i = None ->
  (forall j info, devices p !! j = Some info ->
     py_eqb (device_ip info) (VStr i) = false) ->
  py_int (VInt 4370) = Essl.IntOk 4370 ->
  py_int (VInt 0) = Essl.IntOk 0 ->
  let rp := execute_on_device py_str py_int zk_connect attribute now i operation kwargs p in
  rp.2 = p /\
  match zk_connect (VStr i) 4370 0 with
  | Raise e =>
      rp.1 = [("success", VBool false);
              ("error",
               VStr ("Failed to connect to " +:+
                     (py_str (VStr i) +:+ ":" +:+ py_str (VInt 4370)) +:+
                     " - " +:+ exn_msg e));
              ("device_id", VStr i); ("operation", VStr operation)]
  | Ret c =>
      let core := {| Essl.device_ip := VStr i; Essl.port := VInt 4370;
                     Essl.core_password := VInt 0; Essl.conn := Some c |} in
      match attribute operation core with
      | None =>
          rp.1 = [("success", VBool false);
                  ("error", VStr ("Unknown operation: " +:+ operation));
                  ("device_id", VStr i)]
      | Some method =>
          match (method (method_kwargs kwargs) core).1 with
          | Ret result =>
              rp.1 = [("success", VBool true); ("device_id", VStr i);
                      ("operation", VStr operation); ("result", result)]
          | Raise _ => get "success" rp.1 = VBool false
          end
      end
  end.
Proof.
  intros Hi Hip Hport Hpw rp. subst rp.
  assert (Hres : resolve i p =
            Some (None, {| Essl.device_ip := VStr i; Essl.port := VInt 4370;
                           Essl.core_password := VInt 0; Essl.conn := None |})).
  { unfold resolve. rewrite Hi.
    rewrite bool_decide_eq_false_2 by (intros [? ?]; discriminate).
    rewrite find_none; [done|]. intros [j info] Hin. cbn [snd].
    apply (Hip j). apply elem_of_map_to_list. by apply list_elem_of_In. }
  unfold execute_on_device. rewrite Hres.
  unfold Essl.connection, Essl.connect.
  cbn [Essl.conn Essl.port Essl.core_password Essl.device_ip is_none].
  rewrite Hport, Hpw.
  destruct (zk_connect (VStr i) 4370 0) as [c|e].
  - cbn [Essl.with_conn Essl.conn Essl.port Essl.core_password Essl.device_ip].
    cbv zeta.
    destruct (attribute operation _) as [method|]; [|by split].
    destruct (method (method_kwargs kwargs) _) as [[result|e] core2]; cbn [fst snd fmap outcome_fmap keep_core].
    + split; [|reflexivity]. apply update_last_seen_rest. exact Hi.
    + split; [by destruct e | by destruct e].
  - cbn [fst snd keep_core]. split; reflexivity.
Qed.

Lemma method_kwargs_get (kwargs : dict) (k : string) :
  dict_get k (method_kwargs kwargs) =
    if existsb (String.eqb k) routing_params then None else dict_get k kwargs.
Proof.
  unfold method_kwargs. induction kwargs as [|[k' v] kwargs IH].
  - by destruct (existsb _ _).
  - cbn [List.filter fst]. destruct (String.eqb_spec k k') as [<-|Hk].
    + destruct (existsb (String.eqb k) routing_params) eqn:Hr; cbn [negb].
      * exact IH.
      * cbn [dict_get]. by rewrite String.eqb_refl.
    + destruct (existsb (String.eqb k') routing_params); cbn [negb].
      * rewrite IH. cbn [dict_get]. apply String.eqb_neq in Hk. by rewrite Hk.
      * cbn [dict_get]. apply String.eqb_neq in Hk. rewrite Hk. exact IH.
Qed.

(** X26. An operation on a registered device whose core is at rest, when
    the terminal accepts the connection and the method returns: the method
    is called on the connected core with the parameters given, less
    device_id, device_ip and agent_id; the answer carries its result; the
    record's last_seen becomes the current time; and the core kept by the
    registry is what the method left, with the session closed. *)
Theorem execute_on_registered_device (now : Z) (i operation : string) (kwargs : dict)
    (p : DevicePoolManager) (info : DeviceInfo) (core core2 : Essl.ESSLDeviceCore)
    (port_int password_int : Z) (c : Essl.ZKConn) (method : Method) (result : value) :
  devices p !! i = Some info ->
  device_cores p !! i = Some core ->
  Essl.conn core = None ->
  is_none (Essl.port core) = false ->
  is_none (Essl.core_password core) = false ->
  py_int (Essl.port core) = Essl.IntOk port_int ->
  py_int (Essl.core_password core) = Essl.IntOk password_int ->
  zk_connect (Essl.device_ip core) port_int password_int = Ret c ->
  attribute operation (Essl.with_conn core c) = Some method ->
  method (method_kwargs kwargs) (Essl.with_conn core c) = (Ret result, core2) ->
  let rp := execute_on_device py_str py_int zk_connect attribute now i operation kwargs p in
  rp.1 = [("success", VBool true); ("device_id", VStr i);
          ("operation", VStr operation); ("result", result)] /\
  (exists info', devices rp.2 !! i = Some info' /\ last_seen info' = VInt now /\
                 same_but_last_seen info info') /\
  device_cores rp.2 !! i = Some (Essl.disconnect core2) /\
  (forall k, dict_get k (method_kwargs kwargs) =
               if existsb (String.eqb k) routing_params then None
               else dict_get k kwargs).
Proof.
  intros Hd Hc Hconn Hpo Hpw Hpi Hwi Hzk Hattr Hm rp. subst rp.
  unfold execute_on_device, resolve. rewrite Hd.
  rewrite bool_decide_eq_true_2 by eauto. rewrite Hc. cbn [fmap option_fmap option_map].
  unfold Essl.connection, Essl.connect. rewrite Hconn, Hpo, Hpw, Hpi, Hwi, Hzk.
  rewrite Hattr, Hm. cbn [fst snd fmap outcome_fmap].
  split_and!.
  - reflexivity.
  - rewrite update_last_seen_devices. rewrite decide_True by done.
    cbn [keep_core devices]. rewrite Hd. cbn [fmap option_fmap option_map].
    eexists. split; [reflexivity|]. split; [reflexivity|].
    unfold same_but_last_seen. cbn. split_and!; reflexivity.
  - destruct (update_last_seen_rest now i
                (keep_core (Some i) (Essl.disconnect core2) p)) as (-> & _).
    cbn [keep_core device_cores]. by rewrite lookup_insert_eq.
  - apply method_kwargs_get.
Qed.

End ExecuteOnDevice.

Lemma unknown_identifier_is_dialled_witness :
  (DevicePool.execute_on_device Scenario.str_of_scalar Scenario.int_of_scalar
     Scenario.unreachable Scenario.one_method 1700000000 "device_999" "get_users" []
     Scenario.one_device_pool).2 = Scenario.one_device_pool.
Proof.
  refine (proj1 (unknown_identifier_is_dialled Scenario.str_of_scalar
                   Scenario.int_of_scalar Scenario.unreachable Scenario.one_method
                   1700000000 "device_999" "get_users" [] Scenario.one_device_pool
                   eq_refl _ eq_refl eq_refl)).
  intros j info Hj.
  assert (Hd : DevicePool.devices Scenario.one_device_pool !! j = Some info ->
               DevicePool.device_ip info = VStr "10.0.0.5").
  { assert (He : DevicePool.devices Scenario.one_device_pool =
                   {[ "device_001" :=
                        DevicePool.mkDeviceInfo "device_001" (VStr "10.0.0.5") (VInt 4370)
                          (VInt 0) (VInt 10) VNone VNone true VNone ]})
      by (vm_compute; reflexivity).
    rewrite He, lookup_singleton_Some. by intros [_ <-]. }
  rewrite (Hd Hj). reflexivity.
Defined.

Lemma execute_on_registered_device_witness :
  get "success"
    (DevicePool.execute_on_device Scenario.str_of_scalar Scenario.int_of_scalar
       Scenario.reachable Scenario.one_method 1700000000 "device_001" "get_users"
       [("device_id", VStr "device_001")] Scenario.one_device_pool).1 = VBool true.
Proof.
  assert (H : exists info core,
            DevicePool.devices Scenario.one_device_pool !! "device_001" = Some info /\
            DevicePool.device_cores Scenario.one_device_pool !! "device_001" = Some core /\
            core = Essl.mkCore (VStr "10.0.0.5") (VInt 4370) (VInt 0) None).
  { eexists _, _. split_and!; vm_compute; reflexivity. }
  destruct H as (info & core & Hd & Hc & ->).
  pose proof (execute_on_registered_device Scenario.str_of_scalar
                Scenario.int_of_scalar Scenario.reachable Scenario.one_method
                1700000000 "device_001" "get_users" [("device_id", VStr "device_001")]
                Scenario.one_device_pool info _ _ 4370 0 Scenario.session
                (fun _ core => (Ret (VList []), core)) (VList [])
                Hd Hc eq_refl eq_refl eq_refl eq_refl eq_refl eq_refl eq_refl eq_refl)
    as (H1 & _).
  rewrite H1. reflexivity.
Defined.

(** ** The device core: connecting, and unlocking the door *)

Section ConnectionContract.

Import Essl.
Import Essl.

Variable py_str : value -> string.
Variable py_int : value -> IntResult.
Variable zk_connect : value -> Z -> Z -> outcome ZKConn.
Variable zk_unlock : ZKConn -> Z -> outcome unit.

(** X27. [connect] either returns with a session open, or raises a
    DeviceError and leaves the core without one; it changes nothing else
    of the core, does nothing at all on a core that has a session, opens
    the session the driver returns for the address, port and password of
    the core, and fails when the port or the password is None. *)
Theorem connect_contract (core : ESSLDeviceCore) :
  let rc := connect py_str py_int zk_connect core in
  device_ip rc.2 = device_ip core /\
  port rc.2 = port core /\
  core_password rc.2 = core_password core /\
  match rc.1 with
  | Ret _ =>
      is_Some (conn rc.2) /\
      match conn core with
      | Some _ => rc.2 = core
      | None =>
          exists port_int password_int c,
            py_int (port core) = IntOk port_int /\
            py_int (core_password core) = IntOk password_int /\
            zk_connect (device_ip core) port_int password_int = Ret c /\
            conn rc.2 = Some c
      end
  | Raise e =>
      (exists msg, e = DeviceError msg) /\ rc.2 = core /\ conn core = None
  end /\
  (conn core = None -> port core = VNone \/ core_password core = VNone ->
   exists msg, rc.1 = Raise (DeviceError msg)).
Proof.
  intros rc. subst rc. unfold connect.
  destruct (conn core) as [c|] eqn:Hc.
  { cbn [fst snd]. rewrite Hc. split_and!; eauto. intros [=]. }
  destruct (port core) eqn:Hp; cbn [is_none];
    try (cbn [fst snd]; split_and!; eauto; intros _ [?|?]; eauto; discriminate).
  all: destruct (core_password core) eqn:Hw; cbn [is_none];
    try (cbn [fst snd]; split_and!; eauto; intros _ [?|?]; eauto; discriminate).
  all: destruct (py_int _) as [po|m|m];
    try (cbn [fst snd]; split_and!; eauto; intros _ [?|?]; discriminate).
  all: destruct (py_int _) as [pw|m|m];
    try (cbn [fst snd]; split_and!; eauto; intros _ [?|?]; discriminate).
  all: destruct (zk_connect (device_ip core) po pw) as [c|e] eqn:Hz;
    cbn [fst snd with_conn device_ip port core_password conn];
    split_and!; eauto 10; try (intros _ [?|?]; discriminate).
Qed.

(** X28. [unlock_door] returns only on an open session, for a number of
    seconds from 1 to 60, after the driver has unlocked for exactly that
    number; a number outside the range is refused with a DeviceError before
    the driver is reached, and a duration that is not a number raises a
    TypeError, not a DeviceError. *)
Theorem unlock_door_bounds (core : ESSLDeviceCore) (seconds : value) :
  match unlock_door py_str zk_unlock core seconds with
  | Ret d =>
      exists c n,
        conn core = Some c /\ unlock_seconds seconds = Ret n /\
        1 <= n <= 60 /\ zk_unlock c n = Ret tt /\
        get "success" d = VBool true /\ get "seconds" d = seconds
  | Raise e =>
      match conn core with
      | None => e = DeviceError "Not connected to device. Call connect() first."
      | Some c =>
          match unlock_seconds seconds with
          | Raise e' => e = e' /\ exists msg, e = TypeError msg
          | Ret n =>
              if (1 <=? n) && (n <=? 60) then
                exists e', zk_unlock c n = Raise e' /\
                  e = DeviceError ("Failed to unlock door: " +:+ exn_msg e')
              else e = DeviceError "Unlock duration must be between 1-60 seconds"
          end
      end
  end.
Proof.
  unfold unlock_door, _ensure_connected.
  destruct (conn core) as [c|]; cbn [mbind outcome_bind]; [|reflexivity].
  destruct (unlock_seconds seconds) as [n|e] eqn:Hn; cbn [mbind outcome_bind].
  - destruct ((1 <=? n) && (n <=? 60)) eqn:Hr; cbn [negb]; [|reflexivity].
    destruct (zk_unlock c n) as [[]|e'] eqn:Hz; cbn [rewrap mbind outcome_bind].
    + exists c, n. split_and!; try done; apply andb_true_iff in Hr as [? ?]; lia.
    + eauto.
  - split; [reflexivity|]. destruct seconds; cbn in Hn; try discriminate;
      injection Hn as <-; eauto.
Qed.

End ConnectionContract.

(** ** The registry: the health of a device *)

Section HealthCheck.

Import DevicePool.

Variable py_str : value -> string.
Variable py_int : value -> Essl.IntResult.
Variable zk_connect : value -> Z -> Z -> outcome Essl.ZKConn.
Variable zk_facts : Essl.ZKConn -> outcome Essl.DeviceFacts.
Variable is_online : Essl.ESSLDeviceCore -> bool.

(** X29. [check_device_health] always answers with a mapping that names
    the device and has a boolean "online".  An unknown device and one the
    probe cannot reach are answered without a connection attempt and the
    registry is left as it was.  In every case no device is added or
    removed, no record changes but for last_seen, which is set to the
    current time only when the device information was obtained, every
    core touched is left without a session, and a device the probe reaches
    is reported online even when the connection to it fails. *)
Theorem check_device_health_degrades (now : Z) (i : string) (p : DevicePoolManager) :
  let hp := DevicePool.check_device_health py_str py_int zk_connect zk_facts is_online
              now i p in
  get "device_id" hp.1 = VStr i /\
  (exists b, get "online" hp.1 = VBool b) /\
  data_file hp.2 = data_file p /\
  (get "online" hp.1 = VBool false -> hp.2 = p) /\
  (forall j,
     option_Forall2
       (λ a b, same_but_last_seen a b /\
               (last_seen b = last_seen a \/
                j = i /\ is_Some (dict_get "firmware" hp.1) /\ last_seen b = VInt now))
       (devices p !! j) (devices hp.2 !! j)) /\
  (forall j,
     option_Forall2 (λ a b, b = a \/ Essl.conn b = None)
       (device_cores p !! j) (device_cores hp.2 !! j)) /\
  (forall core info,
     device_cores p !! i = Some core -> devices p !! i = Some info ->
     get "online" hp.1 = VBool (is_online core) /\
     (is_online core = true ->
      exists core', device_cores hp.2 !! i = Some core' /\ Essl.conn core' = None)).
Proof.
  intros hp. subst hp. unfold DevicePool.check_device_health, get_device_core, get_device_info.
  assert (Hsame : forall j,
            option_Forall2
              (λ a b, same_but_last_seen a b /\ (last_seen b = last_seen a \/ False))
              (devices p !! j) (devices p !! j)).
  { intros j. destruct (devices p !! j); constructor.
    unfold same_but_last_seen. split_and!; auto. }
  assert (Hcores0 : forall j,
            option_Forall2 (λ a b : Essl.ESSLDeviceCore, b = a \/ Essl.conn b = None)
              (device_cores p !! j) (device_cores p !! j)).
  { intros j. destruct (device_cores p !! j); constructor. by left. }
  assert (Hnothing : forall d : dict,
            get "device_id" d = VStr i -> (exists b, get "online" d = VBool b) ->
            get "device_id" d = VStr i /\
            (exists b, get "online" d = VBool b) /\
            data_file p = data_file p /\
            (get "online" d = VBool false -> p = p) /\
            (forall j,
               option_Forall2
                 (λ a b, same_but_last_seen a b /\
                         (last_seen b = last_seen a \/
                          j = i /\ is_Some (dict_get "firmware" d) /\
                          last_seen b = VInt now))
                 (devices p !! j) (devices p !! j)) /\
            (forall j,
               option_Forall2 (λ a b, b = a \/ Essl.conn b = None)
                 (device_cores p !! j) (device_cores p !! j))).
  { intros d H1 H2. split_and!; auto.
    intros j. eapply option_Forall2_weaken; [apply Hsame|].
    intros a b (? & [?|[]]). split; [done | by left]. }
  destruct (device_cores p !! i) as [core|] eqn:Hc.
  2:{ cbn [fst snd].
      destruct (Hnothing [("device_id", VStr i); ("online", VBool false);
                          ("error", VStr "Device not found")])
        as (N1 & N2 & N3 & N4 & N5 & N6); [reflexivity | by eexists |].
      split_and!; auto. intros ? ? [=]. }
  destruct (devices p !! i) as [info|] eqn:Hd.
  2:{ cbn [fst snd].
      destruct (Hnothing [("device_id", VStr i); ("online", VBool false);
                          ("error", VStr "Device not found")])
        as (N1 & N2 & N3 & N4 & N5 & N6); [reflexivity | by eexists |].
      split_and!; auto. intros ? ? _ [=]. }
  destruct (is_online core) eqn:Hon.
  2:{ cbn [fst snd].
      destruct (Hnothing [("device_id", VStr i); ("device_ip", device_ip info);
                          ("online", VBool false); ("last_seen", last_seen info)])
        as (N1 & N2 & N3 & N4 & N5 & N6); [reflexivity | by eexists |].
      split_and!; auto. intros c0 i0 [= <-] _. rewrite Hon. split; [reflexivity|].
      discriminate. }
  pose proof (connection_disconnects py_str py_int zk_connect
                (λ core0, (Essl.get_device_info zk_facts core0, core0)) core) as Hconn.
  destruct (Essl.connection py_str py_int zk_connect _ core) as [r core'].
  cbn [snd] in Hconn.
  set (p1 := keep_core (Some i) core' p).
  assert (Hp1c : forall j,
            option_Forall2 (λ a b : Essl.ESSLDeviceCore, b = a \/ Essl.conn b = None)
              (device_cores p !! j) (device_cores p1 !! j)).
  { intros j. subst p1. cbn [keep_core device_cores].
    destruct (decide (j = i)) as [->|Hj].
    - rewrite Hc, lookup_insert_eq. constructor. by right.
    - rewrite lookup_insert_ne by done. apply Hcores0. }
  assert (Hp1i : exists core'', device_cores p1 !! i = Some core'' /\ Essl.conn core'' = None).
  { subst p1. cbn [keep_core device_cores]. rewrite lookup_insert_eq. eauto. }
  assert (Hfail : forall d : dict,
            get "device_id" d = VStr i -> get "online" d = VBool true ->
            let hp := (d, p1) in
            get "device_id" hp.1 = VStr i /\
            (exists b, get "online" hp.1 = VBool b) /\
            data_file hp.2 = data_file p /\
            (get "online" hp.1 = VBool false -> hp.2 = p) /\
            (forall j,
               option_Forall2
                 (λ a b, same_but_last_seen a b /\
                         (last_seen b = last_seen a \/
                          j = i /\ is_Some (dict_get "firmware" hp.1) /\
                          last_seen b = VInt now))
                 (devices p !! j) (devices hp.2 !! j)) /\
            (forall j,
               option_Forall2 (λ a b, b = a \/ Essl.conn b = None)
                 (device_cores p !! j) (device_cores hp.2 !! j)) /\
            (forall core0 info0,
               Some core = Some core0 -> Some info = Some info0 ->
               get "online" hp.1 = VBool (is_online core0) /\
               (is_online core0 = true ->
                exists core'', device_cores hp.2 !! i = Some core'' /\
                               Essl.conn core'' = None))).
  { intros d Hid Hs hp. subst hp. cbn [fst snd]. split_and!; eauto.
    - rewrite Hs. discriminate.
    - intros j. eapply option_Forall2_weaken; [apply Hsame|].
      intros a b (? & [?|[]]). split; [done | by left].
    - intros c0 i0 [= <-] _. rewrite Hon. split; [exact Hs | auto]. }
  destruct r as [facts|e].
  - cbn [fst snd].
    destruct (update_last_seen_rest now i p1) as (U1 & U2 & U3).
    split_and!.
    + reflexivity.
    + by eexists.
    + rewrite U2. reflexivity.
    + discriminate.
    + intros j. rewrite update_last_seen_devices.
      destruct (decide (j = i)) as [->|Hj].
      * subst p1. cbn [keep_core devices]. rewrite Hd. constructor.
        split; [unfold same_but_last_seen; cbn; split_and!; reflexivity|].
        right. split_and!; [reflexivity | cbn; eauto | reflexivity].
      * eapply option_Forall2_weaken; [apply Hsame|].
        intros a b (? & [?|[]]). split; [done | by left].
    + intros j. rewrite U1. apply Hp1c.
    + intros c0 i0 [= <-] _. rewrite Hon. split; [reflexivity|].
      intros _. rewrite U1. exact Hp1i.
  - destruct e; apply Hfail; reflexivity.
Qed.

End HealthCheck.

(** ** The hardware address of the host *)

Section HardwareAddress.

Import HostConfig.

(** X30. The address [get_physical_mac] reports belongs to an interface
    whose name does not start with lo, docker, br- or veth, is a
    link-layer address, and is neither empty nor all zeros; it reports
    none exactly when no interface has such an address. *)
Theorem get_physical_mac_spec (AF_LINK : Z) (addrs : list (string * list Address)) :
  match get_physical_mac AF_LINK addrs with
  | Some mac =>
      mac <> "" /\ mac <> "00:00:00:00:00:00" /\
      exists iface_name iface_addrs addr,
        In (iface_name, iface_addrs) addrs /\ skipped iface_name = false /\
        In addr iface_addrs /\ family addr = AF_LINK /\ address addr = mac
  | None =>
      forall iface_name iface_addrs addr,
        In (iface_name, iface_addrs) addrs -> skipped iface_name = false ->
        In addr iface_addrs -> family addr = AF_LINK ->
        address addr = "" \/ address addr = "00:00:00:00:00:00"
  end.
Proof.
  assert (Hnone : forall l : list Address,
            List.find (usable AF_LINK) l = None ->
            forall addr, In addr l -> family addr = AF_LINK ->
              address addr = "" \/ address addr = "00:00:00:00:00:00").
  { intros l Hf addr Hin Hfam.
    pose proof (List.find_none _ _ Hf addr Hin) as Hu. unfold usable in Hu.
    rewrite Hfam, Z.eqb_refl in Hu. cbn [andb] in Hu.
    destruct (String.eqb_spec (address addr) ""); [by left|].
    destruct (String.eqb_spec (address addr) "00:00:00:00:00:00"); [by right|].
    discriminate. }
  induction addrs as [|[n l] addrs IH]; cbn [get_physical_mac].
  - intros ? ? ? [].
  - destruct (skipped n) eqn:Hs.
    + destruct (get_physical_mac AF_LINK addrs) as [mac|].
      * destruct IH as (H1 & H2 & n' & l' & a & Hin & Hrest).
        split_and!; auto. exists n', l', a. split; [by right | exact Hrest].
      * intros n' l' a [[= <- <-] | Hin] Hs'; [congruence|]. by apply (IH n' l' a).
    + destruct (List.find (usable AF_LINK) l) as [a|] eqn:Hf.
      * apply List.find_some in Hf as [Hin Hu]. unfold usable in Hu.
        apply andb_true_iff in Hu as [Hu H3]. apply andb_true_iff in Hu as [H1 H2].
        apply Z.eqb_eq in H1. apply negb_true_iff in H2, H3.
        apply String.eqb_neq in H2, H3.
        split_and!; auto. exists n, l, a. split_and!; auto. by left.
      * destruct (get_physical_mac AF_LINK addrs) as [mac|].
        -- destruct IH as (H1 & H2 & n' & l' & a & Hin & Hrest).
           split_and!; auto. exists n', l', a. split; [by right | exact Hrest].
        -- intros n' l' a [[= <- <-] | Hin] Hs' Ha Hfam.
           ++ by apply (Hnone l Hf).
           ++ by apply (IH n' l' a).
Qed.

End HardwareAddress.
